(** * Biodiversity bot: taxon-to-media resolution

    A shallow embedding of the TypeScript sources
    [search-macaulay-for-taxon.ts] (media search session, taxonomy matcher)
    and of the post generator ([getRandomMammalRecord], [generateBirdPost],
    [generateMammalPost]), followed by the properties established for them.

    Conventions of the embedding.
    - JavaScript strings are [string]s; the model covers ASCII text, so
      [toLowerCase] maps the letters A-Z and leaves every other character
      alone, and [length] counts characters.
    - Asset identifiers are integers ([Z]); a field that is absent, or whose
      value has a type the code does not act upon, is [None].
    - [Math.random], the two web services and the CSV files are inputs of the
      run, collected in [Env]; every call consumes the next answer.
    - [console.log] lines that the properties speak about, the network
      requests and the [setTimeout] pauses are recorded as [Event]s.
    - A loop takes a bound on its iterations ([fuel]) and yields
      [OutOfFuel] when the bound is reached; that the loops end is proved,
      not assumed.
    - [generateMammalPost] is one long function in the source; here it is
      the composition of its consecutive parts ([resolveMammal],
      [selectAsset], [finishMammalPost]), each marked with its source lines. *)

From Stdlib Require Import String Ascii List ZArith Lia Bool Arith.
From Stdlib Require Import Numbers.DecimalString.
Import ListNotations.
Open Scope string_scope.

(** ** JavaScript string primitives *)

Module Js.

Definition isUpper (c : ascii) : bool :=
  let n := nat_of_ascii c in ((65 <=? n) && (n <=? 90))%nat.

Definition lowerChar (c : ascii) : ascii :=
  if isUpper c then ascii_of_nat (nat_of_ascii c + 32) else c.

(** [s.toLowerCase()] *)
Fixpoint toLowerCase (s : string) : string :=
  match s with
  | EmptyString => EmptyString
  | String c r => String (lowerChar c) (toLowerCase r)
  end.

(** [s.startsWith(t)] *)
Fixpoint startsWith (s t : string) {struct t} : bool :=
  match t with
  | EmptyString => true
  | String b t' =>
      match s with
      | EmptyString => false
      | String a s' => Ascii.eqb a b && startsWith s' t'
      end
  end.

(** [s.includes(t)] *)
Fixpoint includes (s t : string) : bool :=
  startsWith s t ||
  match s with
  | EmptyString => false
  | String _ r => includes r t
  end.

(** [s.split(sep)] for a non-empty separator.  [skip] counts the characters
    of a separator occurrence that are still to be passed over. *)
Fixpoint splitFrom (sep : string) (skip : nat) (cur s : string) : list string :=
  match s with
  | EmptyString => [cur]
  | String c r =>
      match skip with
      | S k => splitFrom sep k cur r
      | O =>
          if startsWith s sep
          then cur :: splitFrom sep (String.length sep - 1) EmptyString r
          else splitFrom sep 0 (cur ++ String c EmptyString) r
      end
  end.

Definition split (s sep : string) : list string := splitFrom sep 0 EmptyString s.

(** [l.join(sep)] *)
Definition join (l : list string) (sep : string) : string := String.concat sep l.

(** [s.replace(a, b)] with one-character string arguments: only the first
    occurrence is replaced. *)
Fixpoint replaceFirst (s : string) (a b : ascii) : string :=
  match s with
  | EmptyString => EmptyString
  | String c r =>
      if Ascii.eqb c a then String b r else String c (replaceFirst r a b)
  end.

(** White space of [trim] and of the regular expression class [\s]
    (tab, line feed, vertical tab, form feed, carriage return, space). *)
Definition isSpace (c : ascii) : bool :=
  let n := nat_of_ascii c in (((9 <=? n) && (n <=? 13)) || (n =? 32))%nat.

Fixpoint trimStart (s : string) : string :=
  match s with
  | EmptyString => EmptyString
  | String c r => if isSpace c then trimStart r else s
  end.

Fixpoint trimEnd (s : string) : string :=
  match s with
  | EmptyString => EmptyString
  | String c r =>
      match trimEnd r with
      | EmptyString => if isSpace c then EmptyString else String c EmptyString
      | r' => String c r'
      end
  end.

(** [s.trim()] *)
Definition trim (s : string) : string := trimEnd (trimStart s).

(** Truthiness of an optional string: [undefined] and [''] are falsy. *)
Definition truthy (o : option string) : bool :=
  match o with
  | Some s => negb (s =? EmptyString)
  | None => false
  end.

(** [a === b] where [a] may be [undefined] and [b] is a string literal. *)
Definition strictEq (o : option string) (lit : string) : bool :=
  match o with
  | Some s => s =? lit
  | None => false
  end.

(** [String(n)] for an integer. *)
Definition numberToString (n : Z) : string := NilZero.string_of_int (Z.to_int n).

(** [l[0]] *)
Definition first {A : Type} (l : list A) : option A := List.hd_error l.

End Js.

(** ** Records of the media index and of the taxonomy service *)

(** [taxonomy?: {sciName, comName, category}] of a search result. *)
Record Taxonomy : Type := mkTaxonomy {
  sciName : option string;
  comName : option string;
  category : option string
}.

(** One element of a [tags] array: a string, or a value of another type
    (on which [toLowerCase] is not a function). *)
Inductive TagElem : Type :=
| TagText (s : string)
| TagNotText.

(** The [tags] field: a string, an array, or neither (absent, or a value
    that is neither an array nor a string). *)
Inductive TagsField : Type :=
| TagsAbsent
| TagsString (s : string)
| TagsArray (l : list TagElem).

(** One result record of the media index.  [assetId] is [Some n] exactly
    when [typeof item.assetId === 'number']. *)
Record MediaResult : Type := mkMediaResult {
  assetId : option Z;
  taxonomy : option Taxonomy;
  tags : TagsField
}.

(** One descriptor of the name-search service. *)
Record Candidate : Type := mkCandidate {
  name : option string;
  code : option string
}.

Inductive SearchType : Type := SpeciesSearch | FamilySearch.

Definition searchTypeName (t : SearchType) : string :=
  match t with
  | SpeciesSearch => "species"
  | FamilySearch => "family"
  end.

(** ** Errors and outcomes *)

Inductive Error : Type :=
| TypeError
| CsvNotFound
| NoRecordsInCsv
| TestSpeciesNotFound (sci : string)
| NoUsableMediaForTestSpecies (sci : string)
| FailedToFindMedia (maxAttempts : nat)
| NotSpeciesSpecific (cat : option string)
| NoSpeciesSpecificTaxonomy
| TextExceedsLimit.

(** The result of running a piece of code: a value, a thrown error, or
    [OutOfFuel] when a loop was cut before it ended. *)
Inductive Outcome (A : Type) : Type :=
| Value (a : A)
| Thrown (e : Error)
| OutOfFuel.
Arguments Value {A} a.
Arguments Thrown {A} e.
Arguments OutOfFuel {A}.

(** [l.filter(f)] for a callback that may throw: the callback runs on the
    elements in order and its first exception ends the filter. *)
Fixpoint filterM {A : Type} (f : A -> Outcome bool) (l : list A) : Outcome (list A) :=
  match l with
  | [] => Value []
  | x :: r =>
      match f x with
      | Value b =>
          match filterM f r with
          | Value k => Value (if b then x :: k else k)
          | Thrown e => Thrown e
          | OutOfFuel => OutOfFuel
          end
      | Thrown e => Thrown e
      | OutOfFuel => OutOfFuel
      end
  end.

(** ** The media search session: the filter on tags *)

Module Session.

(** [tags.some(tag => tag.toLowerCase().includes('dead'))]: elements are
    visited in order, the first hit ends the scan, and an element without
    [toLowerCase] met before a hit throws. *)
Fixpoint someDead (l : list TagElem) : Outcome bool :=
  match l with
  | [] => Value false
  | TagText s :: r =>
      if Js.includes (Js.toLowerCase s) "dead" then Value true else someDead r
  | TagNotText :: _ => Thrown TypeError
  end.

(** The callback of [jsonData.filter]. *)
Definition keep (item : MediaResult) : Outcome bool :=
  match tags item with
  | TagsArray l =>
      match someDead l with
      | Value b => Value (negb b)
      | Thrown e => Thrown e
      | OutOfFuel => OutOfFuel
      end
  | TagsString s => Value (negb (Js.includes (Js.toLowerCase s) "dead"))
  | TagsAbsent => Value true
  end.

(** [jsonData.filter(keep)] *)
Definition filterResults (jsonData : list MediaResult) : Outcome (list MediaResult) :=
  filterM keep jsonData.

(** [filteredResults.map(item => item.assetId).filter(id => typeof id === 'number')] *)
Fixpoint numericIds (l : list MediaResult) : list Z :=
  match l with
  | [] => []
  | item :: r =>
      match assetId item with
      | Some n => n :: numericIds r
      | None => numericIds r
      end
  end.

(** [filteredResults.find(item => item.assetId === assetId)] *)
Definition findAsset (filteredResults : list MediaResult) (id : Z) : option MediaResult :=
  List.find (fun item => match assetId item with
                         | Some n => Z.eqb n id
                         | None => false
                         end) filteredResults.

End Session.

(** The object returned by [searchMacaulayForTaxon]. *)
Record AssetSearch : Type := mkAssetSearch {
  foundIds : list Z;
  lookupAsset : Z -> option MediaResult
}.

(** The body of a response of the media index. *)
Inductive MediaResponse : Type :=
| MainPageFailed
| ApiCallFailed
| BodyNotArray
| BodyArray (jsonData : list MediaResult).

(** The part of [searchMacaulayForTaxon] that follows the two page loads:
    [null] unless the body is an array; the [catch] turns every exception
    into [null]. *)
Definition searchOutcome (resp : MediaResponse) : option AssetSearch :=
  match resp with
  | MainPageFailed | ApiCallFailed | BodyNotArray => None
  | BodyArray jsonData =>
      match Session.filterResults jsonData with
      | Value filteredResults =>
          Some {| foundIds := Session.numericIds filteredResults;
                  lookupAsset := Session.findAsset filteredResults |}
      | Thrown _ | OutOfFuel => None
      end
  end.

(** ** The taxonomy matcher *)

Module Matcher.

(** [itemName.includes(` - ${searchLower}`) || itemName.includes(`- ${searchLower}`)]
    with [itemName = item.name?.toLowerCase() || '']. *)
Definition scientificNameMatch (searchTerm : string) (item : Candidate) : bool :=
  let searchLower := Js.toLowerCase searchTerm in
  let itemName := match name item with
                  | Some n => Js.toLowerCase n
                  | None => EmptyString
                  end in
  Js.includes itemName (" - " ++ searchLower) || Js.includes itemName ("- " ++ searchLower).

(** [item.code?.includes(`,${searchType}`) || false] *)
Definition typeMatch (searchType : SearchType) (item : Candidate) : bool :=
  match code item with
  | Some c => Js.includes c ("," ++ searchTypeName searchType)
  | None => false
  end.

Definition isExactMatch (searchTerm : string) (searchType : SearchType)
    (item : Candidate) : bool :=
  scientificNameMatch searchTerm item && typeMatch searchType item.

End Matcher.

(** [findBestTaxonomyMatch(taxonomyData, searchTerm, searchType)] for an
    array argument ([None] is [null]). *)
Definition findBestTaxonomyMatch (taxonomyData : list Candidate) (searchTerm : string)
    (searchType : SearchType) : option Candidate :=
  match taxonomyData with
  | [] => None
  | _ :: _ =>
      let exactMatches := List.filter (Matcher.isExactMatch searchTerm searchType) taxonomyData in
      match exactMatches with
      | m :: _ => Some m
      | [] =>
          let typeMatches := List.filter (Matcher.typeMatch searchType) taxonomyData in
          match typeMatches with
          | m :: _ => Some m
          | [] => Js.first taxonomyData
          end
      end
  end.

(** ** Reference records *)

Module Bird.
Record BirdRecord : Type := mkBirdRecord {
  Order : string;
  Family : string;
  Family_English_name : string;
  Scientific_name : string;
  English_name_AviList : string;
  Range : string;
  IUCN_Red_List_Category : string;
  Species_code_Cornell_Lab : string
}.
End Bird.

Module Mammal.
Record MammalRecord : Type := mkMammalRecord {
  sciName : string;
  mainCommonName : string;
  order : string;
  family : string;
  continentDistribution : string;
  biogeographicRealm : string;
  iucnStatus : string;
  distributionNotes : string
}.
End Mammal.

(** [interface MacaulaySearchResult] *)
Record MacaulaySearchResult : Type := mkMacaulaySearchResult {
  assetIds : list Z;
  taxonomyLevel : string;
  commonName : option string;
  getAssetDetails : option (Z -> option MediaResult)
}.

(** The value returned by [generateBirdPost] and [generateMammalPost]; of
    the page metadata the model keeps the [uri]. *)
Record Post : Type := mkPost {
  text : string;
  uri : string
}.

(** ** The run: inputs, state, events *)

(** The body of a response of the name-search service. *)
Inductive TaxonomyResponse : Type :=
| TaxonomyCallFailed
| TaxonomyNotArray
| TaxonomyArray (taxonomyData : list Candidate).

(** What a run reads from outside.  [mathRandom k] stands for the [k]-th
    call of [Math.random()]: [Math.floor(Math.random() * n)] is
    [mathRandom k mod n].  The services answer the [k]-th request. *)
Record Env : Type := mkEnv {
  mathRandom : nat -> nat;
  taxonomyApi : nat -> string -> TaxonomyResponse;
  mediaApi : nat -> string -> bool -> MediaResponse;
  birdCsv : option (list Bird.BirdRecord);
  mammalCsv : option (list Mammal.MammalRecord)
}.

Record World : Type := mkWorld {
  randomCalls : nat;
  requests : nat
}.

Inductive Event : Type :=
| LogAttempt (n : nat)
| LogReroll (n : nat)
| LogKeepAfterRerolls
| RequestTaxonomy (searchTerm : string)
| MediaSession (taxonCode : string) (includeChildTaxa : bool)
| Sleep (ms : nat)
| LogSelectedAsset (id : Z)
| LogAssetTaxonomy (t : option Taxonomy)
| FetchMetadata (url : string).

(** A computation: from a world to an outcome, the next world and the
    events of the computation in the order they happened. *)
Definition M (A : Type) : Type := World -> Outcome A * World * list Event.

Definition ret {A : Type} (a : A) : M A := fun w => (Value a, w, []).

Definition bind {A B : Type} (m : M A) (k : A -> M B) : M B :=
  fun w =>
    match m w with
    | (Value a, w1, e1) => let '(o, w2, e2) := k a w1 in (o, w2, (e1 ++ e2)%list)
    | (Thrown e, w1, e1) => (Thrown e, w1, e1)
    | (OutOfFuel, w1, e1) => (OutOfFuel, w1, e1)
    end.

Definition throw {A : Type} (e : Error) : M A := fun w => (Thrown e, w, []).

Definition outOfFuel {A : Type} : M A := fun w => (OutOfFuel, w, []).

Definition emit (ev : Event) : M unit := fun w => (Value tt, w, [ev]).

Definition lift {A : Type} (o : Outcome A) : M A := fun w => (o, w, []).

Declare Scope run_scope.
Delimit Scope run_scope with run.
Notation "x <- m ;; k" := (bind m (fun x => k))
  (at level 61, m at next level, right associativity) : run_scope.
Notation "m ;; k" := (bind m (fun _ => k))
  (at level 61, right associativity) : run_scope.
Open Scope run_scope.

(** ** Early return inside a callback *)

(** The state after a statement of a callback body: it returned, it threw,
    or control goes on to the next statement. *)
Inductive Flow (A : Type) : Type :=
| Return (a : A)
| Raise (e : Error)
| Continue.
Arguments Return {A} a.
Arguments Raise {A} e.
Arguments Continue {A}.

Definition andThen {A : Type} (s1 s2 : Flow A) : Flow A :=
  match s1 with
  | Continue => s2
  | _ => s1
  end.

Definition when {A : Type} (c : bool) (s : Flow A) : Flow A :=
  if c then s else Continue.

Notation "s1 ;;; s2" := (andThen s1 s2) (at level 62, right associativity).

(** The value of a filter callback: a body that ends without [return]
    yields [undefined], which the filter reads as false. *)
Definition callbackResult (s : Flow bool) : Outcome bool :=
  match s with
  | Return b => Value b
  | Raise e => Thrown e
  | Continue => Value false
  end.

(** The value of [Math.floor(Math.random() * n)] at the [k]-th call. *)
Definition drawIndex (env : Env) (k n : nat) : nat :=
  if (n =? 0)%nat then 0 else Nat.modulo (mathRandom env k) n.

Section Run.

Variable env : Env.

(** [Math.floor(Math.random() * n)] *)
Definition floorRandom (n : nat) : M nat :=
  fun w =>
    (Value (drawIndex env (randomCalls w) n),
     {| randomCalls := S (randomCalls w); requests := requests w |},
     []).

(** [searchMacaulayForTaxon(taxonCode, includeChildTaxa)]: one browser
    session, closed on every path; never throws. *)
Definition searchMacaulayForTaxon (taxonCode : string) (includeChildTaxa : bool)
    : M (option AssetSearch) :=
  fun w =>
    (Value (searchOutcome (mediaApi env (requests w) taxonCode includeChildTaxa)),
     {| randomCalls := randomCalls w; requests := S (requests w) |},
     [MediaSession taxonCode includeChildTaxa]).

(** [fetch(taxonomyUrl)] followed by [response.json()] *)
Definition fetchTaxonomy (searchTerm : string) : M TaxonomyResponse :=
  fun w =>
    (Value (taxonomyApi env (requests w) searchTerm),
     {| randomCalls := randomCalls w; requests := S (requests w) |},
     [RequestTaxonomy searchTerm]).

(** [searchMacaulayByTaxonomy(searchTerm, searchType)] *)
Definition searchMacaulayByTaxonomy (searchTerm : string) (searchType : SearchType)
    : M (option MacaulaySearchResult) :=
  resp <- fetchTaxonomy searchTerm ;;
  match resp with
  | TaxonomyCallFailed | TaxonomyNotArray => ret None
  | TaxonomyArray [] => ret None
  | TaxonomyArray taxonomyData =>
      match findBestTaxonomyMatch taxonomyData searchTerm searchType with
      | None => ret None
      | Some selectedTaxonomy =>
          let taxonCode := match code selectedTaxonomy with
                           | Some c => Js.first (Js.split c ",")
                           | None => None
                           end in
          let commonName := match name selectedTaxonomy with
                            | Some n => Js.first (Js.split n " - ")
                            | None => None
                            end in
          match taxonCode with
          | None => ret None
          | Some taxonCode =>
              if (taxonCode =? EmptyString)%string then ret None
              else
                searchResults <- searchMacaulayForTaxon taxonCode true ;;
                match searchResults with
                | None => ret None
                | Some found =>
                    if (List.length (foundIds found) =? 0)%nat then ret None
                    else ret (Some {| assetIds := foundIds found;
                                      taxonomyLevel := searchTypeName searchType;
                                      commonName := commonName;
                                      getAssetDetails := Some (lookupAsset found) |})
                end
          end
      end
  end.

(** *** The sampler *)

(** [getRandomBirdRecord(records)]; reading a field of [undefined] (empty
    list) is a [TypeError] at the first use of the record. *)
Definition getRandomBirdRecord (records : list Bird.BirdRecord) : M Bird.BirdRecord :=
  randomIndex <- floorRandom (List.length records) ;;
  match nth_error records randomIndex with
  | Some r => ret r
  | None => throw TypeError
  end.

Definition maxRerolls : nat := 2.

Definition shouldReroll (selectedMammal : Mammal.MammalRecord) : bool :=
  (Mammal.family selectedMammal =? "Muridae")%string ||
  (Mammal.family selectedMammal =? "Soricidae")%string ||
  (Mammal.order selectedMammal =? "Chiroptera")%string.

(** The [do ... while (rerollCount <= maxRerolls)] loop of
    [getRandomMammalRecord] (lines 161-180); [fuel] bounds the number of
    iterations. *)
Fixpoint rerollLoop (fuel : nat) (records : list Mammal.MammalRecord) (rerollCount : nat)
    : M Mammal.MammalRecord :=
  match fuel with
  | O => outOfFuel
  | S fuel' =>
      randomIndex <- floorRandom (List.length records) ;;
      match nth_error records randomIndex with
      | None => throw TypeError
      | Some selectedMammal =>
          if shouldReroll selectedMammal && (rerollCount <? maxRerolls)%nat
          then
            emit (LogReroll (rerollCount + 1)) ;;
            let rerollCount := rerollCount + 1 in
            if (rerollCount <=? maxRerolls)%nat
            then rerollLoop fuel' records rerollCount
            else ret selectedMammal
          else
            (if shouldReroll selectedMammal && (maxRerolls <=? rerollCount)%nat
             then emit LogKeepAfterRerolls
             else ret tt) ;;
            ret selectedMammal
      end
  end.

(** [getRandomMammalRecord(records)] *)
Definition getRandomMammalRecord (fuel : nat) (records : list Mammal.MammalRecord)
    : M Mammal.MammalRecord :=
  rerollLoop fuel records 0.

End Run.

(** ** The asset taxonomy classifier *)

Module Classifier.

(** [assetDetails?.taxonomy] *)
Definition taxonomyOf (assetDetails : option MediaResult) : option Taxonomy :=
  match assetDetails with
  | Some d => taxonomy d
  | None => None
  end.

(** [assetDetails?.tags] *)
Definition tagsOf (assetDetails : option MediaResult) : TagsField :=
  match assetDetails with
  | Some d => tags d
  | None => TagsAbsent
  end.

(** [!taxonomy || !taxonomy.sciName] *)
Definition missingName (taxonomy : option Taxonomy) : bool :=
  match taxonomy with
  | Some t => negb (Js.truthy (sciName t))
  | None => true
  end.

(** [taxonomy.category === lit], read after the guard on [taxonomy]. *)
Definition categoryIs (taxonomy : option Taxonomy) (lit : string) : bool :=
  match taxonomy with
  | Some t => Js.strictEq (category t) lit
  | None => false
  end.

(** [taxonomy.sciName], read after the guard on [taxonomy.sciName]. *)
Definition sciNameOf (taxonomy : option Taxonomy) : string :=
  match taxonomy with
  | Some t => match sciName t with
              | Some s => s
              | None => EmptyString
              end
  | None => EmptyString
  end.

(** The statements on [tags] that close both filter callbacks. *)
Definition deadTagCheck (assetDetails : option MediaResult) : Flow bool :=
  match tagsOf assetDetails with
  | TagsArray l =>
      match Session.someDead l with
      | Value b => when b (Return false)
      | Thrown e => Raise e
      | OutOfFuel => Continue
      end
  | TagsString s => when (Js.includes (Js.toLowerCase s) "dead") (Return false)
  | TagsAbsent => Continue
  end.

(** Body of the filter callback of the test-species branch (lines
    382-419): the target is the scientific name of [selectedMammal]. *)
Definition speciesSpecificForTarget (selectedMammal : Mammal.MammalRecord)
    (assetDetails : option MediaResult) : Flow bool :=
  let taxonomy := taxonomyOf assetDetails in
  when (missingName taxonomy) (Return false) ;;;
  when (categoryIs taxonomy "species") (Return true) ;;;
  when (categoryIs taxonomy "subspecies")
    (let targetSpecies := Js.replaceFirst (Mammal.sciName selectedMammal) "_" " " in
     Return (Js.startsWith (sciNameOf taxonomy) (targetSpecies ++ " "))) ;;;
  Return false ;;;
  deadTagCheck assetDetails ;;;
  Return true.

(** Body of the filter callback of the sampling branch (lines 465-499):
    no target. *)
Definition speciesSpecificAny (assetDetails : option MediaResult) : Flow bool :=
  let taxonomy := taxonomyOf assetDetails in
  when (missingName taxonomy) (Return false) ;;;
  when (categoryIs taxonomy "species") (Return true) ;;;
  when (categoryIs taxonomy "subspecies") (Return true) ;;;
  Return false ;;;
  deadTagCheck assetDetails ;;;
  Return true.

(** The classifier: [classify None] is the sampling callback, and
    [classify (Some m)] the test-species callback for the record [m]. *)
Definition classify (target : option Mammal.MammalRecord) (assetDetails : option MediaResult)
    : Outcome bool :=
  callbackResult
    match target with
    | Some selectedMammal => speciesSpecificForTarget selectedMammal assetDetails
    | None => speciesSpecificAny assetDetails
    end.

(** [actualTaxonomy.category === 'species' || ... === 'subspecies'] *)
Definition speciesOrSubspecies (t : Taxonomy) : bool :=
  Js.strictEq (category t) "species" || Js.strictEq (category t) "subspecies".

(** The name looked up in the reference list (lines 547-554): a
    subspecies name is cut to [parts[0] + ' ' + parts[1]]. *)
Definition normalizedSciName (actualTaxonomy : Taxonomy) (sci : string) : string :=
  if Js.strictEq (category actualTaxonomy) "subspecies"
  then
    match Js.split sci " " with
    | p0 :: p1 :: _ => p0 ++ " " ++ p1
    | _ => sci
    end
  else sci.

(** The name shown in the post (lines 582-590). *)
Definition displaySciName (actualTaxonomy : Taxonomy) (sci : string) : string :=
  if Js.strictEq (category actualTaxonomy) "subspecies"
  then
    match Js.split sci " " with
    | p0 :: p1 :: _ => p0 ++ " " ++ p1
    | _ => sci
    end
  else sci.

End Classifier.

(** ** The text of a post *)

Module PostText.

Definition nl : string := String (ascii_of_nat 10) EmptyString.

Definition IUCN_STATUS_MAP (k : string) : option string :=
  if k =? "EX" then Some "Extinct"
  else if k =? "EW" then Some "Extinct in the Wild"
  else if k =? "CR" then Some "Critically Endangered"
  else if k =? "EN" then Some "Endangered"
  else if k =? "VU" then Some "Vulnerable"
  else if k =? "NT" then Some "Near Threatened"
  else if k =? "LC" then Some "Least Concern"
  else if k =? "DD" then Some "Data Deficient"
  else if k =? "NE" then Some "Not Evaluated"
  else None.

(** [`IUCN status: ${IUCN_STATUS_MAP[k] || 'Unknown'}`] *)
Definition footerOf (k : string) : string :=
  "IUCN status: " ++ match IUCN_STATUS_MAP k with
                     | Some v => v
                     | None => "Unknown"
                     end.

Fixpoint dropChars (n : nat) (s : string) : string :=
  match n, s with
  | S k, String _ r => dropChars k r
  | _, _ => s
  end.

(** Number of characters matched by [\s*\(Continent\)\s*] at the start of
    [s], if it matches there. *)
Definition matchContinent (s : string) : option nat :=
  let a := Js.trimStart s in
  if Js.startsWith a "(Continent)"
  then Some (String.length s - String.length (Js.trimStart (dropChars 11 a)))
  else None.

(** [s.replace(/\s*\(Continent\)\s*/g, '')]; [skip] counts the characters of
    a match that are still to be dropped. *)
Fixpoint removeContinent (skip : nat) (s : string) : string :=
  match s with
  | EmptyString => EmptyString
  | String c r =>
      match skip with
      | S k => removeContinent k r
      | O =>
          match matchContinent s with
          | Some m => removeContinent (m - 1) r
          | None => String c (removeContinent 0 r)
          end
      end
  end.

Definition directions : list string :=
  ["atlantic"; "pacific"; "eastern"; "western"; "northern"; "southern"].

(** What follows a match of
    [\s+(Atlantic|Pacific|Eastern|Western|Northern|Southern)\s+] (flag [i])
    at the start of [s], if it matches there. *)
Definition matchDirection (s : string) : option string :=
  match s with
  | EmptyString => None
  | String c _ =>
      if Js.isSpace c
      then
        let a := Js.trimStart s in
        match List.find (Js.startsWith (Js.toLowerCase a)) directions with
        | Some d =>
            match dropChars (String.length d) a with
            | String c' r' =>
                if Js.isSpace c' then Some (Js.trimStart r') else None
            | EmptyString => None
            end
        | None => None
        end
      else None
  end.

(** [s.replace(/\s+(Atlantic|...|Southern)\s+/i, '')]: the first match only. *)
Fixpoint removeDirection (s : string) : string :=
  match s with
  | EmptyString => EmptyString
  | String c r =>
      match matchDirection s with
      | Some rest => rest
      | None => String c (removeDirection r)
      end
  end.

(** The text of a bird post before the length check. *)
Definition birdText (selectedBird : Bird.BirdRecord) : string :=
  let text := Bird.English_name_AviList selectedBird ++ " (" ++
              Bird.Scientific_name selectedBird ++ ")" ++ nl ++ nl ++ "Family " ++
              Bird.Family selectedBird ++ " (" ++
              Bird.Family_English_name selectedBird ++ ")" ++ nl in
  let footer := footerOf (Bird.IUCN_Red_List_Category selectedBird) in
  let range := Bird.Range selectedBird in
  let text :=
    if negb (range =? EmptyString) &&
       (String.length range + String.length text + String.length footer <? 300)%nat
    then text ++ "Range: " ++ range ++ nl
    else text in
  if (String.length text + String.length footer <? 300)%nat
  then text ++ footer
  else text.

(** [distributionInfo] of a mammal post. *)
Definition distributionInfoOf (postMammal : Mammal.MammalRecord) : string :=
  let realm := Mammal.biogeographicRealm postMammal in
  if negb (realm =? EmptyString)
  then
    let distributionInfo := Js.join (List.map Js.trim (Js.split realm "|")) ", " in
    let continent := Mammal.continentDistribution postMammal in
    if negb (continent =? EmptyString)
    then
      let continents :=
        List.map (fun c => removeContinent 0 (Js.trim c)) (Js.split continent "|") in
      if (List.length continents <=? 3)%nat
      then distributionInfo ++ " (" ++ Js.join continents ", " ++ ")"
      else distributionInfo
    else distributionInfo
  else EmptyString.

(** The first lines of a mammal post, for a taxonomy that passed the test
    on [sciName], [comName] and [category]. *)
Definition mammalHeader (actualTaxonomy : Taxonomy) (sci com : string)
    (postMammal : Mammal.MammalRecord) : string :=
  let displaySciName := Classifier.displaySciName actualTaxonomy sci in
  let displayComName :=
    if Js.strictEq (category actualTaxonomy) "subspecies"
    then
      if negb (Mammal.mainCommonName postMammal =? EmptyString)
      then Mammal.mainCommonName postMammal
      else removeDirection com
    else com in
  displayComName ++ " (" ++ displaySciName ++ ")" ++ nl ++ nl ++ "Family " ++
  Mammal.family postMammal ++ nl.

(** The text of a mammal post, from its first lines, before the length check. *)
Definition mammalText (header : string) (postMammal : Mammal.MammalRecord) : string :=
  let distributionInfo := distributionInfoOf postMammal in
  let footer := footerOf (Mammal.iucnStatus postMammal) in
  let text :=
    if negb (distributionInfo =? EmptyString) &&
       (String.length distributionInfo + String.length header + String.length footer <? 280)%nat
    then header ++ "Range: " ++ distributionInfo ++ nl
    else header in
  if (String.length text + String.length footer <? 300)%nat
  then text ++ footer
  else text.

Definition assetUrl (randomAssetId : Z) : string :=
  "https://macaulaylibrary.org/asset/" ++ Js.numberToString randomAssetId ++ "/embed".

End PostText.

(** ** Post generation *)

Section Generate.

Variable env : Env.

(** [!assetIds || assetIds.length === 0] *)
Definition noIds (assetIds : option (list Z)) : bool :=
  match assetIds with
  | Some l => (List.length l =? 0)%nat
  | None => true
  end.

(** [!searchResult || searchResult.assetIds.length === 0] *)
Definition noMedia (searchResult : option MacaulaySearchResult) : bool :=
  match searchResult with
  | Some r => (List.length (assetIds r) =? 0)%nat
  | None => true
  end.

(** [assetIds[Math.floor(Math.random() * assetIds.length)]]; the index is
    below the length of a non-empty list. *)
Definition pickAsset (ids : list Z) : M Z :=
  randomIndex <- floorRandom env (List.length ids) ;;
  ret (List.nth randomIndex ids 0%Z).

Definition birdMaxAttempts : nat := 3.

(** The [while] loop of [generateBirdPost] (lines 290-306). *)
Fixpoint birdLoop (fuel : nat) (birdRecords : list Bird.BirdRecord) (attempts : nat)
    (assetIds : option (list Z)) (selectedBird : option Bird.BirdRecord)
    : M (option (list Z) * option Bird.BirdRecord) :=
  if (attempts <? birdMaxAttempts)%nat && noIds assetIds
  then
    match fuel with
    | O => outOfFuel
    | S fuel' =>
        let attempts := attempts + 1 in
        emit (LogAttempt attempts) ;;
        selectedBird <- getRandomBirdRecord env birdRecords ;;
        found <- searchMacaulayForTaxon env (Bird.Species_code_Cornell_Lab selectedBird) false ;;
        let assetIds := option_map foundIds found in
        if negb (noIds assetIds)
        then ret (assetIds, Some selectedBird)
        else birdLoop fuel' birdRecords attempts assetIds (Some selectedBird)
    end
  else ret (assetIds, selectedBird).

(** [generateBirdPost()] *)
Definition generateBirdPost (fuel : nat) : M Post :=
  match birdCsv env with
  | None => throw CsvNotFound
  | Some birdRecords =>
      if (List.length birdRecords =? 0)%nat then throw NoRecordsInCsv
      else
        found <- birdLoop fuel birdRecords 0 None None ;;
        match fst found with
        | None => throw (FailedToFindMedia birdMaxAttempts)
        | Some assetIds =>
            if (List.length assetIds =? 0)%nat
            then throw (FailedToFindMedia birdMaxAttempts)
            else
              randomAssetId <- pickAsset assetIds ;;
              emit (LogSelectedAsset randomAssetId) ;;
              let macaulayUrl := PostText.assetUrl randomAssetId in
              match snd found with
              | None => throw TypeError
              | Some selectedBird =>
                  let text := PostText.birdText selectedBird in
                  if (300 <? String.length text)%nat then throw TextExceedsLimit
                  else
                    emit (FetchMetadata macaulayUrl) ;;
                    ret {| text := text; uri := macaulayUrl |}
              end
        end
  end.

Definition maxAttempts : nat := 5.

(** The family-level search of one mammal and the narrowing of its results
    by the classifier (lines 376-429 with a target, lines 459-511
    without).  The result is the new value of [searchResult] and whether a
    species-specific pool was found. *)
Definition familyFallback (target : option Mammal.MammalRecord)
    (selectedMammal : Mammal.MammalRecord) : M (option MacaulaySearchResult * bool) :=
  searchResult <- searchMacaulayByTaxonomy env (Mammal.family selectedMammal) FamilySearch ;;
  match searchResult with
  | Some r =>
      match getAssetDetails r with
      | Some details =>
          if (0 <? List.length (assetIds r))%nat
          then
            speciesSpecificAssets <-
              lift (filterM (fun assetId => Classifier.classify target (details assetId))
                            (assetIds r)) ;;
            if (0 <? List.length speciesSpecificAssets)%nat
            then ret (Some {| assetIds := speciesSpecificAssets;
                              taxonomyLevel := taxonomyLevel r;
                              commonName := commonName r;
                              getAssetDetails := getAssetDetails r |}, true)
            else ret (None, false)
          else ret (searchResult, false)
      | None => ret (searchResult, false)
      end
  | None => ret (None, false)
  end.

(** The test-species branch of [generateMammalPost] (lines 358-434). *)
Definition resolveTestSpecies (mammalRecords : list Mammal.MammalRecord)
    (testSpeciesSciName : string) : M (option MacaulaySearchResult * Mammal.MammalRecord) :=
  match List.find (fun m => Mammal.sciName m =? testSpeciesSciName) mammalRecords with
  | None => throw (TestSpeciesNotFound testSpeciesSciName)
  | Some selectedMammal =>
      let speciesFormattedSciName := Js.replaceFirst (Mammal.sciName selectedMammal) "_" " " in
      searchResult <- searchMacaulayByTaxonomy env speciesFormattedSciName SpeciesSearch ;;
      if noMedia searchResult
      then
        narrowed <- familyFallback (Some selectedMammal) selectedMammal ;;
        let searchResult := fst narrowed in
        if noMedia searchResult
        then throw (NoUsableMediaForTestSpecies testSpeciesSciName)
        else ret (searchResult, selectedMammal)
      else ret (searchResult, selectedMammal)
  end.

(** The [while] loop of the sampling branch of [generateMammalPost]
    (lines 438-519). *)
Fixpoint samplingLoop (fuel rerollFuel : nat) (mammalRecords : list Mammal.MammalRecord)
    (attempts : nat) (searchResult : option MacaulaySearchResult)
    (selectedMammal : option Mammal.MammalRecord)
    : M (option MacaulaySearchResult * option Mammal.MammalRecord) :=
  if (attempts <? maxAttempts)%nat && noMedia searchResult
  then
    match fuel with
    | O => outOfFuel
    | S fuel' =>
        let attempts := attempts + 1 in
        emit (LogAttempt attempts) ;;
        selectedMammal <- getRandomMammalRecord env rerollFuel mammalRecords ;;
        let speciesFormattedSciName := Js.replaceFirst (Mammal.sciName selectedMammal) "_" " " in
        searchResult <- searchMacaulayByTaxonomy env speciesFormattedSciName SpeciesSearch ;;
        if negb (noMedia searchResult)
        then ret (searchResult, Some selectedMammal)
        else
          narrowed <- familyFallback None selectedMammal ;;
          if snd narrowed
          then ret (fst narrowed, Some selectedMammal)
          else
            (if (attempts <? maxAttempts)%nat then emit (Sleep 5000) else ret tt) ;;
            samplingLoop fuel' rerollFuel mammalRecords attempts (fst narrowed)
                         (Some selectedMammal)
    end
  else ret (searchResult, selectedMammal).

(** The first part of [generateMammalPost] (lines 338-520): the CSV and
    the choice of a record with media.  [None] for [selectedMammal] is a
    variable that was never assigned. *)
Definition resolveMammal (fuel : nat) (testSpeciesSciName : option string)
    : M (list Mammal.MammalRecord * option MacaulaySearchResult * option Mammal.MammalRecord) :=
  match mammalCsv env with
  | None => throw CsvNotFound
  | Some mammalRecords =>
      if (List.length mammalRecords =? 0)%nat then throw NoRecordsInCsv
      else
        match testSpeciesSciName with
        | Some t =>
            if negb (t =? EmptyString)
            then
              r <- resolveTestSpecies mammalRecords t ;;
              ret (mammalRecords, fst r, Some (snd r))
            else
              r <- samplingLoop fuel fuel mammalRecords 0 None None ;;
              ret (mammalRecords, fst r, snd r)
        | None =>
            r <- samplingLoop fuel fuel mammalRecords 0 None None ;;
            ret (mammalRecords, fst r, snd r)
        end
  end.

(** The choice of the asset and the check of its own taxonomy (lines
    526-540). *)
Definition selectAsset (searchResult : MacaulaySearchResult) : M (Z * option Taxonomy) :=
  randomAssetId <- pickAsset (assetIds searchResult) ;;
  emit (LogSelectedAsset randomAssetId) ;;
  match getAssetDetails searchResult with
  | Some details =>
      let actualTaxonomy := Classifier.taxonomyOf (details randomAssetId) in
      emit (LogAssetTaxonomy actualTaxonomy) ;;
      match actualTaxonomy with
      | Some t =>
          if Classifier.speciesOrSubspecies t
          then ret (randomAssetId, actualTaxonomy)
          else throw (NotSpeciesSpecific (category t))
      | None => throw (NotSpeciesSpecific None)
      end
  | None => ret (randomAssetId, None)
  end.

(** The reference record the post is written from ([postMammal], lines
    544-565). *)
Definition postMammalOf (mammalRecords : list Mammal.MammalRecord)
    (selectedMammal : option Mammal.MammalRecord) (actualTaxonomy : option Taxonomy)
    : option Mammal.MammalRecord :=
  match actualTaxonomy with
  | Some t =>
      match sciName t with
      | Some sci =>
          if negb (sci =? EmptyString)
          then
            let normalizedSciName := Classifier.normalizedSciName t sci in
            let imageSpeciesSciName := Js.replaceFirst normalizedSciName " " "_" in
            match List.find (fun m => Mammal.sciName m =? imageSpeciesSciName) mammalRecords with
            | Some matchingMammal => Some matchingMammal
            | None => selectedMammal
            end
          else selectedMammal
      | None => selectedMammal
      end
  | None => selectedMammal
  end.

(** The second part of [generateMammalPost] (lines 526-640).  Reading a
    field of a [postMammal] that was never assigned is a [TypeError]. *)
Definition finishMammalPost (mammalRecords : list Mammal.MammalRecord)
    (searchResult : MacaulaySearchResult) (selectedMammal : option Mammal.MammalRecord)
    : M Post :=
  chosen <- selectAsset searchResult ;;
  let randomAssetId := fst chosen in
  let actualTaxonomy := snd chosen in
  match postMammalOf mammalRecords selectedMammal actualTaxonomy with
  | None => throw TypeError
  | Some postMammal =>
      let macaulayUrl := PostText.assetUrl randomAssetId in
      match actualTaxonomy with
      | Some t =>
          match sciName t, comName t with
          | Some sci, Some com =>
              if negb (sci =? EmptyString) && negb (com =? EmptyString) &&
                 Classifier.speciesOrSubspecies t
              then
                let text := PostText.mammalText (PostText.mammalHeader t sci com postMammal)
                                                postMammal in
                if (300 <? String.length text)%nat then throw TextExceedsLimit
                else
                  emit (FetchMetadata macaulayUrl) ;;
                  ret {| text := text; uri := macaulayUrl |}
              else throw NoSpeciesSpecificTaxonomy
          | _, _ => throw NoSpeciesSpecificTaxonomy
          end
      | None => throw NoSpeciesSpecificTaxonomy
      end
  end.

(** [generateMammalPost(testSpeciesSciName)]; the test on [searchResult]
    is the one of lines 522-524. *)
Definition generateMammalPost (fuel : nat) (testSpeciesSciName : option string) : M Post :=
  r <- resolveMammal fuel testSpeciesSciName ;;
  let '(mammalRecords, searchResult, selectedMammal) := r in
  match searchResult with
  | Some found =>
      if (List.length (assetIds found) =? 0)%nat
      then throw (FailedToFindMedia maxAttempts)
      else finishMammalPost mammalRecords found selectedMammal
  | None => throw (FailedToFindMedia maxAttempts)
  end.

End Generate.

(** ** The reference files *)

Module Csv.

(** The double quote character. *)
Definition quote : ascii := ascii_of_nat 34.

(** The [for] loop of [parseCSVLine] (lines 127-138) from the state
    [result], [current], [inQuotes], and the final [push] (line 140). *)
Fixpoint parseFrom (result : list string) (current : string) (inQuotes : bool)
    (line : string) : list string :=
  match line with
  | EmptyString => (result ++ [Js.trim current])%list
  | String char rest =>
      if Ascii.eqb char quote
      then parseFrom result current (negb inQuotes) rest
      else if Ascii.eqb char ","%char && negb inQuotes
           then parseFrom (result ++ [Js.trim current])%list EmptyString inQuotes rest
           else parseFrom result (current ++ String char EmptyString) inQuotes rest
  end.

(** [parseCSVLine(line)] *)
Definition parseCSVLine (line : string) : list string :=
  parseFrom [] EmptyString false line.

(** [values[i] || ''] *)
Definition field (values : list string) (i : nat) : string :=
  List.nth i values EmptyString.

Definition birdOfValues (values : list string) : Bird.BirdRecord :=
  {| Bird.Order := field values 0;
     Bird.Family := field values 1;
     Bird.Family_English_name := field values 2;
     Bird.Scientific_name := field values 3;
     Bird.English_name_AviList := field values 4;
     Bird.Range := field values 5;
     Bird.IUCN_Red_List_Category := field values 6;
     Bird.Species_code_Cornell_Lab := field values 7 |}.

Definition mammalOfValues (values : list string) : Mammal.MammalRecord :=
  {| Mammal.sciName := field values 0;
     Mammal.mainCommonName := field values 1;
     Mammal.order := field values 2;
     Mammal.family := field values 3;
     Mammal.continentDistribution := field values 4;
     Mammal.biogeographicRealm := field values 5;
     Mammal.iucnStatus := field values 6;
     Mammal.distributionNotes := field values 7 |}.

(** The [for] loop over the lines after the first (lines 61-80 for birds,
    95-114 for mammals): blank lines and lines with fewer values than the
    header has columns are passed over. *)
Fixpoint parseRows {A : Type} (mk : list string -> A) (columns : nat) (rows : list string)
    : list A :=
  match rows with
  | [] => []
  | l :: r =>
      let line := Js.trim l in
      if line =? EmptyString then parseRows mk columns r
      else
        let values := parseCSVLine line in
        if (List.length values <? columns)%nat then parseRows mk columns r
        else mk values :: parseRows mk columns r
  end.

(** The body shared by [parseBirdCSV] and [parseMammalCSV], from the
    content of the file; [split] always yields a first line. *)
Definition parseContent {A : Type} (mk : list string -> A) (csvContent : string) : list A :=
  match Js.split csvContent PostText.nl with
  | [] => []
  | header :: rows => parseRows mk (List.length (parseCSVLine header)) rows
  end.

(** [parseBirdCSV(filePath)], from the content of the file. *)
Definition parseBirdCSV (csvContent : string) : list Bird.BirdRecord :=
  parseContent birdOfValues csvContent.

(** [parseMammalCSV(filePath)], from the content of the file. *)
Definition parseMammalCSV (csvContent : string) : list Mammal.MammalRecord :=
  parseContent mammalOfValues csvContent.

(** The environment of a run whose two reference files have the given
    content ([None]: the file does not exist). *)
Definition withFiles (env : Env) (birdFile mammalFile : option string) : Env :=
  {| mathRandom := mathRandom env;
     taxonomyApi := taxonomyApi env;
     mediaApi := mediaApi env;
     birdCsv := option_map parseBirdCSV birdFile;
     mammalCsv := option_map parseMammalCSV mammalFile |}.

End Csv.

(** ** The earlier version of the media search *)

Module Legacy.

(** The part of the earlier [searchMacaulayForTaxon] that follows the two
    page loads: the numeric identifiers of the array, in order, without
    a filter on tags. *)
Definition searchOutcome (resp : MediaResponse) : option (list Z) :=
  match resp with
  | MainPageFailed | ApiCallFailed | BodyNotArray => None
  | BodyArray jsonData => Some (Session.numericIds jsonData)
  end.

(** The earlier [searchMacaulayForTaxon(taxonCode)]: the query never asks
    for child taxa. *)
Definition searchMacaulayForTaxon (env : Env) (taxonCode : string) : M (option (list Z)) :=
  fun w =>
    (Value (searchOutcome (mediaApi env (requests w) taxonCode false)),
     {| randomCalls := randomCalls w; requests := S (requests w) |},
     [MediaSession taxonCode false]).

End Legacy.

(** * Properties *)

(** ** Strings *)

Section StringFacts.

Lemma append_assoc_s (a b c : string) : (a ++ b) ++ c = a ++ (b ++ c).
Proof. induction a as [|x a IH]; simpl; [reflexivity | now rewrite IH]. Qed.

Lemma append_empty_r (a : string) : a ++ EmptyString = a.
Proof. induction a as [|x a IH]; simpl; [reflexivity | now rewrite IH]. Qed.

Lemma length_append_s (a b : string) :
  String.length (a ++ b) = String.length a + String.length b.
Proof. induction a as [|x a IH]; simpl; [reflexivity | now rewrite IH]. Qed.

Lemma startsWith_spec (t s : string) :
  Js.startsWith s t = true <-> exists r, s = t ++ r.
Proof.
  revert s; induction t as [|b t IH]; intros s; simpl.
  - split; [intros _; now exists s | reflexivity].
  - destruct s as [|a s].
    + split; [discriminate | intros [r H]; discriminate].
    + rewrite andb_true_iff, Ascii.eqb_eq, IH. split.
      * intros [-> [r ->]]. now exists r.
      * intros [r H]. injection H as -> ->. split; [reflexivity | now exists r].
Qed.

Lemma includes_spec (t s : string) :
  Js.includes s t = true <-> exists a b, s = a ++ t ++ b.
Proof.
  induction s as [|c s IH].
  - simpl. rewrite orb_false_r, startsWith_spec. split.
    + intros [r H]. now exists EmptyString, r.
    + intros [a [b H]]. destruct a; [now exists b | discriminate].
  - cbn [Js.includes]. rewrite orb_true_iff, startsWith_spec, IH. split.
    + intros [[r H] | [a [b H]]].
      * now exists EmptyString, r.
      * exists (String c a), b. simpl. now rewrite H.
    + intros [a [b H]]. destruct a as [|x a].
      * left. now exists b.
      * right. simpl in H. injection H as _ H. now exists a, b.
Qed.

End StringFacts.

(** ** The media search session *)

Module SessionFacts.

(** A string holds the word of the exclusion rule, whatever the case. *)
Definition containsDead (s : string) : Prop :=
  exists a b, Js.toLowerCase s = a ++ "dead" ++ b.

(** The exclusion predicate: the tag field, a string or a list, holds a
    string with the word. *)
Definition deadTagged (item : MediaResult) : Prop :=
  match tags item with
  | TagsString s => containsDead s
  | TagsArray l => exists s, In (TagText s) l /\ containsDead s
  | TagsAbsent => False
  end.

(** The tag field has the shape the service documents: a string, a list
    of strings, or nothing. *)
Definition textTags (item : MediaResult) : Prop :=
  match tags item with
  | TagsArray l => ~ In TagNotText l
  | _ => True
  end.

Lemma filterM_value {A : Type} (f : A -> Outcome bool) (l k : list A) :
  filterM f l = Value k ->
  forall x, In x k <-> In x l /\ f x = Value true.
Proof.
  revert k; induction l as [|y l IH]; intros k H x; simpl in H.
  - injection H as <-. simpl. tauto.
  - destruct (f y) as [b| |] eqn:Fy; try discriminate.
    destruct (filterM f l) as [k'| |] eqn:Fl; try discriminate.
    injection H as <-. specialize (IH k' eq_refl x).
    destruct b; simpl; rewrite ?IH; split.
    + intros [<- | [H1 H2]]; auto.
    + intros [[<- | H1] H2]; auto.
    + intros [H1 H2]; auto.
    + intros [[<- | H1] H2]; [congruence | auto].
Qed.

Lemma filterM_total {A : Type} (f : A -> Outcome bool) (l : list A) :
  (forall x, In x l -> exists b, f x = Value b) ->
  exists k, filterM f l = Value k.
Proof.
  induction l as [|y l IH]; intros H; simpl.
  - now exists [].
  - destruct (H y (or_introl eq_refl)) as [b ->].
    destruct IH as [k ->]; [intros x Hx; apply H; now right |].
    eexists; reflexivity.
Qed.

Lemma someDead_false (l : list TagElem) :
  Session.someDead l = Value false ->
  forall s, In (TagText s) l -> ~ containsDead s.
Proof.
  induction l as [|t l IH]; simpl; intros H s Hin.
  - contradiction.
  - destruct t as [s'|]; [|discriminate].
    destruct (Js.includes (Js.toLowerCase s') "dead") eqn:E; [discriminate|].
    destruct Hin as [Heq | Hin].
    + injection Heq as ->. intros Hd. apply includes_spec in Hd. congruence.
    + now apply IH.
Qed.

Lemma someDead_text (l : list TagElem) :
  ~ In TagNotText l -> exists b, Session.someDead l = Value b.
Proof.
  induction l as [|t l IH]; simpl; intros H.
  - now exists false.
  - destruct t as [s|]; [|exfalso; apply H; now left].
    destruct (Js.includes (Js.toLowerCase s) "dead"); [now exists true|].
    apply IH. intros Hin. apply H. now right.
Qed.

Lemma keep_true_alive (item : MediaResult) :
  Session.keep item = Value true -> ~ deadTagged item.
Proof.
  unfold Session.keep, deadTagged. destruct (tags item) as [|s|l]; intros H.
  - tauto.
  - injection H as H. apply negb_true_iff in H. intros Hd.
    apply includes_spec in Hd. congruence.
  - destruct (Session.someDead l) as [b| |] eqn:E; try discriminate.
    injection H as H. apply negb_true_iff in H. subst b.
    intros [s [Hin Hd]]. exact (someDead_false l E s Hin Hd).
Qed.

Lemma keep_text (item : MediaResult) :
  textTags item -> exists b, Session.keep item = Value b.
Proof.
  unfold Session.keep, textTags. destruct (tags item) as [|s|l]; intros H.
  - now exists true.
  - eexists; reflexivity.
  - destruct (someDead_text l H) as [b ->]. eexists; reflexivity.
Qed.

Lemma numericIds_In (l : list MediaResult) (id : Z) :
  In id (Session.numericIds l) <-> exists item, In item l /\ assetId item = Some id.
Proof.
  induction l as [|y l IH]; simpl.
  - split; [contradiction | intros [item [[] _]]].
  - destruct (assetId y) as [n|] eqn:E; simpl; rewrite IH; split.
    + intros [<- | [item [H1 H2]]]; [exists y; auto | exists item; auto].
    + intros [item [[<- | H1] H2]]; [left; congruence | right; exists item; auto].
    + intros [item [H1 H2]]; exists item; auto.
    + intros [item [[<- | H1] H2]]; [congruence | exists item; auto].
Qed.

Lemma findAsset_Some (l : list MediaResult) (id : Z) (item : MediaResult) :
  Session.findAsset l id = Some item -> In item l /\ assetId item = Some id.
Proof.
  unfold Session.findAsset. intros H. apply find_some in H. destruct H as [H1 H2].
  split; [assumption|]. destruct (assetId item) as [n|]; [|discriminate].
  apply Z.eqb_eq in H2. now subst.
Qed.

Lemma findAsset_present (l : list MediaResult) (id : Z) :
  In id (Session.numericIds l) -> exists item, Session.findAsset l id = Some item.
Proof.
  intros H. apply numericIds_In in H. destruct H as [item [H1 H2]].
  unfold Session.findAsset.
  destruct (find _ l) as [x|] eqn:E; [now exists x|].
  exfalso. pose proof (find_none _ _ E item H1) as Hn. simpl in Hn.
  rewrite H2, Z.eqb_refl in Hn. discriminate.
Qed.

End SessionFacts.

(** C1.  When the media index answers a query with an array, the call
    returns; it returns an object (not [null]) as soon as every tag list
    holds strings only; and in the object it returns, every identifier of
    the pool and every record handed out by the lookup belongs to a result
    of the response whose tag field, string or list, does not contain
    "dead" in any case, so a result whose tags contain "dead" is never
    handed out, while a result without a tag field keeps its identifier in
    the pool and findable by the lookup. *)
Theorem searchMacaulayForTaxon_excludes_dead :
  forall (env : Env) (taxonCode : string) (includeChildTaxa : bool) (w : World)
         (jsonData : list MediaResult),
    mediaApi env (requests w) taxonCode includeChildTaxa = BodyArray jsonData ->
    exists r w' evs,
      searchMacaulayForTaxon env taxonCode includeChildTaxa w = (Value r, w', evs) /\
      (Forall SessionFacts.textTags jsonData -> r <> None) /\
      forall found, r = Some found ->
        (forall id, In id (foundIds found) ->
           exists item, In item jsonData /\ assetId item = Some id /\
                        ~ SessionFacts.deadTagged item) /\
        (forall id item, lookupAsset found id = Some item ->
           In item jsonData /\ assetId item = Some id /\ ~ SessionFacts.deadTagged item) /\
        (forall item, In item jsonData -> SessionFacts.deadTagged item ->
           forall id, lookupAsset found id <> Some item) /\
        (forall item id, In item jsonData -> tags item = TagsAbsent ->
           assetId item = Some id ->
           In id (foundIds found) /\ exists item', lookupAsset found id = Some item').
Proof.
  intros env taxonCode includeChildTaxa w jsonData Hresp.
  unfold searchMacaulayForTaxon. rewrite Hresp. do 3 eexists.
  split; [reflexivity|]. unfold searchOutcome, Session.filterResults. split.
  - intros Hall.
    destruct (SessionFacts.filterM_total Session.keep jsonData) as [k ->].
    + intros x Hx. apply SessionFacts.keep_text.
      rewrite Forall_forall in Hall. now apply Hall.
    + discriminate.
  - intros found Hfound.
    destruct (filterM Session.keep jsonData) as [k| |] eqn:Hk; try discriminate.
    injection Hfound as <-. cbn [foundIds lookupAsset].
    pose proof (SessionFacts.filterM_value _ _ _ Hk) as Hin.
    assert (Hlook : forall id item, Session.findAsset k id = Some item ->
              In item jsonData /\ assetId item = Some id /\ ~ SessionFacts.deadTagged item).
    { intros id item H. apply SessionFacts.findAsset_Some in H. destruct H as [H1 H2].
      apply Hin in H1. destruct H1 as [H1 H3].
      repeat split; auto using SessionFacts.keep_true_alive. }
    assert (Hkept : forall item, In item jsonData -> tags item = TagsAbsent -> In item k).
    { intros item Hitem Htags. apply Hin. split; [assumption|].
      unfold Session.keep. now rewrite Htags. }
    split; [|split; [|split]].
    + intros id Hid. apply SessionFacts.numericIds_In in Hid.
      destruct Hid as [item [H1 H2]].
      apply Hin in H1. destruct H1 as [H1 H3]. exists item.
      repeat split; auto using SessionFacts.keep_true_alive.
    + exact Hlook.
    + intros item Hitem Hdead id Hl. apply Hlook in Hl. tauto.
    + intros item id Hitem Htags Hid.
      assert (Hpool : In id (Session.numericIds k)).
      { apply SessionFacts.numericIds_In. exists item. auto. }
      split; [exact Hpool | now apply SessionFacts.findAsset_present].
Qed.

(** ** The taxonomy matcher *)

Module MatcherFacts.

(** The display name in lower case ([''] when there is none). *)
Definition lowerName (item : Candidate) : string :=
  match name item with
  | Some n => Js.toLowerCase n
  | None => EmptyString
  end.

(** The name rule of the first priority, as the code has it: the display
    name in lower case holds "- " directly followed by the search term in
    lower case. *)
Definition termFollowsDash (searchTerm : string) (item : Candidate) : Prop :=
  exists a b, lowerName item = a ++ "- " ++ Js.toLowerCase searchTerm ++ b.

(** The code string holds "," directly followed by the requested rank. *)
Definition rankInCode (searchType : SearchType) (item : Candidate) : Prop :=
  exists c a b, code item = Some c /\ c = a ++ "," ++ searchTypeName searchType ++ b.

(** The scientific-name segment of a display name ["<common> - <scientific>"]. *)
Definition scientificSegment (item : Candidate) : string :=
  match name item with
  | Some n =>
      match Js.split n " - " with
      | _ :: sci :: _ => sci
      | _ => EmptyString
      end
  | None => EmptyString
  end.

(** The first priority in the words of the specification: the
    scientific-name segment contains the search term, whatever the case
    and wherever in the segment, and the code matches the rank. *)
Definition segmentContainsTerm (searchTerm : string) (searchType : SearchType)
    (item : Candidate) : bool :=
  Js.includes (Js.toLowerCase (scientificSegment item)) (Js.toLowerCase searchTerm) &&
  Matcher.typeMatch searchType item.

Definition harborSeal : Candidate :=
  {| name := Some "Harbor Seal - Phoca vitulina"; code := Some "harsea,species" |}.

Definition walrus : Candidate :=
  {| name := Some "Walrus - Odobenus rosmarus"; code := Some "walrus,species" |}.

Lemma typeMatch_spec (searchType : SearchType) (item : Candidate) :
  Matcher.typeMatch searchType item = true <-> rankInCode searchType item.
Proof.
  unfold Matcher.typeMatch, rankInCode. destruct (code item) as [c|].
  - rewrite includes_spec. split.
    + intros [a [b H]]. exists c, a, b. split; [reflexivity | exact H].
    + intros [c' [a [b [H1 H2]]]]. injection H1 as <-. now exists a, b.
  - split; [discriminate | intros [c [a [b [H _]]]]; discriminate].
Qed.

Lemma scientificNameMatch_spec (searchTerm : string) (item : Candidate) :
  Matcher.scientificNameMatch searchTerm item = true <-> termFollowsDash searchTerm item.
Proof.
  unfold Matcher.scientificNameMatch, termFollowsDash. fold (lowerName item).
  rewrite orb_true_iff, !includes_spec. split.
  - intros [[a [b H]] | H]; [|exact H].
    exists (a ++ " "), b. rewrite H. rewrite (append_assoc_s a). reflexivity.
  - intros H. right. exact H.
Qed.

Lemma isExactMatch_spec (searchTerm : string) (searchType : SearchType) (item : Candidate) :
  Matcher.isExactMatch searchTerm searchType item = true <->
  termFollowsDash searchTerm item /\ rankInCode searchType item.
Proof.
  unfold Matcher.isExactMatch.
  now rewrite andb_true_iff, scientificNameMatch_spec, typeMatch_spec.
Qed.

Lemma filter_first {A : Type} (f : A -> bool) (pre post : list A) (c : A) :
  (forall x, In x pre -> f x = false) -> f c = true ->
  exists rest, filter f (pre ++ c :: post)%list = c :: rest.
Proof.
  intros Hpre Hc. rewrite filter_app. simpl. rewrite Hc.
  assert (E : filter f pre = []).
  { induction pre as [|y pre IH]; simpl; [reflexivity|].
    rewrite (Hpre y (or_introl eq_refl)). apply IH. intros x Hx. apply Hpre. now right. }
  rewrite E. simpl. now eexists.
Qed.

Lemma filter_nil {A : Type} (f : A -> bool) (l : list A) :
  filter f l = [] -> forall x, In x l -> f x = false.
Proof.
  intros E x Hx. destruct (f x) eqn:Fx; [|reflexivity].
  assert (H : In x (filter f l)) by (apply filter_In; auto).
  rewrite E in H. contradiction.
Qed.

Lemma filter_head {A : Type} (f : A -> bool) (l rest : list A) (m : A) :
  filter f l = m :: rest -> In m l /\ f m = true.
Proof.
  intros E. apply filter_In. rewrite E. now left.
Qed.

End MatcherFacts.

(** C3, as the specification words it, fails: the second candidate's
    scientific-name segment "Odobenus rosmarus" contains the search term
    "rosmarus" and its code has the rank, the first candidate's segment
    does not contain it, and yet the matcher returns the first candidate,
    by the second priority. *)
Lemma findBestTaxonomyMatch_term_inside_segment :
  List.find (MatcherFacts.segmentContainsTerm "rosmarus" SpeciesSearch)
            [MatcherFacts.harborSeal; MatcherFacts.walrus] = Some MatcherFacts.walrus /\
  findBestTaxonomyMatch [MatcherFacts.harborSeal; MatcherFacts.walrus] "rosmarus" SpeciesSearch
    = Some MatcherFacts.harborSeal /\
  MatcherFacts.harborSeal <> MatcherFacts.walrus.
Proof.
  split; [reflexivity | split; [reflexivity | discriminate]].
Qed.

(** C3, amended.  Whenever some candidate's display name, in lower case,
    holds "- " directly followed by the search term in lower case (the
    term stands at the start of the scientific-name segment) and its code
    holds "," followed by the requested rank, the matcher returns the
    first such candidate: the rules of the second and third priority are
    not consulted. *)
Theorem findBestTaxonomyMatch_first_priority :
  forall (pre post : list Candidate) (c : Candidate) (searchTerm : string)
         (searchType : SearchType),
    (forall x, In x pre ->
       ~ (MatcherFacts.termFollowsDash searchTerm x /\ MatcherFacts.rankInCode searchType x)) ->
    MatcherFacts.termFollowsDash searchTerm c ->
    MatcherFacts.rankInCode searchType c ->
    findBestTaxonomyMatch (pre ++ c :: post)%list searchTerm searchType = Some c.
Proof.
  intros pre post c searchTerm searchType Hpre Hterm Hrank.
  destruct (MatcherFacts.filter_first (Matcher.isExactMatch searchTerm searchType) pre post c)
    as [rest E].
  - intros x Hx. apply not_true_is_false. intros H.
    apply MatcherFacts.isExactMatch_spec in H. exact (Hpre x Hx H).
  - apply MatcherFacts.isExactMatch_spec. now split.
  - unfold findBestTaxonomyMatch. rewrite E.
    destruct (pre ++ c :: post)%list eqn:D; [|reflexivity].
    destruct pre; discriminate.
Qed.

Lemma findBestTaxonomyMatch_first_priority_witness :
  findBestTaxonomyMatch ([MatcherFacts.harborSeal] ++ MatcherFacts.walrus :: [])%list
    "Odobenus" SpeciesSearch = Some MatcherFacts.walrus.
Proof.
  apply findBestTaxonomyMatch_first_priority.
  - intros x [<- | []] [H _].
    apply MatcherFacts.scientificNameMatch_spec in H. discriminate.
  - apply MatcherFacts.scientificNameMatch_spec. reflexivity.
  - apply MatcherFacts.typeMatch_spec. reflexivity.
Defined.

(** C4.  On a non-empty sequence with at least one candidate whose code
    holds the requested rank, the matcher returns a candidate of the
    sequence whose code holds the rank; a result without the rank in its
    code means that no candidate has it, and the result is then the first
    candidate; equal inputs give equal results. *)
Theorem findBestTaxonomyMatch_prefers_rank :
  forall (taxonomyData : list Candidate) (searchTerm : string) (searchType : SearchType),
    ((exists c, In c taxonomyData /\ MatcherFacts.rankInCode searchType c) ->
     exists r, findBestTaxonomyMatch taxonomyData searchTerm searchType = Some r /\
               In r taxonomyData /\ MatcherFacts.rankInCode searchType r) /\
    (forall r, findBestTaxonomyMatch taxonomyData searchTerm searchType = Some r ->
       ~ MatcherFacts.rankInCode searchType r ->
       (forall c, In c taxonomyData -> ~ MatcherFacts.rankInCode searchType c) /\
       Js.first taxonomyData = Some r) /\
    (forall taxonomyData' searchTerm' searchType',
       taxonomyData' = taxonomyData -> searchTerm' = searchTerm -> searchType' = searchType ->
       findBestTaxonomyMatch taxonomyData' searchTerm' searchType' =
       findBestTaxonomyMatch taxonomyData searchTerm searchType).
Proof.
  intros taxonomyData searchTerm searchType.
  assert (Hres : forall r, findBestTaxonomyMatch taxonomyData searchTerm searchType = Some r ->
            (In r taxonomyData /\ MatcherFacts.rankInCode searchType r) \/
            ((forall c, In c taxonomyData -> Matcher.typeMatch searchType c = false) /\
             Js.first taxonomyData = Some r)).
  { intros r H. unfold findBestTaxonomyMatch in H.
    destruct taxonomyData as [|d0 data]; [discriminate|].
    set (l := (d0 :: data)) in *.
    destruct (filter (Matcher.isExactMatch searchTerm searchType) l) as [|m rest] eqn:E1.
    - destruct (filter (Matcher.typeMatch searchType) l) as [|m rest] eqn:E2.
      + right. split; [exact (MatcherFacts.filter_nil _ _ E2) | exact H].
      + left. injection H as <-. apply MatcherFacts.filter_head in E2.
        destruct E2 as [H1 H2]. split; [exact H1 | now apply MatcherFacts.typeMatch_spec].
    - left. injection H as <-. apply MatcherFacts.filter_head in E1.
      destruct E1 as [H1 H2]. apply MatcherFacts.isExactMatch_spec in H2.
      split; [exact H1 | tauto]. }
  split; [|split].
  - intros [c [Hc Hrank]].
    destruct (findBestTaxonomyMatch taxonomyData searchTerm searchType) as [r|] eqn:E.
    + exists r. split; [reflexivity|].
      destruct (Hres r eq_refl) as [H | [Hnone _]]; [exact H|].
      apply MatcherFacts.typeMatch_spec in Hrank. rewrite (Hnone c Hc) in Hrank. discriminate.
    + unfold findBestTaxonomyMatch in E. destruct taxonomyData as [|d0 data]; [contradiction|].
      destruct (filter (Matcher.isExactMatch searchTerm searchType) (d0 :: data));
        [|discriminate].
      destruct (filter (Matcher.typeMatch searchType) (d0 :: data)); discriminate.
  - intros r Hr Hno. destruct (Hres r Hr) as [[_ H] | [Hnone Hfirst]]; [contradiction|].
    split; [|exact Hfirst].
    intros c Hc Hrank. apply MatcherFacts.typeMatch_spec in Hrank.
    rewrite (Hnone c Hc) in Hrank. discriminate.
  - intros ? ? ? -> -> ->. reflexivity.
Qed.

Lemma findBestTaxonomyMatch_prefers_rank_witness :
  exists r, findBestTaxonomyMatch [MatcherFacts.harborSeal; MatcherFacts.walrus]
              "Lutra" SpeciesSearch = Some r /\
            In r [MatcherFacts.harborSeal; MatcherFacts.walrus] /\
            MatcherFacts.rankInCode SpeciesSearch r.
Proof.
  apply (findBestTaxonomyMatch_prefers_rank
           [MatcherFacts.harborSeal; MatcherFacts.walrus] "Lutra" SpeciesSearch).
  exists MatcherFacts.walrus. split; [right; left; reflexivity|].
  apply MatcherFacts.typeMatch_spec. reflexivity.
Defined.

(** ** The asset taxonomy classifier *)

Module ClassifierFacts.

(** The scientific name of the target record as it is searched for. *)
Definition targetName (selectedMammal : Mammal.MammalRecord) : string :=
  Js.replaceFirst (Mammal.sciName selectedMammal) "_" " ".

(** What the classifier decides, read off the taxonomy alone. *)
Definition usable (target : option Mammal.MammalRecord) (taxonomy : option Taxonomy) : bool :=
  match taxonomy with
  | Some t =>
      Js.truthy (sciName t) &&
      (Js.strictEq (category t) "species" ||
       (Js.strictEq (category t) "subspecies" &&
        match target with
        | Some m => Js.startsWith (Classifier.sciNameOf taxonomy) (targetName m ++ " ")
        | None => true
        end))
  | None => false
  end.

(** Usability in the words of the specification: with a target, a
    subspecies is usable when its normalized name equals the target or
    its name starts with the target and a space. *)
Definition usableAsSpecified (target : option Mammal.MammalRecord)
    (taxonomy : option Taxonomy) : bool :=
  match taxonomy with
  | Some t =>
      match sciName t with
      | Some sci =>
          negb (sci =? EmptyString) &&
          (Js.strictEq (category t) "species" ||
           (Js.strictEq (category t) "subspecies" &&
            match target with
            | Some m =>
                (Classifier.normalizedSciName t sci =? targetName m) ||
                Js.startsWith sci (targetName m ++ " ")
            | None => true
            end))
      | None => false
      end
  | None => false
  end.

(** The tokens of a name in the words of the specification: the maximal
    runs of characters that are not white space. *)
Fixpoint tokensFrom (cur s : string) : list string :=
  match s with
  | EmptyString => if cur =? EmptyString then [] else [cur]
  | String c r =>
      if Js.isSpace c
      then if cur =? EmptyString then tokensFrom EmptyString r
           else cur :: tokensFrom EmptyString r
      else tokensFrom (cur ++ String c EmptyString) r
  end.

Definition whitespaceTokens (s : string) : list string := tokensFrom EmptyString s.

Definition walrusRecord : Mammal.MammalRecord :=
  {| Mammal.sciName := "Odobenus_rosmarus"; Mammal.mainCommonName := "Walrus";
     Mammal.order := "Carnivora"; Mammal.family := "Odobenidae";
     Mammal.continentDistribution := "North America (Continent)|Europe (Continent)";
     Mammal.biogeographicRealm := "Nearctic|Palearctic";
     Mammal.iucnStatus := "VU"; Mammal.distributionNotes := "" |}.

(** A subspecies-rank result that carries the binomial name of the target. *)
Definition binomialSubspecies : MediaResult :=
  {| assetId := Some 7%Z;
     taxonomy := Some {| sciName := Some "Odobenus rosmarus"; comName := Some "Walrus";
                         category := Some "subspecies" |};
     tags := TagsAbsent |}.

Definition atlanticWalrus : Taxonomy :=
  {| sciName := Some "Odobenus rosmarus rosmarus"; comName := Some "Walrus (Atlantic)";
     category := Some "subspecies" |}.

Definition livingWalrus : MediaResult :=
  {| assetId := Some 11%Z; taxonomy := Some atlanticWalrus; tags := TagsArray [TagText "adult"] |}.

Definition deadWalrus : MediaResult :=
  {| assetId := Some 12%Z; taxonomy := Some atlanticWalrus;
     tags := TagsArray [TagText "Dead animal"] |}.

Lemma classify_usable (target : option Mammal.MammalRecord) (assetDetails : option MediaResult) :
  Classifier.classify target assetDetails =
  Value (usable target (Classifier.taxonomyOf assetDetails)).
Proof.
  unfold Classifier.classify, Classifier.speciesSpecificForTarget,
    Classifier.speciesSpecificAny, usable, targetName.
  destruct (Classifier.taxonomyOf assetDetails) as [t|]; [|destruct target; reflexivity].
  cbn [Classifier.missingName Classifier.categoryIs].
  destruct (Js.truthy (sciName t)); [|destruct target; reflexivity].
  destruct (Js.strictEq (category t) "species"); [destruct target; reflexivity|].
  destruct (Js.strictEq (category t) "subspecies"); destruct target; reflexivity.
Qed.

Lemma splitFrom_token (g cur r : string) :
  Js.includes g " " = false ->
  Js.splitFrom " " 0 cur (g ++ String " " r) = (cur ++ g) :: Js.splitFrom " " 0 EmptyString r.
Proof.
  revert cur; induction g as [|c g IH]; intros cur H.
  - simpl. now rewrite append_empty_r.
  - cbn [Js.includes Js.startsWith] in H. rewrite andb_true_r in H.
    apply orb_false_iff in H. destruct H as [Hc Hg].
    cbn [append Js.splitFrom Js.startsWith]. rewrite Hc. cbn [andb].
    rewrite (IH _ Hg), append_assoc_s. reflexivity.
Qed.

Lemma split_two_tokens (genus species rest : string) :
  Js.includes genus " " = false -> Js.includes species " " = false ->
  exists more, Js.split (genus ++ " " ++ species ++ " " ++ rest) " " = genus :: species :: more.
Proof.
  intros Hg Hs. unfold Js.split.
  change (genus ++ " " ++ species ++ " " ++ rest)
    with (genus ++ String " " (species ++ String " " rest)).
  rewrite (splitFrom_token genus _ _ Hg), (splitFrom_token species _ _ Hs).
  simpl. now eexists.
Qed.

Lemma replaceFirst_token (g r : string) (a b : ascii) :
  Js.includes g (String a EmptyString) = false ->
  Js.replaceFirst (g ++ String a r) a b = g ++ String b r.
Proof.
  induction g as [|c g IH]; intros H.
  - simpl. now rewrite Ascii.eqb_refl.
  - cbn [Js.includes Js.startsWith] in H. rewrite andb_true_r in H.
    apply orb_false_iff in H. destruct H as [Hc Hg].
    cbn [append Js.replaceFirst]. rewrite Hc, (IH Hg). reflexivity.
Qed.

End ClassifierFacts.

(** C5, as the specification words it, fails: for the target "Odobenus
    rosmarus" a subspecies-rank result named "Odobenus rosmarus" has a
    normalized name equal to the target, so the specification calls it
    usable, but its name does not start with the target followed by a
    space and the classifier rejects it. *)
Lemma classify_rejects_equal_name :
  ClassifierFacts.usableAsSpecified (Some ClassifierFacts.walrusRecord)
    (taxonomy ClassifierFacts.binomialSubspecies) = true /\
  Classifier.classify (Some ClassifierFacts.walrusRecord)
    (Some ClassifierFacts.binomialSubspecies) = Value false.
Proof. split; reflexivity. Qed.

(** C5, amended.  The classifier never throws, and it accepts a result
    exactly when the result has a taxonomy with a non-empty scientific
    name and either the rank is species, or the rank is subspecies and,
    when a target is supplied, the scientific name starts with the target
    name followed by a space (without a target every subspecies is
    accepted).  Every other rank, a missing taxonomy and a missing name
    are rejected. *)
Theorem classify_characterised :
  forall (target : option Mammal.MammalRecord) (assetDetails : option MediaResult),
    (exists b, Classifier.classify target assetDetails = Value b) /\
    (Classifier.classify target assetDetails = Value true <->
     exists t sci,
       Classifier.taxonomyOf assetDetails = Some t /\
       sciName t = Some sci /\ sci <> EmptyString /\
       (category t = Some "species" \/
        (category t = Some "subspecies" /\
         match target with
         | Some m => exists rest, sci = ClassifierFacts.targetName m ++ " " ++ rest
         | None => True
         end))).
Proof.
  intros target assetDetails. rewrite ClassifierFacts.classify_usable.
  split; [now eexists|].
  unfold ClassifierFacts.usable.
  destruct (Classifier.taxonomyOf assetDetails) as [t|].
  2:{ split; [discriminate | intros [t [sci [H _]]]; discriminate]. }
  unfold Js.truthy, Js.strictEq, Classifier.sciNameOf. split.
  - intros H. injection H as H. apply andb_true_iff in H. destruct H as [Hs Hc].
    destruct (sciName t) as [sci|] eqn:Esci; [|discriminate].
    exists t, sci. apply negb_true_iff, String.eqb_neq in Hs.
    repeat split; auto.
    apply orb_true_iff in Hc. destruct Hc as [Hc | Hc].
    + left. destruct (category t) as [c|]; [|discriminate].
      apply String.eqb_eq in Hc. now subst.
    + right. apply andb_true_iff in Hc. destruct Hc as [Hc Ht].
      destruct (category t) as [c|]; [|discriminate].
      apply String.eqb_eq in Hc. subst c. split; [reflexivity|].
      destruct target as [m|]; [|exact I].
      apply startsWith_spec in Ht. destruct Ht as [rest Ht]. exists rest.
      rewrite Ht. now rewrite append_assoc_s.
  - intros [t' [sci [Ht [Hsci [Hne Hcat]]]]]. injection Ht as <-.
    rewrite Hsci. apply String.eqb_neq in Hne. rewrite Hne. cbn [negb andb].
    destruct Hcat as [-> | [-> Htarget]]; [reflexivity|].
    cbn [String.eqb orb andb]. f_equal.
    destruct target as [m|]; [|reflexivity].
    destruct Htarget as [rest ->]. apply startsWith_spec. exists rest.
    now rewrite append_assoc_s.
Qed.

(** C6, as the specification words it, fails: a subspecies name whose
    three tokens are separated by white space, the first two by two
    spaces, is not normalized to its first two tokens, because the code
    splits at every single space. *)
Lemma normalizedSciName_two_spaces :
  category ClassifierFacts.atlanticWalrus = Some "subspecies" /\
  ClassifierFacts.whitespaceTokens "Odobenus  rosmarus rosmarus"
    = ["Odobenus"; "rosmarus"; "rosmarus"] /\
  Classifier.normalizedSciName ClassifierFacts.atlanticWalrus "Odobenus  rosmarus rosmarus"
    = "Odobenus " /\
  Classifier.displaySciName ClassifierFacts.atlanticWalrus "Odobenus  rosmarus rosmarus"
    = "Odobenus " /\
  "Odobenus " <> "Odobenus rosmarus".
Proof. repeat split; try reflexivity. discriminate. Qed.

(** C6, amended.  For a result of rank subspecies whose scientific name is
    a first token, one space, a second token, one space and at least a
    third token (the first two tokens without a space inside), the name
    used to look the species up in the reference list and the name shown
    in the post are both the first token, a space and the second token;
    the key of the lookup is that name with its space turned into "_". *)
Theorem subspecies_normalized_to_binomial :
  forall (t : Taxonomy) (genus species rest : string),
    category t = Some "subspecies" ->
    Js.includes genus " " = false ->
    Js.includes species " " = false ->
    let sci := genus ++ " " ++ species ++ " " ++ rest in
    Classifier.normalizedSciName t sci = genus ++ " " ++ species /\
    Classifier.displaySciName t sci = genus ++ " " ++ species /\
    Js.replaceFirst (Classifier.normalizedSciName t sci) " " "_" = genus ++ "_" ++ species.
Proof.
  intros t genus species rest Hcat Hg Hs sci.
  destruct (ClassifierFacts.split_two_tokens genus species rest Hg Hs) as [more Hsplit].
  fold sci in Hsplit.
  assert (Hn : Classifier.normalizedSciName t sci = genus ++ " " ++ species).
  { unfold Classifier.normalizedSciName, Js.strictEq. rewrite Hcat, Hsplit. reflexivity. }
  split; [exact Hn | split].
  - unfold Classifier.displaySciName, Js.strictEq. rewrite Hcat, Hsplit. reflexivity.
  - rewrite Hn. exact (ClassifierFacts.replaceFirst_token genus species " " "_" Hg).
Qed.

Lemma subspecies_normalized_to_binomial_witness :
  Classifier.normalizedSciName ClassifierFacts.atlanticWalrus
    ("Odobenus" ++ " " ++ "rosmarus" ++ " " ++ "rosmarus") = "Odobenus" ++ " " ++ "rosmarus" /\
  Classifier.displaySciName ClassifierFacts.atlanticWalrus
    ("Odobenus" ++ " " ++ "rosmarus" ++ " " ++ "rosmarus") = "Odobenus" ++ " " ++ "rosmarus" /\
  Js.replaceFirst (Classifier.normalizedSciName ClassifierFacts.atlanticWalrus
    ("Odobenus" ++ " " ++ "rosmarus" ++ " " ++ "rosmarus")) " " "_" = "Odobenus" ++ "_" ++ "rosmarus".
Proof.
  apply (subspecies_normalized_to_binomial ClassifierFacts.atlanticWalrus
           "Odobenus" "rosmarus" "rosmarus"); reflexivity.
Defined.

(** C10.  In both filters, with a target and without, the decision on a
    result of a family search depends on its taxonomy only: two results
    with the same taxonomy and any tags get the same decision, and the
    statements on tags that follow the unconditional [return false] never
    decide anything. *)
Theorem classify_ignores_tags :
  forall (target : option Mammal.MammalRecord) (d1 d2 : MediaResult),
    taxonomy d1 = taxonomy d2 ->
    Classifier.classify target (Some d1) = Classifier.classify target (Some d2) /\
    Classifier.speciesSpecificAny (Some d1) = Classifier.speciesSpecificAny (Some d2) /\
    forall m, Classifier.speciesSpecificForTarget m (Some d1) =
              Classifier.speciesSpecificForTarget m (Some d2).
Proof.
  intros target d1 d2 H.
  assert (Hflow : forall (c1 c2 c3 b : bool) (s1 s2 : Flow bool),
            (when c1 (Return false) ;;; when c2 (Return true) ;;; when c3 (Return b) ;;;
             Return false ;;; s1 ;;; Return true) =
            (when c1 (Return false) ;;; when c2 (Return true) ;;; when c3 (Return b) ;;;
             Return false ;;; s2 ;;; Return true)).
  { intros [] [] [] b s1 s2; reflexivity. }
  assert (Hany : Classifier.speciesSpecificAny (Some d1) = Classifier.speciesSpecificAny (Some d2)).
  { unfold Classifier.speciesSpecificAny. cbn [Classifier.taxonomyOf]. rewrite H. apply Hflow. }
  assert (Htarget : forall m, Classifier.speciesSpecificForTarget m (Some d1) =
                              Classifier.speciesSpecificForTarget m (Some d2)).
  { intros m. unfold Classifier.speciesSpecificForTarget. cbn [Classifier.taxonomyOf].
    rewrite H. apply Hflow. }
  split; [|split; assumption].
  unfold Classifier.classify. destruct target as [m|]; [now rewrite Htarget | now rewrite Hany].
Qed.

Lemma classify_ignores_tags_witness :
  Classifier.classify None (Some ClassifierFacts.livingWalrus) =
  Classifier.classify None (Some ClassifierFacts.deadWalrus) /\
  Classifier.speciesSpecificAny (Some ClassifierFacts.livingWalrus) =
  Classifier.speciesSpecificAny (Some ClassifierFacts.deadWalrus) /\
  forall m, Classifier.speciesSpecificForTarget m (Some ClassifierFacts.livingWalrus) =
            Classifier.speciesSpecificForTarget m (Some ClassifierFacts.deadWalrus).
Proof.
  apply (classify_ignores_tags None ClassifierFacts.livingWalrus ClassifierFacts.deadWalrus).
  reflexivity.
Defined.

(** ** The sampler *)

Module SamplerFacts.

(** The attempts and the pauses among the events of a run. *)
Definition schedule (evs : list Event) : list Event :=
  List.filter (fun e => match e with
                        | LogAttempt _ | Sleep _ => true
                        | _ => false
                        end) evs.

Definition houseMouse : Mammal.MammalRecord :=
  {| Mammal.sciName := "Mus_musculus"; Mammal.mainCommonName := "House Mouse";
     Mammal.order := "Rodentia"; Mammal.family := "Muridae";
     Mammal.continentDistribution := "Asia (Continent)|Europe (Continent)";
     Mammal.biogeographicRealm := "Palearctic|Indomalayan";
     Mammal.iucnStatus := "LC"; Mammal.distributionNotes := "" |}.

Definition commonShrew : Mammal.MammalRecord :=
  {| Mammal.sciName := "Sorex_araneus"; Mammal.mainCommonName := "Common Shrew";
     Mammal.order := "Eulipotyphla"; Mammal.family := "Soricidae";
     Mammal.continentDistribution := "Europe (Continent)";
     Mammal.biogeographicRealm := "Palearctic";
     Mammal.iucnStatus := "LC"; Mammal.distributionNotes := "" |}.

Definition noctule : Mammal.MammalRecord :=
  {| Mammal.sciName := "Nyctalus_noctula"; Mammal.mainCommonName := "Common Noctule";
     Mammal.order := "Chiroptera"; Mammal.family := "Vespertilionidae";
     Mammal.continentDistribution := "Europe (Continent)|Asia (Continent)";
     Mammal.biogeographicRealm := "Palearctic";
     Mammal.iucnStatus := "LC"; Mammal.distributionNotes := "" |}.

(** An environment whose services always fail and whose draws are 0, 1, 2, ... *)
Definition quietEnv (mammals : list Mammal.MammalRecord) : Env :=
  {| mathRandom := fun k => k;
     taxonomyApi := fun _ _ => TaxonomyCallFailed;
     mediaApi := fun _ _ _ => MainPageFailed;
     birdCsv := None;
     mammalCsv := Some mammals |}.

Definition start : World := {| randomCalls := 0; requests := 0 |}.

Lemma schedule_app (a b : list Event) :
  schedule (a ++ b)%list = (schedule a ++ schedule b)%list.
Proof. apply filter_app. Qed.

Lemma drawIndex_lt (env : Env) (k n : nat) : n <> 0 -> drawIndex env k n < n.
Proof.
  intros H. unfold drawIndex. destruct (Nat.eqb_spec n 0); [contradiction|].
  now apply Nat.mod_upper_bound.
Qed.

Lemma draw_some {A : Type} (env : Env) (k : nat) (l : list A) :
  l <> [] -> exists x, nth_error l (drawIndex env k (List.length l)) = Some x /\ In x l.
Proof.
  intros H.
  assert (Hlt : drawIndex env k (List.length l) < List.length l).
  { apply drawIndex_lt. destruct l; [contradiction | discriminate]. }
  destruct (nth_error l (drawIndex env k (List.length l))) as [x|] eqn:E.
  - exists x. split; [reflexivity | eapply nth_error_In; eassumption].
  - apply nth_error_None in E. lia.
Qed.

Section Reroll.

Variable env : Env.
Variable records : list Mammal.MammalRecord.
Hypothesis nonEmpty : records <> [].

Lemma rerollLoop_returns (fuel : nat) :
  forall (c : nat) (w : World),
    c <= 2 -> 3 - c <= fuel ->
    exists m w' evs,
      rerollLoop env fuel records c w = (Value m, w', evs) /\
      In m records /\ requests w' = requests w /\
      randomCalls w < randomCalls w' <= randomCalls w + (3 - c) /\
      schedule evs = [].
Proof.
  induction fuel as [|fuel IH]; intros c w Hc Hfuel; [lia|].
  cbn [rerollLoop]. unfold bind at 1. unfold floorRandom.
  destruct (draw_some env (randomCalls w) records nonEmpty) as [m [Hm Hin]].
  rewrite Hm.
  destruct (shouldReroll m && (c <? maxRerolls)%nat) eqn:E.
  - apply andb_true_iff in E. destruct E as [_ E]. apply Nat.ltb_lt in E.
    unfold maxRerolls in *. unfold bind, emit.
    destruct (Nat.leb_spec (c + 1) 2) as [Hle | Hgt]; [|lia].
    destruct (IH (c + 1) {| randomCalls := S (randomCalls w); requests := requests w |})
      as [m' [w' [evs [Heq [Hin' [Hreq [Hrand Hsch]]]]]]]; [lia | lia |].
    rewrite Heq. cbn [randomCalls requests] in *.
    exists m', w'. eexists. split; [reflexivity|].
    repeat split; auto; try lia.
  - unfold bind, emit, ret.
    destruct (shouldReroll m && (maxRerolls <=? c)%nat);
      (exists m; do 2 eexists; split; [reflexivity|];
       cbn [randomCalls requests]; repeat split; auto; lia).
Qed.

Hypothesis overrepresented : forall m, In m records -> shouldReroll m = true.

Lemma rerollLoop_overrepresented (fuel : nat) (w : World) :
  exists m,
    nth_error records (drawIndex env (randomCalls w + 2) (List.length records)) = Some m /\
    rerollLoop env (3 + fuel) records 0 w =
      (Value m,
       {| randomCalls := randomCalls w + 3; requests := requests w |},
       [LogReroll 1; LogReroll 2; LogKeepAfterRerolls]).
Proof.
  destruct (draw_some env (randomCalls w) records nonEmpty) as [m1 [Hm1 Hin1]].
  destruct (draw_some env (randomCalls w + 1) records nonEmpty) as [m2 [Hm2 Hin2]].
  destruct (draw_some env (randomCalls w + 2) records nonEmpty) as [m3 [Hm3 Hin3]].
  exists m3. split; [exact Hm3|].
  replace (randomCalls w + 1) with (S (randomCalls w)) in Hm2 by lia.
  replace (randomCalls w + 2) with (S (S (randomCalls w))) in Hm3 by lia.
  replace (randomCalls w + 3) with (S (S (S (randomCalls w)))) by lia.
  cbn [rerollLoop Nat.add]. unfold bind, floorRandom, emit, ret. cbn [randomCalls requests].
  rewrite Hm1, (overrepresented m1 Hin1). cbn.
  rewrite Hm2, (overrepresented m2 Hin2). cbn.
  rewrite Hm3, (overrepresented m3 Hin3). cbn.
  reflexivity.
Qed.

End Reroll.

End SamplerFacts.

(** C7.  On a non-empty reference list [getRandomMammalRecord] returns a
    record of the list after one to three draws, whatever the draws are
    (three iterations of its loop are always enough).  When every record is
    of family Muridae or Soricidae or of order Chiroptera it logs two
    re-rolls, draws three times and returns the third draw, with the log
    line that keeps an overrepresented record. *)
Theorem getRandomMammalRecord_terminates :
  forall (env : Env) (records : list Mammal.MammalRecord) (fuel : nat) (w : World),
    records <> [] ->
    (exists m w' evs,
       getRandomMammalRecord env (3 + fuel) records w = (Value m, w', evs) /\
       In m records /\
       randomCalls w < randomCalls w' <= randomCalls w + 3) /\
    ((forall m, In m records ->
        Mammal.family m = "Muridae" \/ Mammal.family m = "Soricidae" \/
        Mammal.order m = "Chiroptera") ->
     exists m,
       nth_error records (drawIndex env (randomCalls w + 2) (List.length records)) = Some m /\
       getRandomMammalRecord env (3 + fuel) records w =
         (Value m,
          {| randomCalls := randomCalls w + 3; requests := requests w |},
          [LogReroll 1; LogReroll 2; LogKeepAfterRerolls])).
Proof.
  intros env records fuel w Hne. unfold getRandomMammalRecord. split.
  - destruct (SamplerFacts.rerollLoop_returns env records Hne (3 + fuel) 0 w)
      as [m [w' [evs [Heq [Hin [_ [Hrand _]]]]]]]; [lia | lia |].
    exists m, w', evs. repeat split; auto; lia.
  - intros Hover. apply SamplerFacts.rerollLoop_overrepresented; [exact Hne|].
    intros m Hin. unfold shouldReroll.
    destruct (Hover m Hin) as [H | [H | H]]; rewrite H; cbn;
      rewrite ?orb_true_r; reflexivity.
Qed.

Lemma getRandomMammalRecord_terminates_witness :
  exists m,
    nth_error [SamplerFacts.houseMouse; SamplerFacts.commonShrew; SamplerFacts.noctule]
      (drawIndex (SamplerFacts.quietEnv []) (randomCalls SamplerFacts.start + 2) 3) = Some m /\
    getRandomMammalRecord (SamplerFacts.quietEnv []) (3 + 0)
      [SamplerFacts.houseMouse; SamplerFacts.commonShrew; SamplerFacts.noctule]
      SamplerFacts.start =
      (Value m,
       {| randomCalls := randomCalls SamplerFacts.start + 3;
          requests := requests SamplerFacts.start |},
       [LogReroll 1; LogReroll 2; LogKeepAfterRerolls]).
Proof.
  apply (getRandomMammalRecord_terminates (SamplerFacts.quietEnv [])
           [SamplerFacts.houseMouse; SamplerFacts.commonShrew; SamplerFacts.noctule]
           0 SamplerFacts.start).
  - discriminate.
  - intros m [<- | [<- | [<- | []]]]; cbn; auto.
Defined.

(** ** Post generation *)

Module GenerateFacts.

(** The attempts numbered [k + 1] to [k + n], with the pause of five
    seconds between one attempt and the next. *)
Fixpoint attemptsFrom (k n : nat) : list Event :=
  match n with
  | O => []
  | S n' =>
      LogAttempt (k + 1) ::
      match n' with
      | O => []
      | S _ => Sleep 5000 :: attemptsFrom (k + 1) n'
      end
  end.

Lemma bind_run {A B : Type} (m : M A) (k : A -> M B) (w w1 : World) (a : A)
    (e1 : list Event) :
  m w = (Value a, w1, e1) ->
  bind m k w = (let '(o, w2, e2) := k a w1 in (o, w2, (e1 ++ e2)%list)).
Proof. intros H. unfold bind. now rewrite H. Qed.

Lemma bind_thrown {A B : Type} (m : M A) (k : A -> M B) (w w1 : World) (e : Error)
    (e1 : list Event) :
  m w = (Thrown e, w1, e1) -> bind m k w = (Thrown e, w1, e1).
Proof. intros H. unfold bind. now rewrite H. Qed.

Lemma bind_value_inv {A B : Type} (m : M A) (k : A -> M B) (w w2 : World) (b : B)
    (evs : list Event) :
  bind m k w = (Value b, w2, evs) ->
  exists a w1 e1 e2,
    m w = (Value a, w1, e1) /\ k a w1 = (Value b, w2, e2) /\ evs = (e1 ++ e2)%list.
Proof.
  unfold bind. destruct (m w) as [[[a| |] w1] e1]; try discriminate.
  destruct (k a w1) as [[o w2'] e2] eqn:Hk. intros H. injection H as -> -> <-.
  now exists a, w1, e1, e2.
Qed.

Ltac returns_null :=
  do 3 eexists; split; [reflexivity | split; [reflexivity | discriminate]].

Section WithEnv.

Variable env : Env.

Lemma searchMacaulayByTaxonomy_outcome (searchTerm : string) (searchType : SearchType)
    (w : World) :
  exists r w' evs,
    searchMacaulayByTaxonomy env searchTerm searchType w = (Value r, w', evs) /\
    SamplerFacts.schedule evs = [] /\
    (forall found, r = Some found ->
       noMedia r = false /\ exists details, getAssetDetails found = Some details).
Proof.
  unfold searchMacaulayByTaxonomy.
  rewrite (bind_run _ _ w _ _ _ eq_refl).
  destruct (taxonomyApi env (requests w) searchTerm) as [| |taxonomyData];
    try returns_null.
  destruct taxonomyData as [|d0 data];
    try returns_null.
  destruct (findBestTaxonomyMatch (d0 :: data) searchTerm searchType) as [sel|];
    try returns_null.
  destruct (match code sel with
            | Some c => Js.first (Js.split c ",")
            | None => None
            end) as [taxonCode|];
    try returns_null.
  destruct (taxonCode =? EmptyString)%string;
    try returns_null.
  unfold bind, searchMacaulayForTaxon.
  destruct (searchOutcome _) as [found|];
    try returns_null.
  destruct (List.length (foundIds found) =? 0)%nat eqn:E;
    try returns_null.
  do 3 eexists. split; [reflexivity | split; [reflexivity|]].
  intros f Hf. injection Hf as <-. cbn [noMedia assetIds getAssetDetails].
  split; [exact E | now eexists].
Qed.

Lemma classify_filter_total (target : option Mammal.MammalRecord)
    (details : Z -> option MediaResult) (ids : list Z) :
  exists k, filterM (fun assetId => Classifier.classify target (details assetId)) ids = Value k.
Proof.
  apply SessionFacts.filterM_total. intros x _.
  rewrite ClassifierFacts.classify_usable. now eexists.
Qed.

Lemma familyFallback_outcome (target : option Mammal.MammalRecord)
    (selectedMammal : Mammal.MammalRecord) (w : World) :
  exists r b w' evs,
    familyFallback env target selectedMammal w = (Value (r, b), w', evs) /\
    SamplerFacts.schedule evs = [] /\
    (b = false -> r = None) /\
    (b = true -> noMedia r = false) /\
    (forall found, r = Some found ->
       noMedia r = false /\ exists details, getAssetDetails found = Some details).
Proof.
  unfold familyFallback.
  destruct (searchMacaulayByTaxonomy_outcome (Mammal.family selectedMammal) FamilySearch w)
    as [r [w1 [e1 [Heq [Hsch Hfound]]]]].
  rewrite (bind_run _ _ w _ _ _ Heq).
  destruct r as [found|].
  2:{ exists None, false. do 2 eexists. split; [reflexivity|].
      rewrite SamplerFacts.schedule_app, Hsch.
      repeat split; auto; discriminate. }
  destruct (Hfound found eq_refl) as [Hmedia [details Hdetails]].
  rewrite Hdetails. cbn [noMedia] in Hmedia.
  destruct (List.length (assetIds found)) as [|n] eqn:Hlen; [discriminate|].
  cbn [Nat.ltb Nat.leb].
  destruct (classify_filter_total target details (assetIds found)) as [k Hk].
  unfold bind, lift. rewrite Hk.
  destruct k as [|id k].
  - exists None, false. do 2 eexists. split; [reflexivity|].
    rewrite SamplerFacts.schedule_app, Hsch.
    repeat split; auto; discriminate.
  - eexists; exists true. do 2 eexists. split; [reflexivity|].
    rewrite SamplerFacts.schedule_app, Hsch.
    split; [reflexivity | split; [discriminate | split; [reflexivity|]]].
    intros f Hf. injection Hf as <-. cbn. split; [reflexivity | now exists details].
Qed.

Section Sampling.

Variable records : list Mammal.MammalRecord.
Hypothesis nonEmpty : records <> [].
Variable rerollFuel : nat.
Hypothesis enoughRerollFuel : 3 <= rerollFuel.

Lemma samplingLoop_outcome (fuel : nat) :
  forall (attempts : nat) (searchResult : option MacaulaySearchResult)
         (selectedMammal : option Mammal.MammalRecord) (w : World),
    attempts <= 5 -> 5 - attempts <= fuel ->
    (forall found, searchResult = Some found ->
       noMedia searchResult = false /\
       exists details, getAssetDetails found = Some details) ->
    exists r sel w' evs n,
      samplingLoop env fuel rerollFuel records attempts searchResult selectedMammal w
        = (Value (r, sel), w', evs) /\
      attempts + n <= 5 /\
      SamplerFacts.schedule evs = attemptsFrom attempts n /\
      (attempts < 5 -> noMedia searchResult = true -> 1 <= n) /\
      (noMedia r = true -> attempts + n = 5) /\
      (forall found, r = Some found ->
         noMedia r = false /\ exists details, getAssetDetails found = Some details).
Proof.
  induction fuel as [|fuel IH]; intros attempts searchResult selectedMammal w Hle Hfuel Hdet.
  - assert (attempts = 5) by lia. subst attempts.
    cbn [samplingLoop]. unfold maxAttempts. cbn [Nat.ltb Nat.leb andb].
    exists searchResult, selectedMammal, w, [], 0.
    split; [reflexivity|]. cbn [attemptsFrom SamplerFacts.schedule filter].
    (split; [|split; [|split; [|split]]]); auto; lia.
  - cbn [samplingLoop]. unfold maxAttempts.
    destruct ((attempts <? 5)%nat && noMedia searchResult) eqn:Hcond.
    2:{ exists searchResult, selectedMammal, w, [], 0.
        split; [reflexivity|]. cbn [attemptsFrom SamplerFacts.schedule filter].
        (split; [|split; [|split; [|split]]]); auto; try lia.
        - intros Hlt Hno. apply Nat.ltb_lt in Hlt. rewrite Hlt, Hno in Hcond. discriminate.
        - intros Hno. rewrite Hno, andb_true_r in Hcond. apply Nat.ltb_ge in Hcond. lia. }
    apply andb_true_iff in Hcond. destruct Hcond as [Hlt Hno]. apply Nat.ltb_lt in Hlt.
    rewrite (bind_run _ _ w _ _ _ eq_refl).
    destruct (SamplerFacts.rerollLoop_returns env records nonEmpty rerollFuel 0 w)
      as [m [w1 [e1 [Hdraw [_ [_ [_ Hs1]]]]]]]; [lia | lia |].
    unfold getRandomMammalRecord. rewrite (bind_run _ _ w _ _ _ Hdraw).
    destruct (searchMacaulayByTaxonomy_outcome
                (Js.replaceFirst (Mammal.sciName m) "_" " ") SpeciesSearch w1)
      as [r2 [w2 [e2 [Hsearch [Hs2 Hd2]]]]].
    rewrite (bind_run _ _ w1 _ _ _ Hsearch).
    destruct (noMedia r2) eqn:Hno2; cbn [negb].
    2:{ exists r2, (Some m), w2. eexists. exists 1. cbn [ret]. split; [reflexivity|].
        rewrite !SamplerFacts.schedule_app, Hs1, Hs2. cbn.
        (split; [|split; [|split; [|split]]]); auto; try lia.
        - intros Hc. rewrite Hc in Hno2. discriminate.
        - intros found Hf. split; [exact Hno2 | apply (Hd2 found Hf)]. }
    destruct (familyFallback_outcome None m w2)
      as [r3 [b [w3 [e3 [Hfam [Hs3 [Hfalse [Htrue Hd3]]]]]]]].
    rewrite (bind_run _ _ w2 _ _ _ Hfam). cbn [fst snd].
    destruct b.
    { exists r3, (Some m), w3. eexists. exists 1. cbn [ret]. split; [reflexivity|].
      rewrite !SamplerFacts.schedule_app, Hs1, Hs2, Hs3. cbn.
      (split; [|split; [|split; [|split]]]); auto; try lia.
      intros Hc. rewrite (Htrue eq_refl) in Hc. discriminate. }
    rewrite (Hfalse eq_refl).
    destruct (IH (attempts + 1) None (Some m) w3) as
      [r [sel [w4 [e4 [n [Hloop [Hn [Hs4 [Hpos [Hend Hd4]]]]]]]]]]; [lia | lia | discriminate |].
    destruct (Nat.ltb_spec (attempts + 1) 5) as [Hmore | Hlast].
    + rewrite (bind_run _ _ w3 _ _ _ eq_refl), Hloop.
      exists r, sel, w4. eexists. exists (S n). split; [reflexivity|].
      rewrite !SamplerFacts.schedule_app, Hs1, Hs2, Hs3, Hs4. cbn.
      specialize (Hpos Hmore eq_refl). destruct n as [|n']; [lia|].
      (split; [|split; [|split; [|split]]]); auto; try lia.
      intros Hr. specialize (Hend Hr). lia.
    + rewrite (bind_run _ _ w3 _ _ _ eq_refl), Hloop.
      exists r, sel, w4. eexists. exists (S n). split; [reflexivity|].
      rewrite !SamplerFacts.schedule_app, Hs1, Hs2, Hs3, Hs4. cbn.
      assert (n = 0) by lia. subst n. cbn.
      (split; [|split; [|split; [|split]]]); auto; lia.
Qed.

End Sampling.

(** The asset drawn from a pool in the world [w]. *)
Definition drawnAsset (ids : list Z) (w : World) : Z :=
  List.nth (drawIndex env (randomCalls w) (List.length ids)) ids 0%Z.

Definition afterDraw (w : World) : World :=
  {| randomCalls := S (randomCalls w); requests := requests w |}.

Lemma selectAsset_cases (found : MacaulaySearchResult) (w : World) :
  let id := drawnAsset (assetIds found) w in
  match getAssetDetails found with
  | Some details =>
      let tax := Classifier.taxonomyOf (details id) in
      selectAsset env found w =
        (match tax with
         | Some t => if Classifier.speciesOrSubspecies t then Value (id, tax)
                     else Thrown (NotSpeciesSpecific (category t))
         | None => Thrown (NotSpeciesSpecific None)
         end, afterDraw w, [LogSelectedAsset id; LogAssetTaxonomy tax])
  | None => selectAsset env found w = (Value (id, None), afterDraw w, [LogSelectedAsset id])
  end.
Proof.
  unfold selectAsset, pickAsset, drawnAsset, afterDraw, bind, floorRandom, emit, ret, throw.
  cbn. destruct (getAssetDetails found) as [details|]; cbn; [|reflexivity].
  destruct (Classifier.taxonomyOf _) as [t|]; cbn; [|reflexivity].
  destruct (Classifier.speciesOrSubspecies t); reflexivity.
Qed.

Lemma speciesOrSubspecies_spec (t : Taxonomy) :
  Classifier.speciesOrSubspecies t = true <->
  category t = Some "species" \/ category t = Some "subspecies".
Proof.
  unfold Classifier.speciesOrSubspecies, Js.strictEq. destruct (category t) as [c|].
  - rewrite orb_true_iff, !String.eqb_eq. split.
    + intros [-> | ->]; auto.
    + intros [H | H]; injection H as H; subst c; auto.
  - split; [discriminate | intros [H | H]; discriminate].
Qed.

Lemma finishMammalPost_value (mammalRecords : list Mammal.MammalRecord)
    (found : MacaulaySearchResult) (selectedMammal : option Mammal.MammalRecord)
    (w w' : World) (post : Post) (evs : list Event) :
  finishMammalPost env mammalRecords found selectedMammal w = (Value post, w', evs) ->
  exists details t,
    getAssetDetails found = Some details /\
    Classifier.taxonomyOf (details (drawnAsset (assetIds found) w)) = Some t /\
    Classifier.speciesOrSubspecies t = true /\
    evs = [LogSelectedAsset (drawnAsset (assetIds found) w); LogAssetTaxonomy (Some t);
           FetchMetadata (PostText.assetUrl (drawnAsset (assetIds found) w))] /\
    uri post = PostText.assetUrl (drawnAsset (assetIds found) w) /\
    String.length (text post) <= 300.
Proof.
  unfold finishMammalPost.
  pose proof (selectAsset_cases found w) as Hsel. cbv zeta in Hsel.
  destruct (getAssetDetails found) as [details|].
  - destruct (Classifier.taxonomyOf (details (drawnAsset (assetIds found) w))) as [t|] eqn:Htax.
    + destruct (Classifier.speciesOrSubspecies t) eqn:Hrank.
      * rewrite (bind_run _ _ w _ _ _ Hsel). cbn [fst snd].
        destruct (postMammalOf _ _ _) as [postMammal|]; [|discriminate].
        destruct (sciName t) as [sci|]; [|discriminate].
        destruct (comName t) as [com|]; [|discriminate].
        rewrite Hrank.
        destruct (negb (sci =? EmptyString) && negb (com =? EmptyString) && true);
          [|discriminate].
        destruct (Nat.ltb_spec 300
                    (String.length (PostText.mammalText
                       (PostText.mammalHeader t sci com postMammal) postMammal)))
          as [Hlong | Hshort]; [discriminate|].
        cbn. intros H. injection H as <- _ <-.
        exists details, t. cbn [text uri]. repeat split; auto.
      * rewrite (bind_thrown _ _ w _ _ _ Hsel). discriminate.
    + rewrite (bind_thrown _ _ w _ _ _ Hsel). discriminate.
  - rewrite (bind_run _ _ w _ _ _ Hsel). cbn [fst snd].
    destruct (postMammalOf _ _ _); discriminate.
Qed.

Lemma finishMammalPost_schedule (mammalRecords : list Mammal.MammalRecord)
    (found : MacaulaySearchResult) (selectedMammal : option Mammal.MammalRecord)
    (w : World) :
  exists o w' evs,
    finishMammalPost env mammalRecords found selectedMammal w = (o, w', evs) /\
    o <> OutOfFuel /\ SamplerFacts.schedule evs = [].
Proof.
  unfold finishMammalPost.
  pose proof (selectAsset_cases found w) as Hsel. cbv zeta in Hsel.
  destruct (getAssetDetails found) as [details|].
  - destruct (Classifier.taxonomyOf (details (drawnAsset (assetIds found) w))) as [t|] eqn:Htax.
    + destruct (Classifier.speciesOrSubspecies t) eqn:Hrank.
      * rewrite (bind_run _ _ w _ _ _ Hsel). cbn [fst snd].
        destruct (postMammalOf _ _ _) as [postMammal|];
          [|do 3 eexists; split; [reflexivity | split; [discriminate | reflexivity]]].
        destruct (sciName t) as [sci|];
          [|do 3 eexists; split; [reflexivity | split; [discriminate | reflexivity]]].
        destruct (comName t) as [com|];
          [|do 3 eexists; split; [reflexivity | split; [discriminate | reflexivity]]].
        rewrite Hrank.
        destruct (negb (sci =? EmptyString) && negb (com =? EmptyString) && true);
          [|do 3 eexists; split; [reflexivity | split; [discriminate | reflexivity]]].
        destruct (300 <? String.length _)%nat;
          do 3 eexists; (split; [reflexivity | split; [discriminate | reflexivity]]).
      * rewrite (bind_thrown _ _ w _ _ _ Hsel).
        do 3 eexists; split; [reflexivity | split; [discriminate | reflexivity]].
    + rewrite (bind_thrown _ _ w _ _ _ Hsel).
      do 3 eexists; split; [reflexivity | split; [discriminate | reflexivity]].
  - rewrite (bind_run _ _ w _ _ _ Hsel). cbn [fst snd].
    destruct (postMammalOf _ _ _);
      do 3 eexists; (split; [reflexivity | split; [discriminate | reflexivity]]).
Qed.

Lemma resolveTestSpecies_value (mammalRecords : list Mammal.MammalRecord)
    (testSpeciesSciName : string) (w w' : World) (r : option MacaulaySearchResult)
    (sel : Mammal.MammalRecord) (evs : list Event) :
  resolveTestSpecies env mammalRecords testSpeciesSciName w = (Value (r, sel), w', evs) ->
  forall found, r = Some found ->
    noMedia r = false /\ exists details, getAssetDetails found = Some details.
Proof.
  unfold resolveTestSpecies.
  destruct (find _ mammalRecords) as [selectedMammal|]; [|discriminate].
  destruct (searchMacaulayByTaxonomy_outcome
              (Js.replaceFirst (Mammal.sciName selectedMammal) "_" " ") SpeciesSearch w)
    as [r1 [w1 [e1 [Hsearch [_ Hd1]]]]].
  rewrite (bind_run _ _ w _ _ _ Hsearch).
  destruct (noMedia r1) eqn:Hno1.
  - destruct (familyFallback_outcome (Some selectedMammal) selectedMammal w1)
      as [r2 [b [w2 [e2 [Hfam [_ [_ [_ Hd2]]]]]]]].
    rewrite (bind_run _ _ w1 _ _ _ Hfam). cbn [fst].
    destruct (noMedia r2) eqn:Hno2; [discriminate|].
    cbn. intros H. injection H as <- _ _ _.
    intros found Hf. split; [exact Hno2 | apply (Hd2 found Hf)].
  - cbn. intros H. injection H as <- _ _ _.
    intros found Hf. split; [exact Hno1 | apply (Hd1 found Hf)].
Qed.

Lemma resolveMammal_value (fuel : nat) (testSpeciesSciName : option string) (w w' : World)
    (recs : list Mammal.MammalRecord) (r : option MacaulaySearchResult)
    (sel : option Mammal.MammalRecord) (evs : list Event) :
  5 <= fuel ->
  resolveMammal env fuel testSpeciesSciName w = (Value (recs, r, sel), w', evs) ->
  forall found, r = Some found ->
    noMedia r = false /\ exists details, getAssetDetails found = Some details.
Proof.
  intros Hfuel. unfold resolveMammal.
  destruct (mammalCsv env) as [mammalRecords|]; [|discriminate].
  destruct (List.length mammalRecords =? 0)%nat eqn:Hlen; [discriminate|].
  assert (Hne : mammalRecords <> []).
  { intros ->. discriminate. }
  assert (Hsampling :
    (r0 <- samplingLoop env fuel fuel mammalRecords 0 None None ;;
     ret (mammalRecords, fst r0, snd r0)) w = (Value (recs, r, sel), w', evs) ->
    forall found, r = Some found ->
      noMedia r = false /\ exists details, getAssetDetails found = Some details).
  { destruct (samplingLoop_outcome mammalRecords Hne fuel ltac:(lia) fuel 0 None None w)
      as [r1 [sel1 [w1 [e1 [n [Hloop [_ [_ [_ [_ Hd]]]]]]]]]]; [lia | lia | discriminate |].
    rewrite (bind_run _ _ w _ _ _ Hloop). cbn.
    intros H. injection H as _ <- _ _ _. exact Hd. }
  destruct testSpeciesSciName as [t|]; [|exact Hsampling].
  destruct (negb (t =? EmptyString)); [|exact Hsampling].
  intros H. apply bind_value_inv in H.
  destruct H as [[r1 sel1] [w1 [e1 [e2 [Htest [Hret _]]]]]].
  cbn in Hret. injection Hret as _ <- _ _. cbn [fst].
  exact (resolveTestSpecies_value _ _ _ _ _ _ _ Htest).
Qed.

Lemma resolveMammal_sampling (fuel : nat) (records : list Mammal.MammalRecord) (w : World) :
  mammalCsv env = Some records -> records <> [] -> 5 <= fuel ->
  exists r sel w1 e1 n,
    resolveMammal env fuel None w = (Value (records, r, sel), w1, e1) /\
    1 <= n <= 5 /\
    SamplerFacts.schedule e1 = attemptsFrom 0 n /\
    (noMedia r = true -> n = 5) /\
    (forall found, r = Some found ->
       noMedia r = false /\ exists details, getAssetDetails found = Some details).
Proof.
  intros Hcsv Hne Hfuel. unfold resolveMammal. rewrite Hcsv.
  destruct records as [|r0 records']; [contradiction|].
  cbn [List.length Nat.eqb].
  destruct (samplingLoop_outcome (r0 :: records') Hne fuel ltac:(lia) fuel 0 None None w)
    as [r [sel [w1 [e1 [n [Hloop [Hn [Hsch [Hpos [Hend Hd]]]]]]]]]]; [lia | lia | discriminate |].
  rewrite (bind_run _ _ w _ _ _ Hloop). cbn [ret fst snd]. rewrite app_nil_r.
  exists r, sel, w1, e1, n. split; [reflexivity|].
  specialize (Hpos ltac:(lia) eq_refl).
  split; [lia | split; [exact Hsch | split; [|exact Hd]]].
  intros Hno. specialize (Hend Hno). lia.
Qed.

End WithEnv.

End GenerateFacts.

(** C8.  In sampling mode, on a non-empty reference list, a call of
    [generateMammalPost] ends, makes between one and five attempts, and
    pauses five seconds between one attempt and the next and nowhere
    else.  When the loop ends without a pool of assets, five attempts were
    made, the call throws the failure that carries the attempt bound 5,
    and nothing is done after the fifth attempt. *)
Theorem generateMammalPost_attempts :
  forall (env : Env) (fuel : nat) (records : list Mammal.MammalRecord) (w : World),
    mammalCsv env = Some records -> records <> [] -> 5 <= fuel ->
    exists o w' evs n,
      generateMammalPost env fuel None w = (o, w', evs) /\
      o <> OutOfFuel /\
      1 <= n <= 5 /\
      SamplerFacts.schedule evs = GenerateFacts.attemptsFrom 0 n /\
      exists r sel w1 e1,
        resolveMammal env fuel None w = (Value (records, r, sel), w1, e1) /\
        (noMedia r = true ->
         n = 5 /\ o = Thrown (FailedToFindMedia 5) /\ w' = w1 /\ evs = e1).
Proof.
  intros env fuel records w Hcsv Hne Hfuel.
  destruct (GenerateFacts.resolveMammal_sampling env fuel records w Hcsv Hne Hfuel)
    as [r [sel [w1 [e1 [n [Hres [Hn [Hsch [Hend Hd]]]]]]]]].
  unfold generateMammalPost. rewrite (GenerateFacts.bind_run _ _ w _ _ _ Hres).
  destruct r as [found|].
  - destruct (Hd found eq_refl) as [Hmedia _]. cbn [noMedia] in Hmedia. rewrite Hmedia.
    destruct (GenerateFacts.finishMammalPost_schedule env records found sel w1)
      as [o [w2 [e2 [Hfin [Hfuel2 Hs2]]]]].
    rewrite Hfin. exists o, w2. eexists. exists n.
    split; [reflexivity|]. split; [exact Hfuel2|]. split; [exact Hn|].
    split; [now rewrite SamplerFacts.schedule_app, Hs2, app_nil_r|].
    exists (Some found), sel, w1, e1. split; [exact Hres|].
    cbn [noMedia]. rewrite Hmedia. discriminate.
  - cbn [throw]. rewrite app_nil_r. exists (Thrown (FailedToFindMedia maxAttempts)), w1, e1, n.
    split; [reflexivity|]. split; [discriminate|]. split; [exact Hn|]. split; [exact Hsch|].
    exists None, sel, w1, e1. split; [exact Hres|].
    intros Hno. specialize (Hend Hno). auto.
Qed.

Lemma generateMammalPost_attempts_witness :
  exists o w' evs n,
    generateMammalPost (SamplerFacts.quietEnv [ClassifierFacts.walrusRecord]) 5 None
      SamplerFacts.start = (o, w', evs) /\
    o <> OutOfFuel /\
    1 <= n <= 5 /\
    SamplerFacts.schedule evs = GenerateFacts.attemptsFrom 0 n /\
    exists r sel w1 e1,
      resolveMammal (SamplerFacts.quietEnv [ClassifierFacts.walrusRecord]) 5 None
        SamplerFacts.start = (Value ([ClassifierFacts.walrusRecord], r, sel), w1, e1) /\
      (noMedia r = true ->
       n = 5 /\ o = Thrown (FailedToFindMedia 5) /\ w' = w1 /\ evs = e1).
Proof.
  apply (generateMammalPost_attempts (SamplerFacts.quietEnv [ClassifierFacts.walrusRecord])
           5 [ClassifierFacts.walrusRecord] SamplerFacts.start).
  - reflexivity.
  - discriminate.
  - lia.
Defined.

(** End-to-end scenario 3: every service call fails, five attempts are made
    with four pauses, and the call fails with the attempt bound. *)
Example generateMammalPost_exhausted :
  generateMammalPost (SamplerFacts.quietEnv [ClassifierFacts.walrusRecord]) 5 None
    SamplerFacts.start =
  (Thrown (FailedToFindMedia 5),
   {| randomCalls := 5; requests := 10 |},
   [LogAttempt 1; RequestTaxonomy "Odobenus rosmarus"; RequestTaxonomy "Odobenidae"; Sleep 5000;
    LogAttempt 2; RequestTaxonomy "Odobenus rosmarus"; RequestTaxonomy "Odobenidae"; Sleep 5000;
    LogAttempt 3; RequestTaxonomy "Odobenus rosmarus"; RequestTaxonomy "Odobenidae"; Sleep 5000;
    LogAttempt 4; RequestTaxonomy "Odobenus rosmarus"; RequestTaxonomy "Odobenidae"; Sleep 5000;
    LogAttempt 5; RequestTaxonomy "Odobenus rosmarus"; RequestTaxonomy "Odobenidae"]).
Proof. vm_compute. reflexivity. Qed.

(** ** Scenarios *)

Module Scenario.

Definition photo (id : Z) (com cat : string) : MediaResult :=
  {| assetId := Some id;
     taxonomy := Some {| sciName := Some "Odobenus rosmarus"; comName := Some com;
                         category := Some cat |};
     tags := TagsAbsent |}.

Definition tesia (englishName : string) : Bird.BirdRecord :=
  {| Bird.Order := "Passeriformes"; Bird.Family := "Cettiidae";
     Bird.Family_English_name := "Bush Warblers and allies";
     Bird.Scientific_name := "Tesia everetti";
     Bird.English_name_AviList := englishName;
     Bird.Range := "Lesser Sundas";
     Bird.IUCN_Red_List_Category := "LC";
     Bird.Species_code_Cornell_Lab := "gybtes1" |}.

(** The name-search service knows the walrus and the media index answers
    every query with the one photo given. *)
Definition onePhotoEnv (item : MediaResult) (englishName : string) : Env :=
  {| mathRandom := fun k => k;
     taxonomyApi := fun _ _ => TaxonomyArray [MatcherFacts.walrus];
     mediaApi := fun _ _ _ => BodyArray [item];
     birdCsv := Some [tesia englishName];
     mammalCsv := Some [ClassifierFacts.walrusRecord] |}.

Definition longName : string := string_of_list_ascii (List.repeat "a"%char 301).

(** The search result built from the one photo. *)
Definition foundPhoto (item : MediaResult) : MacaulaySearchResult :=
  {| assetIds := [123%Z];
     taxonomyLevel := "species";
     commonName := Some "Walrus";
     getAssetDetails := Some (Session.findAsset [item]) |}.

End Scenario.

(** End-to-end scenario 1: one bird, one species-rank photo without tags. *)
Example generateBirdPost_scenario :
  exists body,
    generateBirdPost (Scenario.onePhotoEnv (Scenario.photo 123 "Walrus" "species")
                        "Russet-capped Tesia") 3 SamplerFacts.start =
    (Value {| text := body; uri := "https://macaulaylibrary.org/asset/123/embed" |},
     {| randomCalls := 2; requests := 1 |},
     [LogAttempt 1; MediaSession "gybtes1" false; LogSelectedAsset 123;
      FetchMetadata "https://macaulaylibrary.org/asset/123/embed"]).
Proof. eexists. vm_compute. reflexivity. Qed.

(** C2.  In the test-species mode and in the sampling mode alike, a call
    of [generateMammalPost] that returns a post has, as its last three
    events, chosen an asset, logged that asset's own taxonomy, whose rank
    is species or subspecies, and fetched the page of that asset.  And
    once a pool is found, if the asset drawn from it has no taxonomy or a
    taxonomy of another rank, the call throws the error "not
    species-specific" right after logging that taxonomy. *)
Theorem generateMammalPost_species_specific :
  forall (env : Env) (fuel : nat) (testSpeciesSciName : option string) (w : World),
    (forall post w' evs,
       generateMammalPost env fuel testSpeciesSciName w = (Value post, w', evs) ->
       exists pre id t,
         evs = (pre ++ [LogSelectedAsset id; LogAssetTaxonomy (Some t);
                        FetchMetadata (PostText.assetUrl id)])%list /\
         (category t = Some "species" \/ category t = Some "subspecies") /\
         uri post = PostText.assetUrl id) /\
    (5 <= fuel ->
     forall recs found sel w1 e1,
       resolveMammal env fuel testSpeciesSciName w = (Value (recs, Some found, sel), w1, e1) ->
       exists details,
         getAssetDetails found = Some details /\
         let id := GenerateFacts.drawnAsset env (assetIds found) w1 in
         let tax := Classifier.taxonomyOf (details id) in
         (forall t, tax = Some t ->
            category t <> Some "species" /\ category t <> Some "subspecies") ->
         generateMammalPost env fuel testSpeciesSciName w =
           (Thrown (NotSpeciesSpecific match tax with
                                       | Some t => category t
                                       | None => None
                                       end),
            GenerateFacts.afterDraw w1,
            (e1 ++ [LogSelectedAsset id; LogAssetTaxonomy tax])%list)).
Proof.
  intros env fuel test w. split.
  - intros post w' evs H. unfold generateMammalPost in H.
    apply GenerateFacts.bind_value_inv in H.
    destruct H as [[[recs r] sel] [w1 [e1 [e2 [_ [Hk ->]]]]]].
    destruct r as [found|]; [|discriminate].
    destruct (List.length (assetIds found) =? 0)%nat; [discriminate|].
    apply GenerateFacts.finishMammalPost_value in Hk.
    destruct Hk as [details [t [_ [_ [Hrank [-> [Huri _]]]]]]].
    exists e1, (GenerateFacts.drawnAsset env (assetIds found) w1), t.
    split; [reflexivity | split; [|exact Huri]].
    now apply GenerateFacts.speciesOrSubspecies_spec.
  - intros Hfuel recs found sel w1 e1 Hres.
    destruct (GenerateFacts.resolveMammal_value env fuel test w w1 recs (Some found) sel e1
                Hfuel Hres found eq_refl) as [Hmedia [details Hdetails]].
    exists details. split; [exact Hdetails|]. intros id tax Hbad.
    unfold generateMammalPost. rewrite (GenerateFacts.bind_run _ _ w _ _ _ Hres).
    cbn [noMedia] in Hmedia. rewrite Hmedia. unfold finishMammalPost.
    pose proof (GenerateFacts.selectAsset_cases env found w1) as Hsel. cbv zeta in Hsel.
    rewrite Hdetails in Hsel. fold id in Hsel. fold tax in Hsel.
    destruct tax as [t|] eqn:Htax.
    + destruct (Classifier.speciesOrSubspecies t) eqn:Hrank.
      * apply GenerateFacts.speciesOrSubspecies_spec in Hrank.
        destruct (Hbad t eq_refl) as [H1 H2]. tauto.
      * now rewrite (GenerateFacts.bind_thrown _ _ w1 _ _ _ Hsel).
    + now rewrite (GenerateFacts.bind_thrown _ _ w1 _ _ _ Hsel).
Qed.

Lemma generateMammalPost_species_specific_witness :
  generateMammalPost (Scenario.onePhotoEnv (Scenario.photo 123 "Walrus" "hybrid") "Tesia")
    5 (Some "Odobenus_rosmarus") SamplerFacts.start =
  (Thrown (NotSpeciesSpecific (Some "hybrid")),
   {| randomCalls := 1; requests := 2 |},
   [RequestTaxonomy "Odobenus rosmarus"; MediaSession "walrus" true; LogSelectedAsset 123;
    LogAssetTaxonomy (taxonomy (Scenario.photo 123 "Walrus" "hybrid"))]).
Proof.
  destruct (generateMammalPost_species_specific
              (Scenario.onePhotoEnv (Scenario.photo 123 "Walrus" "hybrid") "Tesia")
              5 (Some "Odobenus_rosmarus") SamplerFacts.start) as [_ Hthrow].
  destruct (Hthrow (le_n 5) [ClassifierFacts.walrusRecord]
              (Scenario.foundPhoto (Scenario.photo 123 "Walrus" "hybrid"))
              (Some ClassifierFacts.walrusRecord)
              {| randomCalls := 0; requests := 2 |}
              [RequestTaxonomy "Odobenus rosmarus"; MediaSession "walrus" true]
              eq_refl) as [details [Hdetails Hrun]].
  injection Hdetails as <-.
  apply Hrun. intros t Ht. injection Ht as <-. split; discriminate.
Defined.

(** A species-rank photo found by the species search gives a post. *)
Example generateMammalPost_scenario :
  exists body,
    generateMammalPost (Scenario.onePhotoEnv (Scenario.photo 123 "Walrus" "species") "Tesia")
      5 None SamplerFacts.start =
    (Value {| text := body; uri := "https://macaulaylibrary.org/asset/123/embed" |},
     {| randomCalls := 2; requests := 2 |},
     [LogAttempt 1; RequestTaxonomy "Odobenus rosmarus"; MediaSession "walrus" true;
      LogSelectedAsset 123;
      LogAssetTaxonomy (taxonomy (Scenario.photo 123 "Walrus" "species"));
      FetchMetadata "https://macaulaylibrary.org/asset/123/embed"]).
Proof. eexists. vm_compute. reflexivity. Qed.

(** C9.  A post returned by [generateBirdPost] or by [generateMammalPost]
    has a text of at most 300 characters; when the text built for the
    chosen bird, or for the chosen asset and reference record of a mammal,
    is longer than 300 characters, the call throws instead of returning a
    post. *)
Theorem post_text_within_limit :
  forall (env : Env) (fuel : nat) (w : World),
    (forall post w' evs,
       generateBirdPost env fuel w = (Value post, w', evs) ->
       String.length (text post) <= 300) /\
    (forall testSpeciesSciName post w' evs,
       generateMammalPost env fuel testSpeciesSciName w = (Value post, w', evs) ->
       String.length (text post) <= 300) /\
    (forall birdRecords ids selectedBird w1 e1,
       birdCsv env = Some birdRecords -> birdRecords <> [] ->
       birdLoop env fuel birdRecords 0 None None w
         = (Value (Some ids, Some selectedBird), w1, e1) ->
       ids <> [] ->
       300 < String.length (PostText.birdText selectedBird) ->
       generateBirdPost env fuel w =
         (Thrown TextExceedsLimit, GenerateFacts.afterDraw w1,
          (e1 ++ [LogSelectedAsset (GenerateFacts.drawnAsset env ids w1)])%list)) /\
    (forall testSpeciesSciName recs found sel w1 e1 id t sci com postMammal w2 e2,
       resolveMammal env fuel testSpeciesSciName w = (Value (recs, Some found, sel), w1, e1) ->
       assetIds found <> [] ->
       selectAsset env found w1 = (Value (id, Some t), w2, e2) ->
       postMammalOf recs sel (Some t) = Some postMammal ->
       sciName t = Some sci -> comName t = Some com ->
       sci <> EmptyString -> com <> EmptyString ->
       300 < String.length (PostText.mammalText (PostText.mammalHeader t sci com postMammal)
                                               postMammal) ->
       generateMammalPost env fuel testSpeciesSciName w =
         (Thrown TextExceedsLimit, w2, (e1 ++ e2)%list)).
Proof.
  intros env fuel w. split; [|split; [|split]].
  - intros post w' evs H. unfold generateBirdPost in H.
    destruct (birdCsv env) as [birdRecords|]; [|discriminate].
    destruct (List.length birdRecords =? 0)%nat; [discriminate|].
    apply GenerateFacts.bind_value_inv in H.
    destruct H as [[ids bird] [w1 [e1 [e2 [_ [Hk _]]]]]]. cbn [fst snd] in Hk.
    destruct ids as [ids|]; [|discriminate].
    destruct (List.length ids =? 0)%nat; [discriminate|].
    apply GenerateFacts.bind_value_inv in Hk.
    destruct Hk as [id [w2 [e3 [e4 [_ [Hk _]]]]]].
    apply GenerateFacts.bind_value_inv in Hk.
    destruct Hk as [[] [w3 [e5 [e6 [_ [Hk _]]]]]].
    destruct bird as [selectedBird|]; [|discriminate].
    destruct (Nat.ltb_spec 300 (String.length (PostText.birdText selectedBird)))
      as [Hlong | Hshort]; [discriminate|].
    cbn in Hk. injection Hk as <- _ _. exact Hshort.
  - intros test post w' evs H. unfold generateMammalPost in H.
    apply GenerateFacts.bind_value_inv in H.
    destruct H as [[[recs r] sel] [w1 [e1 [e2 [_ [Hk _]]]]]].
    destruct r as [found|]; [|discriminate].
    destruct (List.length (assetIds found) =? 0)%nat; [discriminate|].
    apply GenerateFacts.finishMammalPost_value in Hk.
    destruct Hk as [details [t [_ [_ [_ [_ [_ Hlen]]]]]]]. exact Hlen.
  - intros birdRecords ids selectedBird w1 e1 Hcsv Hne Hloop Hids Hlong.
    unfold generateBirdPost. rewrite Hcsv.
    destruct birdRecords as [|b0 birds]; [contradiction|]. cbn [List.length Nat.eqb].
    rewrite (GenerateFacts.bind_run _ _ w _ _ _ Hloop). cbn [fst snd].
    destruct ids as [|i0 ids]; [contradiction|]. cbn [List.length Nat.eqb].
    apply Nat.ltb_lt in Hlong.
    unfold pickAsset, bind, floorRandom, emit, ret, throw. cbn [fst snd]. rewrite Hlong.
    reflexivity.
  - intros test recs found sel w1 e1 id t sci com postMammal w2 e2
      Hres Hids Hsel Hpost Hsci Hcom Hsne Hcne Hlong.
    assert (Hrank : Classifier.speciesOrSubspecies t = true).
    { pose proof (GenerateFacts.selectAsset_cases env found w1) as Hc. cbv zeta in Hc.
      destruct (getAssetDetails found) as [details|].
      - rewrite Hc in Hsel.
        destruct (Classifier.taxonomyOf _) as [t'|]; [|discriminate].
        destruct (Classifier.speciesOrSubspecies t') eqn:E; [|discriminate].
        injection Hsel as _ <- _ _. exact E.
      - rewrite Hc in Hsel. discriminate. }
    unfold generateMammalPost. rewrite (GenerateFacts.bind_run _ _ w _ _ _ Hres).
    destruct (assetIds found) as [|i0 ids] eqn:Hpool; [contradiction|].
    cbn [List.length Nat.eqb]. unfold finishMammalPost.
    rewrite (GenerateFacts.bind_run _ _ w1 _ _ _ Hsel). cbn [fst snd].
    rewrite Hpost, Hsci, Hcom, Hrank.
    apply String.eqb_neq in Hsne, Hcne. rewrite Hsne, Hcne. cbn [negb andb].
    apply Nat.ltb_lt in Hlong. rewrite Hlong. cbn [throw]. now rewrite app_nil_r.
Qed.

Lemma post_text_within_limit_witness :
  generateBirdPost (Scenario.onePhotoEnv (Scenario.photo 123 "Walrus" "species")
                      Scenario.longName) 3 SamplerFacts.start =
  (Thrown TextExceedsLimit,
   GenerateFacts.afterDraw {| randomCalls := 1; requests := 1 |},
   ([LogAttempt 1; MediaSession "gybtes1" false] ++
    [LogSelectedAsset
       (GenerateFacts.drawnAsset
          (Scenario.onePhotoEnv (Scenario.photo 123 "Walrus" "species") Scenario.longName)
          [123%Z] {| randomCalls := 1; requests := 1 |})])%list).
Proof.
  apply (post_text_within_limit
           (Scenario.onePhotoEnv (Scenario.photo 123 "Walrus" "species") Scenario.longName)
           3 SamplerFacts.start) with (birdRecords := [Scenario.tesia Scenario.longName])
                                      (selectedBird := Scenario.tesia Scenario.longName).
  - reflexivity.
  - discriminate.
  - vm_compute. reflexivity.
  - discriminate.
  - vm_compute. lia.
Defined.

(** A mammal whose photo carries a common name of 301 characters. *)
Example generateMammalPost_too_long :
  generateMammalPost (Scenario.onePhotoEnv (Scenario.photo 123 Scenario.longName "species")
                        "Tesia") 5 None SamplerFacts.start =
  (Thrown TextExceedsLimit,
   {| randomCalls := 2; requests := 2 |},
   [LogAttempt 1; RequestTaxonomy "Odobenus rosmarus"; MediaSession "walrus" true;
    LogSelectedAsset 123;
    LogAssetTaxonomy (taxonomy (Scenario.photo 123 Scenario.longName "species"))]).
Proof. vm_compute. reflexivity. Qed.

(** A response with a carcass photo, a photo of a living animal and a photo
    without tags. *)
Definition mixedEnv : Env :=
  {| mathRandom := fun k => k;
     taxonomyApi := fun _ _ => TaxonomyArray [MatcherFacts.walrus];
     mediaApi := fun _ _ _ =>
       BodyArray [ClassifierFacts.deadWalrus; ClassifierFacts.livingWalrus;
                  Scenario.photo 123 "Walrus" "species"];
     birdCsv := None;
     mammalCsv := Some [ClassifierFacts.walrusRecord] |}.

Example searchMacaulayForTaxon_mixed :
  exists found,
    searchMacaulayForTaxon mixedEnv "walrus" true SamplerFacts.start =
      (Value (Some found), {| randomCalls := 0; requests := 1 |}, [MediaSession "walrus" true]) /\
    foundIds found = [11%Z; 123%Z] /\
    lookupAsset found 12 = None /\
    lookupAsset found 11 = Some ClassifierFacts.livingWalrus /\
    lookupAsset found 123 = Some (Scenario.photo 123 "Walrus" "species").
Proof. eexists. repeat split. Qed.

Lemma searchMacaulayForTaxon_excludes_dead_witness :
  exists r w' evs,
    searchMacaulayForTaxon mixedEnv "walrus" true SamplerFacts.start = (Value r, w', evs) /\
    (Forall SessionFacts.textTags
       [ClassifierFacts.deadWalrus; ClassifierFacts.livingWalrus;
        Scenario.photo 123 "Walrus" "species"] -> r <> None) /\
    forall found, r = Some found ->
      (forall id, In id (foundIds found) ->
         exists item,
           In item [ClassifierFacts.deadWalrus; ClassifierFacts.livingWalrus;
                    Scenario.photo 123 "Walrus" "species"] /\
           assetId item = Some id /\ ~ SessionFacts.deadTagged item) /\
      (forall id item, lookupAsset found id = Some item ->
         In item [ClassifierFacts.deadWalrus; ClassifierFacts.livingWalrus;
                  Scenario.photo 123 "Walrus" "species"] /\
         assetId item = Some id /\ ~ SessionFacts.deadTagged item) /\
      (forall item,
         In item [ClassifierFacts.deadWalrus; ClassifierFacts.livingWalrus;
                  Scenario.photo 123 "Walrus" "species"] ->
         SessionFacts.deadTagged item ->
         forall id, lookupAsset found id <> Some item) /\
      (forall item id,
         In item [ClassifierFacts.deadWalrus; ClassifierFacts.livingWalrus;
                  Scenario.photo 123 "Walrus" "species"] ->
         tags item = TagsAbsent -> assetId item = Some id ->
         In id (foundIds found) /\ exists item', lookupAsset found id = Some item').
Proof.
  apply (searchMacaulayForTaxon_excludes_dead mixedEnv "walrus" true SamplerFacts.start).
  reflexivity.
Defined.

(** * Further properties *)

(** ** Characters of a string *)

Module CharFacts.

(** The string holds the character. *)
Definition hasChar (a : ascii) (s : string) : bool :=
  Js.includes s (String a EmptyString).

Lemma hasChar_cons (a c : ascii) (s : string) :
  hasChar a (String c s) = Ascii.eqb c a || hasChar a s.
Proof. unfold hasChar. cbn [Js.includes Js.startsWith]. now rewrite andb_true_r. Qed.

Lemma hasChar_empty (a : ascii) : hasChar a EmptyString = false.
Proof. reflexivity. Qed.

Lemma hasChar_app (a : ascii) (s t : string) :
  hasChar a (s ++ t) = hasChar a s || hasChar a t.
Proof.
  induction s as [|c s IH].
  - reflexivity.
  - cbn [append]. rewrite !hasChar_cons, IH. now rewrite orb_assoc.
Qed.

Lemma hasChar_trimStart (a : ascii) (s : string) :
  hasChar a s = false -> hasChar a (Js.trimStart s) = false.
Proof.
  induction s as [|c s IH]; intros H; [reflexivity|].
  cbn [Js.trimStart]. destruct (Js.isSpace c); [|exact H].
  rewrite hasChar_cons in H. apply orb_false_iff in H. now apply IH.
Qed.

Lemma hasChar_trimEnd (a : ascii) (s : string) :
  hasChar a s = false -> hasChar a (Js.trimEnd s) = false.
Proof.
  induction s as [|c s IH]; intros H; [reflexivity|].
  rewrite hasChar_cons in H. apply orb_false_iff in H. destruct H as [Hc Hs].
  cbn [Js.trimEnd]. specialize (IH Hs).
  destruct (Js.trimEnd s) as [|c' r'].
  - destruct (Js.isSpace c); [reflexivity|]. now rewrite hasChar_cons, Hc.
  - now rewrite hasChar_cons, Hc, IH.
Qed.

Lemma hasChar_trim (a : ascii) (s : string) :
  hasChar a s = false -> hasChar a (Js.trim s) = false.
Proof. intros H. unfold Js.trim. now apply hasChar_trimEnd, hasChar_trimStart. Qed.

Lemma trimEnd_last (x : string) (c : ascii) :
  Js.isSpace c = false ->
  Js.trimEnd (x ++ String c EmptyString) = x ++ String c EmptyString.
Proof.
  intros Hc. induction x as [|a x IH].
  - cbn. now rewrite Hc.
  - cbn [append Js.trimEnd]. rewrite IH. destruct x; reflexivity.
Qed.

(** A string that starts and ends with characters that are not white space
    is left alone by [trim]. *)
Lemma trim_framed (c d : ascii) (x : string) :
  Js.isSpace c = false -> Js.isSpace d = false ->
  Js.trim (String c (x ++ String d EmptyString)) = String c (x ++ String d EmptyString).
Proof.
  intros Hc Hd. unfold Js.trim. cbn [Js.trimStart]. rewrite Hc.
  change (String c (x ++ String d EmptyString)) with ((String c x) ++ String d EmptyString).
  now apply trimEnd_last.
Qed.

Lemma splitFrom_char (a : ascii) (g cur r : string) :
  hasChar a g = false ->
  Js.splitFrom (String a EmptyString) 0 cur (g ++ String a r)
  = (cur ++ g) :: Js.splitFrom (String a EmptyString) 0 EmptyString r.
Proof.
  revert cur; induction g as [|c g IH]; intros cur H.
  - cbn [append Js.splitFrom Js.startsWith]. rewrite Ascii.eqb_refl. cbn.
    now rewrite append_empty_r.
  - rewrite hasChar_cons in H. apply orb_false_iff in H. destruct H as [Hc Hg].
    cbn [append Js.splitFrom Js.startsWith]. rewrite Hc. cbn [andb].
    rewrite (IH _ Hg), append_assoc_s. reflexivity.
Qed.

Lemma splitFrom_char_last (a : ascii) (g cur : string) :
  hasChar a g = false ->
  Js.splitFrom (String a EmptyString) 0 cur g = [cur ++ g].
Proof.
  revert cur; induction g as [|c g IH]; intros cur H.
  - cbn. now rewrite append_empty_r.
  - rewrite hasChar_cons in H. apply orb_false_iff in H. destruct H as [Hc Hg].
    cbn [Js.splitFrom Js.startsWith]. rewrite Hc. cbn [andb].
    rewrite (IH _ Hg), append_assoc_s. reflexivity.
Qed.

(** [l.join(a).split(a)] gives [l] back when no element holds [a]. *)
Lemma split_join (a : ascii) (l : list string) :
  l <> [] -> Forall (fun x => hasChar a x = false) l ->
  Js.split (Js.join l (String a EmptyString)) (String a EmptyString) = l.
Proof.
  unfold Js.split, Js.join. induction l as [|x l IH]; intros Hne Hall; [contradiction|].
  inversion Hall as [|x' l' Hx Hl]; subst. destruct l as [|y l].
  - cbn [String.concat]. now rewrite splitFrom_char_last.
  - cbn [String.concat]. cbn [append].
    rewrite (splitFrom_char a x EmptyString _ Hx). cbn [append].
    f_equal. apply IH; [discriminate | exact Hl].
Qed.

End CharFacts.

(** ** The reference files *)

Module CsvFacts.

Import CharFacts.

(** A field written between double quotes. *)
Definition quoted (f : string) : string :=
  String Csv.quote (f ++ String Csv.quote EmptyString).

(** A row written with every field between double quotes. *)
Definition encodeRow (fields : list string) : string :=
  Js.join (List.map quoted fields) ",".

(** A field that can be written between quotes and read back as it is. *)
Definition cleanField (f : string) : Prop :=
  hasChar Csv.quote f = false /\ hasChar (ascii_of_nat 10) f = false /\ Js.trim f = f.

Definition birdFields (b : Bird.BirdRecord) : list string :=
  [Bird.Order b; Bird.Family b; Bird.Family_English_name b; Bird.Scientific_name b;
   Bird.English_name_AviList b; Bird.Range b; Bird.IUCN_Red_List_Category b;
   Bird.Species_code_Cornell_Lab b].

Definition mammalFields (m : Mammal.MammalRecord) : list string :=
  [Mammal.sciName m; Mammal.mainCommonName m; Mammal.order m; Mammal.family m;
   Mammal.continentDistribution m; Mammal.biogeographicRealm m; Mammal.iucnStatus m;
   Mammal.distributionNotes m].

(** The content of a file: a header line, one row per record, and a final
    line break when [finalBreak] is set. *)
Definition fileOf {A : Type} (fieldsOf : A -> list string) (header : string)
    (records : list A) (finalBreak : bool) : string :=
  Js.join (header :: List.map (fun r => encodeRow (fieldsOf r)) records ++
           (if finalBreak then [EmptyString] else []))%list PostText.nl.

Lemma parseFrom_inside (f : string) :
  forall (result : list string) (cur rest : string),
    hasChar Csv.quote f = false ->
    Csv.parseFrom result cur true (f ++ rest) = Csv.parseFrom result (cur ++ f) true rest.
Proof.
  induction f as [|c f IH]; intros result cur rest H.
  - cbn. now rewrite append_empty_r.
  - rewrite hasChar_cons in H. apply orb_false_iff in H. destruct H as [Hc Hf].
    cbn [append Csv.parseFrom]. rewrite Hc. cbn [negb]. rewrite andb_false_r.
    rewrite (IH _ _ _ Hf), append_assoc_s. reflexivity.
Qed.

Lemma parseFrom_quoted (f rest : string) (result : list string) :
  hasChar Csv.quote f = false ->
  Csv.parseFrom result EmptyString false (quoted f ++ rest)
  = Csv.parseFrom result f false rest.
Proof.
  intros H. unfold quoted. cbn [append Csv.parseFrom].
  rewrite Ascii.eqb_refl. cbn [negb]. rewrite append_assoc_s.
  rewrite (parseFrom_inside f _ _ _ H). cbn [append Csv.parseFrom].
  rewrite Ascii.eqb_refl. reflexivity.
Qed.

Lemma parseFrom_row (fields : list string) :
  forall result : list string,
    fields <> [] -> Forall (fun f => hasChar Csv.quote f = false) fields ->
    Csv.parseFrom result EmptyString false (encodeRow fields)
    = (result ++ List.map Js.trim fields)%list.
Proof.
  unfold encodeRow, Js.join.
  induction fields as [|f fields IH]; intros result Hne Hall; [contradiction|].
  inversion Hall as [|f' l' Hf Hl]; subst. destruct fields as [|g fields].
  - cbn [List.map String.concat]. rewrite <- (append_empty_r (quoted f)).
    rewrite (parseFrom_quoted f _ _ Hf). reflexivity.
  - cbn [List.map String.concat]. rewrite (parseFrom_quoted f _ _ Hf).
    cbn [append Csv.parseFrom]. cbn [Ascii.eqb Bool.eqb Csv.quote ascii_of_nat].
    change (Csv.parseFrom (result ++ [Js.trim f])%list EmptyString false
              (String.concat "," (List.map quoted (g :: fields)))
            = (result ++ Js.trim f :: List.map Js.trim (g :: fields))%list).
    rewrite IH; [|discriminate | exact Hl]. now rewrite <- app_assoc.
Qed.

Lemma parseFrom_unquoted (line : string) :
  forall (result : list string) (cur : string),
    hasChar Csv.quote line = false ->
    Csv.parseFrom result cur false line
    = (result ++ List.map Js.trim (Js.splitFrom "," 0 cur line))%list.
Proof.
  induction line as [|c line IH]; intros result cur H; [reflexivity|].
  rewrite hasChar_cons in H. apply orb_false_iff in H. destruct H as [Hc Hl].
  cbn [Csv.parseFrom Js.splitFrom Js.startsWith]. rewrite Hc. cbn [negb].
  rewrite !andb_true_r. destruct (Ascii.eqb c ",").
  - rewrite (IH _ _ Hl). cbn [String.length Nat.sub List.map]. now rewrite <- app_assoc.
  - now rewrite (IH _ _ Hl).
Qed.

Lemma parseFrom_no_quote (line : string) :
  forall (result : list string) (cur : string) (inQuotes : bool),
    Forall (fun f => hasChar Csv.quote f = false) result ->
    hasChar Csv.quote cur = false ->
    Forall (fun f => hasChar Csv.quote f = false) (Csv.parseFrom result cur inQuotes line).
Proof.
  induction line as [|c line IH]; intros result cur inQuotes Hres Hcur.
  - cbn. apply Forall_app. split; [exact Hres|].
    constructor; [now apply hasChar_trim | constructor].
  - cbn [Csv.parseFrom]. destruct (Ascii.eqb c Csv.quote) eqn:Hq; [now apply IH|].
    destruct (Ascii.eqb c "," && negb inQuotes).
    + apply IH; [|reflexivity]. apply Forall_app. split; [exact Hres|].
      constructor; [now apply hasChar_trim | constructor].
    + apply IH; [exact Hres|]. rewrite hasChar_app, Hcur, hasChar_cons, Hq. reflexivity.
Qed.

Lemma parseFrom_not_nil (line : string) :
  forall (result : list string) (cur : string) (inQuotes : bool),
    Csv.parseFrom result cur inQuotes line <> [].
Proof.
  induction line as [|c line IH]; intros result cur inQuotes.
  - cbn. destruct result; discriminate.
  - cbn [Csv.parseFrom]. destruct (Ascii.eqb c Csv.quote); [apply IH|].
    destruct (Ascii.eqb c "," && negb inQuotes); apply IH.
Qed.

End CsvFacts.

(** X1.  A row whose fields are each written between double quotes is read
    back field by field, whatever commas the fields hold: the result is
    the list of the fields, each trimmed of the white space at its ends. *)
Theorem parseCSVLine_quoted_fields :
  forall fields : list string,
    fields <> [] ->
    Forall (fun f => CharFacts.hasChar Csv.quote f = false) fields ->
    Csv.parseCSVLine (CsvFacts.encodeRow fields) = List.map Js.trim fields.
Proof.
  intros fields Hne Hall. unfold Csv.parseCSVLine.
  now rewrite (CsvFacts.parseFrom_row fields [] Hne Hall).
Qed.

Lemma parseCSVLine_quoted_fields_witness :
  Csv.parseCSVLine (CsvFacts.encodeRow ["Odobenus_rosmarus"; " Walrus, Atlantic "; "VU"])
  = List.map Js.trim ["Odobenus_rosmarus"; " Walrus, Atlantic "; "VU"].
Proof.
  apply parseCSVLine_quoted_fields; [discriminate|].
  repeat constructor.
Defined.

(** X2.  On a line without double quotes [parseCSVLine] is [split(',')]
    followed by [trim] on every part. *)
Theorem parseCSVLine_unquoted :
  forall line : string,
    CharFacts.hasChar Csv.quote line = false ->
    Csv.parseCSVLine line = List.map Js.trim (Js.split line ",").
Proof.
  intros line H. unfold Csv.parseCSVLine, Js.split.
  now rewrite (CsvFacts.parseFrom_unquoted line [] EmptyString H).
Qed.

Lemma parseCSVLine_unquoted_witness :
  Csv.parseCSVLine "Mus_musculus, House Mouse ,Rodentia,,LC"
  = List.map Js.trim (Js.split "Mus_musculus, House Mouse ,Rodentia,,LC" ",").
Proof. apply parseCSVLine_unquoted. reflexivity. Defined.

(** X3.  Whatever the line, [parseCSVLine] yields at least one field and
    no field holds a double quote: every quote character only switches
    the quoted state, so a doubled quote inside a quoted field is lost. *)
Theorem parseCSVLine_drops_quotes :
  forall line : string,
    Csv.parseCSVLine line <> [] /\
    Forall (fun f => CharFacts.hasChar Csv.quote f = false) (Csv.parseCSVLine line).
Proof.
  intros line. split.
  - apply CsvFacts.parseFrom_not_nil.
  - apply CsvFacts.parseFrom_no_quote; [constructor | reflexivity].
Qed.

Module CsvFileFacts.

Import CharFacts.

Definition newlineChar : ascii := ascii_of_nat 10.

Lemma quoted_no_newline (f : string) :
  hasChar newlineChar f = false -> hasChar newlineChar (CsvFacts.quoted f) = false.
Proof.
  intros H. unfold CsvFacts.quoted. rewrite hasChar_cons, hasChar_app, H. reflexivity.
Qed.

Lemma concat_cons2 (sep x y : string) (l : list string) :
  String.concat sep (x :: y :: l) = x ++ sep ++ String.concat sep (y :: l).
Proof. reflexivity. Qed.

Lemma encodeRow_no_newline (fields : list string) :
  Forall (fun f => hasChar newlineChar f = false) fields ->
  hasChar newlineChar (CsvFacts.encodeRow fields) = false.
Proof.
  unfold CsvFacts.encodeRow, Js.join. induction fields as [|f fields IH]; intros H.
  - reflexivity.
  - inversion H as [|f' l' Hf Hl]; subst. destruct fields as [|g fields].
    + now apply quoted_no_newline.
    + change (List.map CsvFacts.quoted (f :: g :: fields))
        with (CsvFacts.quoted f :: CsvFacts.quoted g :: List.map CsvFacts.quoted fields).
      rewrite concat_cons2, !hasChar_app, (quoted_no_newline f Hf).
      exact (IH Hl).
Qed.

(** A row of quoted fields starts and ends with a double quote. *)
Lemma encodeRow_framed (fields : list string) :
  fields <> [] ->
  exists mid, CsvFacts.encodeRow fields = String Csv.quote (mid ++ String Csv.quote EmptyString).
Proof.
  unfold CsvFacts.encodeRow, Js.join. induction fields as [|f fields IH]; intros H;
    [contradiction|].
  destruct fields as [|g fields].
  - exists f. reflexivity.
  - destruct IH as [mid Hmid]; [discriminate|].
    change (List.map CsvFacts.quoted (f :: g :: fields))
      with (CsvFacts.quoted f :: List.map CsvFacts.quoted (g :: fields)).
    change (List.map CsvFacts.quoted (g :: fields))
      with (CsvFacts.quoted g :: List.map CsvFacts.quoted fields) in *.
    rewrite concat_cons2, Hmid.
    exists ((f ++ String Csv.quote EmptyString) ++ "," ++ String Csv.quote mid).
    unfold CsvFacts.quoted. cbn [append]. f_equal.
    rewrite !append_assoc_s. reflexivity.
Qed.

Lemma encodeRow_trim (fields : list string) :
  fields <> [] ->
  Js.trim (CsvFacts.encodeRow fields) = CsvFacts.encodeRow fields /\
  (CsvFacts.encodeRow fields =? EmptyString) = false.
Proof.
  intros H. destruct (encodeRow_framed fields H) as [mid ->]. split.
  - apply trim_framed; reflexivity.
  - reflexivity.
Qed.

Section RoundTrip.

Variable A : Type.
Variable mk : list string -> A.
Variable fieldsOf : A -> list string.
Hypothesis mk_fields : forall r, mk (fieldsOf r) = r.
Hypothesis eight_fields : forall r, List.length (fieldsOf r) = 8.

Definition cleanRecord (r : A) : Prop := Forall CsvFacts.cleanField (fieldsOf r).

Lemma fields_not_nil (r : A) : fieldsOf r <> [].
Proof. intros H. pose proof (eight_fields r) as E. rewrite H in E. discriminate. Qed.

Lemma parseCSVLine_record (r : A) :
  cleanRecord r -> Csv.parseCSVLine (CsvFacts.encodeRow (fieldsOf r)) = fieldsOf r.
Proof.
  intros H. unfold Csv.parseCSVLine.
  rewrite (CsvFacts.parseFrom_row (fieldsOf r) [] (fields_not_nil r)).
  - cbn [app]. unfold cleanRecord in H. induction H as [|f l [_ [_ Hf]] Hl IH].
    + reflexivity.
    + cbn [List.map]. now rewrite Hf, IH.
  - unfold cleanRecord in H. eapply Forall_impl; [|exact H]. intros f [Hq _]. exact Hq.
Qed.

Lemma parseRows_records (columns : nat) (records : list A) (trailer : list string) :
  columns <= 8 -> Forall cleanRecord records ->
  Csv.parseRows mk columns
    (List.map (fun r => CsvFacts.encodeRow (fieldsOf r)) records ++ trailer)%list
  = (records ++ Csv.parseRows mk columns trailer)%list.
Proof.
  intros Hcol Hall. induction Hall as [|r records Hr Hrs IH]; [reflexivity|].
  cbn [List.map app Csv.parseRows].
  destruct (encodeRow_trim (fieldsOf r) (fields_not_nil r)) as [Htrim Hne].
  rewrite Htrim, Hne, (parseCSVLine_record r Hr), eight_fields, mk_fields, IH.
  destruct (Nat.ltb_spec 8 columns) as [Hlt | _]; [lia | reflexivity].
Qed.

Lemma parseContent_fileOf (header : string) (records : list A) (finalBreak : bool) :
  hasChar newlineChar header = false ->
  List.length (Csv.parseCSVLine header) <= 8 ->
  Forall cleanRecord records ->
  Csv.parseContent mk (CsvFacts.fileOf fieldsOf header records finalBreak) = records.
Proof.
  intros Hh Hcol Hall. unfold Csv.parseContent, CsvFacts.fileOf, PostText.nl.
  rewrite (split_join newlineChar).
  - rewrite (parseRows_records _ records _ Hcol Hall).
    destruct finalBreak; cbn; now rewrite app_nil_r.
  - discriminate.
  - constructor; [exact Hh|]. apply Forall_app. split.
    + apply Forall_map. eapply Forall_impl; [|exact Hall].
      intros r Hr. apply encodeRow_no_newline.
      eapply Forall_impl; [|exact Hr]. intros f [_ [Hn _]]. exact Hn.
    + destruct finalBreak; repeat constructor.
Qed.

End RoundTrip.

Lemma parseRows_blank {A : Type} (mk : list string -> A) (columns : nat) (rows : list string) :
  Forall (fun l => Js.trim l = EmptyString) rows -> Csv.parseRows mk columns rows = [].
Proof.
  induction 1 as [|l rows Hl _ IH]; [reflexivity|].
  cbn [Csv.parseRows]. now rewrite Hl.
Qed.

Lemma parseContent_blank {A : Type} (mk : list string -> A) (header : string)
    (rows : list string) :
  hasChar newlineChar header = false ->
  Forall (fun l => hasChar newlineChar l = false /\ Js.trim l = EmptyString) rows ->
  Csv.parseContent mk (Js.join (header :: rows) PostText.nl) = [].
Proof.
  intros Hh Hrows. unfold Csv.parseContent, PostText.nl.
  rewrite (split_join newlineChar).
  - apply parseRows_blank. eapply Forall_impl; [|exact Hrows]. intros l [_ H]. exact H.
  - discriminate.
  - constructor; [exact Hh|]. eapply Forall_impl; [|exact Hrows]. intros l [H _]. exact H.
Qed.

(** A mammal file of two rows, the second with a comma inside a field. *)
Definition sampleMammals : list Mammal.MammalRecord :=
  [ClassifierFacts.walrusRecord;
   {| Mammal.sciName := "Mus_musculus"; Mammal.mainCommonName := "House Mouse";
      Mammal.order := "Rodentia"; Mammal.family := "Muridae";
      Mammal.continentDistribution := "Asia (Continent)|Europe (Continent)";
      Mammal.biogeographicRealm := "Palearctic|Indomalayan";
      Mammal.iucnStatus := "LC"; Mammal.distributionNotes := "introduced, worldwide" |}].

Definition sampleBirds : list Bird.BirdRecord :=
  [Scenario.tesia "Russet-capped Tesia"].

End CsvFileFacts.

(** X4.  Round trip of the mammal file: a header line of at most eight
    columns followed by one row per record, every field between double
    quotes, with or without a final line break, is parsed back to exactly
    the records, as long as no field holds a double quote or a line break
    or has white space at its ends. *)
Theorem parseMammalCSV_round_trip :
  forall (header : string) (records : list Mammal.MammalRecord) (finalBreak : bool),
    CharFacts.hasChar CsvFileFacts.newlineChar header = false ->
    List.length (Csv.parseCSVLine header) <= 8 ->
    Forall (fun m => Forall CsvFacts.cleanField (CsvFacts.mammalFields m)) records ->
    Csv.parseMammalCSV (CsvFacts.fileOf CsvFacts.mammalFields header records finalBreak)
    = records.
Proof.
  intros header records finalBreak Hh Hcol Hall. unfold Csv.parseMammalCSV.
  apply (CsvFileFacts.parseContent_fileOf Mammal.MammalRecord Csv.mammalOfValues
           CsvFacts.mammalFields); auto.
  intros []; reflexivity.
Qed.

Lemma parseMammalCSV_round_trip_witness :
  Csv.parseMammalCSV
    (CsvFacts.fileOf CsvFacts.mammalFields
       "sciName,mainCommonName,order,family,continentDistribution,biogeographicRealm,iucnStatus,distributionNotes"
       CsvFileFacts.sampleMammals true)
  = CsvFileFacts.sampleMammals.
Proof.
  apply parseMammalCSV_round_trip.
  - reflexivity.
  - vm_compute. lia.
  - repeat constructor.
Defined.

(** X5.  Round trip of the bird file, under the same conditions. *)
Theorem parseBirdCSV_round_trip :
  forall (header : string) (records : list Bird.BirdRecord) (finalBreak : bool),
    CharFacts.hasChar CsvFileFacts.newlineChar header = false ->
    List.length (Csv.parseCSVLine header) <= 8 ->
    Forall (fun b => Forall CsvFacts.cleanField (CsvFacts.birdFields b)) records ->
    Csv.parseBirdCSV (CsvFacts.fileOf CsvFacts.birdFields header records finalBreak)
    = records.
Proof.
  intros header records finalBreak Hh Hcol Hall. unfold Csv.parseBirdCSV.
  apply (CsvFileFacts.parseContent_fileOf Bird.BirdRecord Csv.birdOfValues
           CsvFacts.birdFields); auto.
  intros []; reflexivity.
Qed.

Lemma parseBirdCSV_round_trip_witness :
  Csv.parseBirdCSV
    (CsvFacts.fileOf CsvFacts.birdFields
       "Order,Family,Family_English_name,Scientific_name,English_name_AviList,Range,IUCN_Red_List_Category,Species_code_Cornell_Lab"
       CsvFileFacts.sampleBirds false)
  = CsvFileFacts.sampleBirds.
Proof.
  apply parseBirdCSV_round_trip.
  - reflexivity.
  - vm_compute. lia.
  - repeat constructor.
Defined.

Module CsvSkipFacts.

Import CharFacts.




End CsvSkipFacts.



Module SessionMoreFacts.

Lemma someDead_true (l : list TagElem) :
  Session.someDead l = Value true ->
  exists s, In (TagText s) l /\ SessionFacts.containsDead s.
Proof.
  induction l as [|t l IH]; cbn [Session.someDead]; intros H; [discriminate|].
  destruct t as [s|]; [|discriminate].
  destruct (Js.includes (Js.toLowerCase s) "dead") eqn:E.
  - exists s. split; [now left | now apply includes_spec].
  - destruct (IH H) as [s' [Hin Hd]]. exists s'. split; [now right | exact Hd].
Qed.

Lemma keep_false_dead (item : MediaResult) :
  Session.keep item = Value false -> SessionFacts.deadTagged item.
Proof.
  unfold Session.keep, SessionFacts.deadTagged. destruct (tags item) as [|s|l]; intros H.
  - discriminate.
  - injection H as H. apply negb_false_iff in H. now apply includes_spec.
  - destruct (Session.someDead l) as [b| |] eqn:E; try discriminate.
    injection H as H. apply negb_false_iff in H. subst b. now apply someDead_true.
Qed.

Lemma filterResults_text (jsonData : list MediaResult) :
  Forall SessionFacts.textTags jsonData ->
  exists kept,
    Session.filterResults jsonData = Value kept /\
    (forall item, In item kept <-> In item jsonData /\ ~ SessionFacts.deadTagged item).
Proof.
  intros Hall. unfold Session.filterResults.
  destruct (SessionFacts.filterM_total Session.keep jsonData) as [kept Hk].
  - intros x Hx. apply SessionFacts.keep_text. rewrite Forall_forall in Hall. now apply Hall.
  - exists kept. split; [exact Hk|]. intros item.
    rewrite (SessionFacts.filterM_value _ _ _ Hk item). split.
    + intros [H1 H2]. split; [exact H1 | now apply SessionFacts.keep_true_alive].
    + intros [H1 H2]. split; [exact H1|].
      rewrite Forall_forall in Hall.
      destruct (SessionFacts.keep_text item (Hall item H1)) as [[|] Hb]; [exact Hb|].
      exfalso. apply H2. now apply keep_false_dead.
Qed.

End SessionMoreFacts.

(** X7.  The filter of the media search removes nothing but carcass
    photos: when every tag list of the response holds strings, each result
    whose tags do not contain "dead" keeps its numeric identifier in the
    pool, and the lookup answers for every identifier of the pool with a
    record that carries that identifier. *)
Theorem searchMacaulayForTaxon_keeps_living :
  forall (env : Env) (taxonCode : string) (includeChildTaxa : bool) (w : World)
         (jsonData : list MediaResult),
    mediaApi env (requests w) taxonCode includeChildTaxa = BodyArray jsonData ->
    Forall SessionFacts.textTags jsonData ->
    exists found w' evs,
      searchMacaulayForTaxon env taxonCode includeChildTaxa w = (Value (Some found), w', evs) /\
      (forall item id, In item jsonData -> ~ SessionFacts.deadTagged item ->
         assetId item = Some id -> In id (foundIds found)) /\
      (forall id, In id (foundIds found) ->
         exists item, lookupAsset found id = Some item /\ assetId item = Some id).
Proof.
  intros env taxonCode includeChildTaxa w jsonData Hresp Hall.
  destruct (SessionMoreFacts.filterResults_text jsonData Hall) as [kept [Hk Hin]].
  unfold searchMacaulayForTaxon, searchOutcome. rewrite Hresp, Hk.
  do 3 eexists. split; [reflexivity|]. cbn [foundIds lookupAsset]. split.
  - intros item id Hitem Halive Hid. apply SessionFacts.numericIds_In.
    exists item. split; [|exact Hid]. apply Hin. now split.
  - intros id Hid. destruct (SessionFacts.findAsset_present kept id Hid) as [item Hfind].
    exists item. split; [exact Hfind|].
    now apply (SessionFacts.findAsset_Some kept id item).
Qed.

Lemma searchMacaulayForTaxon_keeps_living_witness :
  exists found w' evs,
    searchMacaulayForTaxon mixedEnv "walrus" true SamplerFacts.start
      = (Value (Some found), w', evs) /\
    (forall item id,
       In item [ClassifierFacts.deadWalrus; ClassifierFacts.livingWalrus;
                Scenario.photo 123 "Walrus" "species"] ->
       ~ SessionFacts.deadTagged item ->
       assetId item = Some id -> In id (foundIds found)) /\
    (forall id, In id (foundIds found) ->
       exists item, lookupAsset found id = Some item /\ assetId item = Some id).
Proof.
  apply (searchMacaulayForTaxon_keeps_living mixedEnv "walrus" true SamplerFacts.start).
  - reflexivity.
  - repeat constructor; cbn; intros [H | []]; discriminate.
Defined.

(** X8.  [findBestTaxonomyMatch] answers [null] for the empty sequence
    only, and what it returns is always one of the candidates. *)
Theorem findBestTaxonomyMatch_member :
  forall (taxonomyData : list Candidate) (searchTerm : string) (searchType : SearchType),
    (findBestTaxonomyMatch taxonomyData searchTerm searchType = None <-> taxonomyData = []) /\
    (forall r, findBestTaxonomyMatch taxonomyData searchTerm searchType = Some r ->
       In r taxonomyData).
Proof.
  intros taxonomyData searchTerm searchType. unfold findBestTaxonomyMatch.
  destruct taxonomyData as [|d0 data].
  - split; [tauto | discriminate].
  - destruct (filter (Matcher.isExactMatch searchTerm searchType) (d0 :: data))
      as [|m rest] eqn:E1.
    + destruct (filter (Matcher.typeMatch searchType) (d0 :: data)) as [|m rest] eqn:E2.
      * split; [split; discriminate|]. intros r H. injection H as <-. now left.
      * split; [split; discriminate|]. intros r H. injection H as <-.
        now apply (MatcherFacts.filter_head _ _ _ _ E2).
    + split; [split; discriminate|]. intros r H. injection H as <-.
      now apply (MatcherFacts.filter_head _ _ _ _ E1).
Qed.

(** ** The search by name *)

(** X9.  [searchMacaulayByTaxonomy] answers [null] after the one request
    to the name-search service, without opening a media session, when
    that request fails, when its body is not an array or is the empty
    array, and when the chosen candidate has no code or a code whose part
    before the first comma is empty. *)
Theorem searchMacaulayByTaxonomy_no_taxon :
  forall (env : Env) (searchTerm : string) (searchType : SearchType) (w : World),
    (taxonomyApi env (requests w) searchTerm = TaxonomyCallFailed \/
     taxonomyApi env (requests w) searchTerm = TaxonomyNotArray \/
     taxonomyApi env (requests w) searchTerm = TaxonomyArray [] \/
     exists taxonomyData c,
       taxonomyApi env (requests w) searchTerm = TaxonomyArray taxonomyData /\
       findBestTaxonomyMatch taxonomyData searchTerm searchType = Some c /\
       (code c = None \/ code c = Some EmptyString \/
        exists rest, code c = Some (String "," rest))) ->
    searchMacaulayByTaxonomy env searchTerm searchType w =
      (Value None,
       {| randomCalls := randomCalls w; requests := S (requests w) |},
       [RequestTaxonomy searchTerm]).
Proof.
  intros env searchTerm searchType w H. unfold searchMacaulayByTaxonomy.
  rewrite (GenerateFacts.bind_run _ _ w _ _ _ eq_refl).
  destruct H as [-> | [-> | [-> | [taxonomyData [c [-> [Hbest Hcode]]]]]]]; try reflexivity.
  destruct taxonomyData as [|d0 data]; [discriminate|]. rewrite Hbest.
  destruct Hcode as [-> | [-> | [rest ->]]]; reflexivity.
Qed.

Lemma searchMacaulayByTaxonomy_no_taxon_witness :
  searchMacaulayByTaxonomy (SamplerFacts.quietEnv []) "Odobenus rosmarus" SpeciesSearch
    SamplerFacts.start =
  (Value None,
   {| randomCalls := randomCalls SamplerFacts.start;
      requests := S (requests SamplerFacts.start) |},
   [RequestTaxonomy "Odobenus rosmarus"]).
Proof. apply searchMacaulayByTaxonomy_no_taxon. left. reflexivity. Defined.

(** X10.  A result of [searchMacaulayByTaxonomy] comes from two requests,
    the name search and then one media session for the taxon code of the
    chosen candidate (the part of its code before the first comma), always
    with child taxa included.  Its pool is not empty, its level is the
    requested one, and every identifier of the pool is answered by the
    lookup with a result of the media response that carries that
    identifier and whose tags do not contain "dead". *)
Theorem searchMacaulayByTaxonomy_result :
  forall (env : Env) (searchTerm : string) (searchType : SearchType) (w w' : World)
         (found : MacaulaySearchResult) (evs : list Event),
    searchMacaulayByTaxonomy env searchTerm searchType w = (Value (Some found), w', evs) ->
    exists taxonomyData c cd taxonCode jsonData details,
      taxonomyApi env (requests w) searchTerm = TaxonomyArray taxonomyData /\
      findBestTaxonomyMatch taxonomyData searchTerm searchType = Some c /\
      code c = Some cd /\ Js.first (Js.split cd ",") = Some taxonCode /\
      taxonCode <> EmptyString /\
      mediaApi env (S (requests w)) taxonCode true = BodyArray jsonData /\
      evs = [RequestTaxonomy searchTerm; MediaSession taxonCode true] /\
      w' = {| randomCalls := randomCalls w; requests := S (S (requests w)) |} /\
      taxonomyLevel found = searchTypeName searchType /\
      assetIds found <> [] /\
      getAssetDetails found = Some details /\
      forall id, In id (assetIds found) ->
        exists item, details id = Some item /\ In item jsonData /\
                     assetId item = Some id /\ ~ SessionFacts.deadTagged item.
Proof.
  intros env searchTerm searchType w w' found evs. unfold searchMacaulayByTaxonomy.
  rewrite (GenerateFacts.bind_run _ _ w _ _ _ eq_refl).
  destruct (taxonomyApi env (requests w) searchTerm) as [| |taxonomyData] eqn:Htax;
    try discriminate.
  destruct taxonomyData as [|d0 data]; [discriminate|].
  destruct (findBestTaxonomyMatch (d0 :: data) searchTerm searchType) as [c|] eqn:Hbest;
    [|discriminate].
  destruct (code c) as [cd|] eqn:Hcode; [|discriminate].
  destruct (Js.first (Js.split cd ",")) as [taxonCode|] eqn:Hfirst; [|discriminate].
  destruct (taxonCode =? EmptyString) eqn:Hempty; [discriminate|].
  unfold bind, searchMacaulayForTaxon, searchOutcome. cbn [requests randomCalls].
  destruct (mediaApi env (S (requests w)) taxonCode true) as [| | |jsonData] eqn:Hmedia;
    try discriminate.
  unfold Session.filterResults.
  destruct (filterM Session.keep jsonData) as [kept| |] eqn:Hkept; try discriminate.
  cbn [foundIds lookupAsset].
  destruct (List.length (Session.numericIds kept) =? 0)%nat eqn:Hlen; [discriminate|].
  cbn [ret]. intros H. injection H as <- <- <-.
  exists (d0 :: data), c, cd, taxonCode, jsonData, (Session.findAsset kept).
  cbn [taxonomyLevel assetIds getAssetDetails].
  repeat (split; [first [reflexivity | assumption | now apply String.eqb_neq] |]).
  split; [intros E; rewrite E in Hlen; discriminate|].
  split; [reflexivity|].
  intros id Hid. destruct (SessionFacts.findAsset_present kept id Hid) as [item Hfind].
  exists item. split; [exact Hfind|].
  destruct (SessionFacts.findAsset_Some kept id item Hfind) as [Hin Hasset].
  apply (SessionFacts.filterM_value _ _ _ Hkept) in Hin. destruct Hin as [Hin Hkeep].
  repeat split; auto using SessionFacts.keep_true_alive.
Qed.

Lemma searchMacaulayByTaxonomy_result_witness :
  exists taxonomyData c cd taxonCode jsonData details,
    taxonomyApi (Scenario.onePhotoEnv (Scenario.photo 123 "Walrus" "species") "Tesia")
      (requests SamplerFacts.start) "Odobenus rosmarus" = TaxonomyArray taxonomyData /\
    findBestTaxonomyMatch taxonomyData "Odobenus rosmarus" SpeciesSearch = Some c /\
    code c = Some cd /\ Js.first (Js.split cd ",") = Some taxonCode /\
    taxonCode <> EmptyString /\
    mediaApi (Scenario.onePhotoEnv (Scenario.photo 123 "Walrus" "species") "Tesia")
      (S (requests SamplerFacts.start)) taxonCode true = BodyArray jsonData /\
    [RequestTaxonomy "Odobenus rosmarus"; MediaSession "walrus" true]
      = [RequestTaxonomy "Odobenus rosmarus"; MediaSession taxonCode true] /\
    {| randomCalls := 0; requests := 2 |}
      = {| randomCalls := randomCalls SamplerFacts.start;
           requests := S (S (requests SamplerFacts.start)) |} /\
    taxonomyLevel (Scenario.foundPhoto (Scenario.photo 123 "Walrus" "species"))
      = searchTypeName SpeciesSearch /\
    assetIds (Scenario.foundPhoto (Scenario.photo 123 "Walrus" "species")) <> [] /\
    getAssetDetails (Scenario.foundPhoto (Scenario.photo 123 "Walrus" "species"))
      = Some details /\
    forall id, In id (assetIds (Scenario.foundPhoto (Scenario.photo 123 "Walrus" "species"))) ->
      exists item, details id = Some item /\ In item jsonData /\
                   assetId item = Some id /\ ~ SessionFacts.deadTagged item.
Proof.
  apply (searchMacaulayByTaxonomy_result
           (Scenario.onePhotoEnv (Scenario.photo 123 "Walrus" "species") "Tesia")
           "Odobenus rosmarus" SpeciesSearch SamplerFacts.start).
  reflexivity.
Defined.

(** ** What a run costs and what it never does *)

Module Resources.





Section Rules.

Context {A B : Type}.
Variable P : Event -> Prop.







End Rules.


Section Steps.

Variable env : Env.
Variable P : Event -> Prop.




Hypothesis allowsTaxonomy : forall t, P (RequestTaxonomy t).
Hypothesis allowsChildTaxa : forall c, P (MediaSession c true).




Hypothesis allowsSelected : forall id, P (LogSelectedAsset id).
Hypothesis allowsAssetTaxonomy : forall t, P (LogAssetTaxonomy t).
Hypothesis allowsMetadata : forall u, P (FetchMetadata u).




End Steps.

End Resources.

Module LoopBudgets.

Import Resources.

Section Loops.

Variable env : Env.
Variable P : Event -> Prop.

Hypothesis allowsReroll : forall n, P (LogReroll n).
Hypothesis allowsKeep : P LogKeepAfterRerolls.


Hypothesis allowsTaxonomy : forall t, P (RequestTaxonomy t).
Hypothesis allowsChildTaxa : forall c, P (MediaSession c true).
Hypothesis allowsAttempt : forall n, 1 <= n <= 5 -> P (LogAttempt n).
Hypothesis allowsPause : P (Sleep 5000).


Hypothesis allowsSelected : forall id, P (LogSelectedAsset id).
Hypothesis allowsAssetTaxonomy : forall t, P (LogAssetTaxonomy t).
Hypothesis allowsMetadata : forall u, P (FetchMetadata u).



End Loops.




End LoopBudgets.







Module TestSpeciesFacts.

Lemma find_absent {A : Type} (f : A -> bool) (l : list A) :
  (forall x, In x l -> f x = false) -> List.find f l = None.
Proof.
  induction l as [|y l IH]; intros H; [reflexivity|].
  cbn [find]. rewrite (H y (or_introl eq_refl)). apply IH. intros x Hx. apply H. now right.
Qed.

End TestSpeciesFacts.



Module BirdFacts.

Section BirdLoop.

Variable env : Env.
Variable birdRecords : list Bird.BirdRecord.
Hypothesis nonEmpty : birdRecords <> [].

Lemma getRandomBirdRecord_draw (w : World) :
  exists b,
    In b birdRecords /\
    getRandomBirdRecord env birdRecords w = (Value b, GenerateFacts.afterDraw w, []).
Proof.
  destruct (SamplerFacts.draw_some env (randomCalls w) birdRecords nonEmpty) as [b [Hb Hin]].
  exists b. split; [exact Hin|].
  unfold getRandomBirdRecord, bind, floorRandom. now rewrite Hb.
Qed.

Lemma birdLoop_outcome (fuel : nat) :
  forall (attempts : nat) (ids : option (list Z)) (sel : option Bird.BirdRecord) (w : World),
    attempts <= 3 -> 3 - attempts <= fuel ->
    exists ids' sel' w' evs n,
      birdLoop env fuel birdRecords attempts ids sel w = (Value (ids', sel'), w', evs) /\
      attempts + n <= 3 /\
      SamplerFacts.schedule evs = List.map LogAttempt (List.seq (attempts + 1) n) /\
      (attempts < 3 -> noIds ids = true -> 1 <= n) /\
      (noIds ids' = true -> attempts + n = 3) /\
      (1 <= n -> exists b, sel' = Some b /\ In b birdRecords).
Proof.
  induction fuel as [|fuel IH]; intros attempts ids sel w Hle Hfuel.
  - assert (attempts = 3) by lia. subst attempts.
    cbn [birdLoop]. unfold birdMaxAttempts. cbn [Nat.ltb Nat.leb andb].
    exists ids, sel, w, [], 0. split; [reflexivity|].
    (split; [|split; [|split; [|split]]]); auto; lia.
  - cbn [birdLoop]. unfold birdMaxAttempts.
    destruct ((attempts <? 3)%nat && noIds ids) eqn:Hcond.
    2:{ exists ids, sel, w, [], 0. split; [reflexivity|].
        (split; [|split; [|split; [|split]]]); auto; try lia.
        - intros Hlt Hno. apply Nat.ltb_lt in Hlt. rewrite Hlt, Hno in Hcond. discriminate.
        - intros Hno. rewrite Hno, andb_true_r in Hcond. apply Nat.ltb_ge in Hcond. lia. }
    apply andb_true_iff in Hcond. destruct Hcond as [Hlt Hno]. apply Nat.ltb_lt in Hlt.
    rewrite (GenerateFacts.bind_run _ _ w _ _ _ eq_refl).
    destruct (getRandomBirdRecord_draw w) as [b [Hin Hdraw]].
    rewrite (GenerateFacts.bind_run _ _ w _ _ _ Hdraw).
    rewrite (GenerateFacts.bind_run _ _ _ _ _ _ eq_refl).
    set (found := searchOutcome _).
    destruct (noIds (option_map foundIds found)) eqn:Hfound; cbn [negb].
    + destruct (IH (attempts + 1) (option_map foundIds found) (Some b)
                  {| randomCalls := randomCalls (GenerateFacts.afterDraw w);
                     requests := S (requests (GenerateFacts.afterDraw w)) |})
        as [ids' [sel' [w' [evs [n [Hloop [Hn [Hsch [Hpos [Hend Hsel]]]]]]]]]]; [lia | lia |].
      rewrite Hloop. exists ids', sel', w'. eexists. exists (S n).
      split; [reflexivity|].
      split; [lia|]. split.
      { cbn [app SamplerFacts.schedule filter List.seq List.map].
        fold (SamplerFacts.schedule evs). rewrite Hsch.
        replace (S (attempts + 1)) with (attempts + 1 + 1) by lia. reflexivity. }
      split; [lia|]. split; [intros Hr; specialize (Hend Hr); lia|].
      intros _. destruct n as [|n'].
      * cbn [birdLoop] in Hloop.
        destruct fuel; cbn [birdLoop] in Hloop;
          destruct ((attempts + 1 <? birdMaxAttempts)%nat &&
                    noIds (option_map foundIds found)) eqn:E.
        -- discriminate.
        -- injection Hloop as _ <- _ _. now exists b.
        -- apply andb_true_iff in E. destruct E as [E1 E2]. apply Nat.ltb_lt in E1.
           unfold birdMaxAttempts in E1. specialize (Hpos E1 E2). lia.
        -- injection Hloop as _ <- _ _. now exists b.
      * apply Hsel. lia.
    + exists (option_map foundIds found), (Some b). do 2 eexists. exists 1.
      cbn [ret]. split; [reflexivity|].
      split; [lia|]. split; [reflexivity|]. split; [lia|].
      split; [intros Hc; rewrite Hc in Hfound; discriminate|].
      intros _. now exists b.
Qed.

End BirdLoop.

End BirdFacts.

(** X15.  On a non-empty bird list a call of [generateBirdPost] ends after
    one to three attempts, numbered in order and without a pause between
    them.  When the loop ends without asset identifiers, three attempts
    were made, the call throws the failure that carries the attempt bound
    3, and nothing runs after the third attempt. *)
Theorem generateBirdPost_attempts :
  forall (env : Env) (fuel : nat) (birdRecords : list Bird.BirdRecord) (w : World),
    birdCsv env = Some birdRecords -> birdRecords <> [] -> 3 <= fuel ->
    exists o w' evs n,
      generateBirdPost env fuel w = (o, w', evs) /\
      o <> OutOfFuel /\
      1 <= n <= 3 /\
      SamplerFacts.schedule evs = List.map LogAttempt (List.seq 1 n) /\
      exists ids sel w1 e1,
        birdLoop env fuel birdRecords 0 None None w = (Value (ids, sel), w1, e1) /\
        (noIds ids = true ->
         n = 3 /\ o = Thrown (FailedToFindMedia 3) /\ w' = w1 /\ evs = e1).
Proof.
  intros env fuel birdRecords w Hcsv Hne Hfuel.
  destruct (BirdFacts.birdLoop_outcome env birdRecords Hne fuel 0 None None w)
    as [ids [sel [w1 [e1 [n [Hloop [Hn [Hsch [Hpos [Hend Hsel]]]]]]]]]]; [lia | lia |].
  specialize (Hpos ltac:(lia) eq_refl).
  unfold generateBirdPost. rewrite Hcsv.
  destruct birdRecords as [|b0 birds] eqn:Hb; [contradiction|]. cbn [List.length Nat.eqb].
  rewrite (GenerateFacts.bind_run _ _ w _ _ _ Hloop). cbn [fst snd].
  destruct ids as [ids|].
  2:{ cbn [throw]. rewrite app_nil_r. do 3 eexists. exists n.
      split; [reflexivity|]. split; [discriminate|]. split; [lia|]. split; [exact Hsch|].
      do 4 eexists. split; [exact Hloop|].
      intros Hno. specialize (Hend Hno). repeat split; auto; lia. }
  destruct (List.length ids =? 0)%nat eqn:Hlen.
  { cbn [throw]. rewrite app_nil_r. do 3 eexists. exists n.
    split; [reflexivity|]. split; [discriminate|]. split; [lia|]. split; [exact Hsch|].
    do 4 eexists. split; [exact Hloop|].
    intros Hno. specialize (Hend Hno). repeat split; auto; lia. }
  unfold pickAsset, bind, floorRandom, emit, ret, throw. cbn [fst snd].
  destruct sel as [selectedBird|].
  - destruct (300 <? String.length (PostText.birdText selectedBird))%nat;
      do 3 eexists; exists n; (split; [reflexivity|]); (split; [discriminate|]);
      (split; [lia|]); rewrite SamplerFacts.schedule_app, Hsch;
      (split; [now rewrite app_nil_r|]);
      exists (Some ids), (Some selectedBird), w1, e1; (split; [exact Hloop|]);
      cbn [noIds]; rewrite Hlen; discriminate.
  - do 3 eexists; exists n; (split; [reflexivity|]); (split; [discriminate|]);
      (split; [lia|]); rewrite SamplerFacts.schedule_app, Hsch;
      (split; [now rewrite app_nil_r|]);
      exists (Some ids), None, w1, e1; (split; [exact Hloop|]);
      cbn [noIds]; rewrite Hlen; discriminate.
Qed.

Lemma generateBirdPost_attempts_witness :
  exists o w' evs n,
    generateBirdPost (Csv.withFiles (SamplerFacts.quietEnv [])
                        (Some (CsvFacts.fileOf CsvFacts.birdFields "h"
                                 CsvFileFacts.sampleBirds false)) None)
      3 SamplerFacts.start = (o, w', evs) /\
    o <> OutOfFuel /\
    1 <= n <= 3 /\
    SamplerFacts.schedule evs = List.map LogAttempt (List.seq 1 n) /\
    exists ids sel w1 e1,
      birdLoop (Csv.withFiles (SamplerFacts.quietEnv [])
                  (Some (CsvFacts.fileOf CsvFacts.birdFields "h"
                           CsvFileFacts.sampleBirds false)) None)
        3 CsvFileFacts.sampleBirds 0 None None SamplerFacts.start
        = (Value (ids, sel), w1, e1) /\
      (noIds ids = true ->
       n = 3 /\ o = Thrown (FailedToFindMedia 3) /\ w' = w1 /\ evs = e1).
Proof.
  apply generateBirdPost_attempts.
  - reflexivity.
  - discriminate.
  - lia.
Defined.

(** Three failed attempts of the bird generator, read from a file. *)
Example generateBirdPost_exhausted :
  generateBirdPost (Csv.withFiles (SamplerFacts.quietEnv [])
                      (Some (CsvFacts.fileOf CsvFacts.birdFields "h"
                               CsvFileFacts.sampleBirds false)) None)
    3 SamplerFacts.start =
  (Thrown (FailedToFindMedia 3),
   {| randomCalls := 3; requests := 3 |},
   [LogAttempt 1; MediaSession "gybtes1" false;
    LogAttempt 2; MediaSession "gybtes1" false;
    LogAttempt 3; MediaSession "gybtes1" false]).
Proof. vm_compute. reflexivity. Qed.

(** ** The text of a post *)

Module TextFacts.

(** The first lines of a bird post: names and family. *)
Definition birdHeader (selectedBird : Bird.BirdRecord) : string :=
  Bird.English_name_AviList selectedBird ++ " (" ++
  Bird.Scientific_name selectedBird ++ ")" ++ PostText.nl ++ PostText.nl ++ "Family " ++
  Bird.Family selectedBird ++ " (" ++
  Bird.Family_English_name selectedBird ++ ")" ++ PostText.nl.

(** The text of a bird post from its first lines [h], range [r] and footer [f]. *)
Definition birdBody (h r f : string) : string :=
  let text :=
    if negb (r =? EmptyString) &&
       (String.length r + String.length h + String.length f <? 300)%nat
    then h ++ "Range: " ++ r ++ PostText.nl
    else h in
  if (String.length text + String.length f <? 300)%nat then text ++ f else text.

(** The text of a mammal post from its first lines [h], distribution [d]
    and footer [f]. *)
Definition mammalBody (h d f : string) : string :=
  let text :=
    if negb (d =? EmptyString) &&
       (String.length d + String.length h + String.length f <? 280)%nat
    then h ++ "Range: " ++ d ++ PostText.nl
    else h in
  if (String.length text + String.length f <? 300)%nat then text ++ f else text.

Lemma birdText_body (b : Bird.BirdRecord) :
  PostText.birdText b
  = birdBody (birdHeader b) (Bird.Range b) (PostText.footerOf (Bird.IUCN_Red_List_Category b)).
Proof. reflexivity. Qed.

Lemma mammalText_body (h : string) (pm : Mammal.MammalRecord) :
  PostText.mammalText h pm
  = mammalBody h (PostText.distributionInfoOf pm) (PostText.footerOf (Mammal.iucnStatus pm)).
Proof. reflexivity. Qed.

Lemma footerOf_length (k : string) :
  20 <= String.length (PostText.footerOf k) <= 34.
Proof.
  unfold PostText.footerOf, PostText.IUCN_STATUS_MAP.
  repeat match goal with
         | |- context [if ?c then _ else _] => destruct c
         end; cbn; lia.
Qed.

Lemma range_line_length (h r : string) :
  String.length (h ++ "Range: " ++ r ++ PostText.nl) = String.length h + String.length r + 8.
Proof. rewrite !length_append_s. cbn. lia. Qed.

Lemma birdBody_cases (h r f : string) :
  20 <= String.length f ->
  (String.length h + String.length f < 300 /\
   exists body, birdBody h r f = body ++ f /\ String.length (birdBody h r f) < 300) \/
  (r <> EmptyString /\ 292 <= String.length r + String.length h + String.length f < 300 /\
   birdBody h r f = h ++ "Range: " ++ r ++ PostText.nl) \/
  (300 <= String.length h + String.length f /\ birdBody h r f = h).
Proof.
  intros Hf. unfold birdBody.
  destruct (negb (r =? EmptyString)) eqn:Hr; cbn [andb].
  - destruct (Nat.ltb_spec (String.length r + String.length h + String.length f) 300)
      as [Hfit | Hnofit].
    + cbv zeta. rewrite range_line_length.
      destruct (Nat.ltb_spec (String.length h + String.length r + 8 + String.length f) 300)
        as [Hfit2 | Hnofit2].
      * left. split; [lia|]. eexists. split; [reflexivity|].
        rewrite length_append_s, range_line_length. lia.
      * right. left. apply negb_true_iff, String.eqb_neq in Hr.
        repeat split; auto; lia.
    + cbv zeta.
      destruct (Nat.ltb_spec (String.length h + String.length f) 300) as [Hfit2 | Hnofit2].
      * left. split; [lia|]. exists h. split; [reflexivity|].
        rewrite length_append_s. lia.
      * right. right. split; [lia | reflexivity].
  - cbv zeta.
    destruct (Nat.ltb_spec (String.length h + String.length f) 300) as [Hfit2 | Hnofit2].
    + left. split; [lia|]. exists h. split; [reflexivity|].
      rewrite length_append_s. lia.
    + right. right. split; [lia | reflexivity].
Qed.

Lemma mammalBody_cases (h d f : string) :
  20 <= String.length f ->
  (String.length h + String.length f < 300 /\
   exists body, mammalBody h d f = body ++ f /\ String.length (mammalBody h d f) < 300) \/
  (300 <= String.length h + String.length f /\ mammalBody h d f = h).
Proof.
  intros Hf. unfold mammalBody.
  destruct (negb (d =? EmptyString)) eqn:Hd; cbn [andb].
  - destruct (Nat.ltb_spec (String.length d + String.length h + String.length f) 280)
      as [Hfit | Hnofit].
    + cbv zeta. rewrite range_line_length.
      destruct (Nat.ltb_spec (String.length h + String.length d + 8 + String.length f) 300)
        as [Hfit2 | Hnofit2]; [|lia].
      left. split; [lia|]. eexists. split; [reflexivity|].
      rewrite length_append_s, range_line_length. lia.
    + cbv zeta.
      destruct (Nat.ltb_spec (String.length h + String.length f) 300) as [Hfit2 | Hnofit2].
      * left. split; [lia|]. exists h. split; [reflexivity|].
        rewrite length_append_s. lia.
      * right. split; [lia | reflexivity].
  - cbv zeta.
    destruct (Nat.ltb_spec (String.length h + String.length f) 300) as [Hfit2 | Hnofit2].
    + left. split; [lia|]. exists h. split; [reflexivity|].
      rewrite length_append_s. lia.
    + right. split; [lia | reflexivity].
Qed.

End TextFacts.

(** X16.  The text of a bird post is longer than 300 characters exactly
    when its first lines alone (names and family) are: the range line and
    the IUCN footer are only added when they fit. *)
Theorem birdText_limit :
  forall b : Bird.BirdRecord,
    String.length (PostText.birdText b) <= 300 <->
    String.length (TextFacts.birdHeader b) <= 300.
Proof.
  intros b. rewrite TextFacts.birdText_body.
  pose proof (TextFacts.footerOf_length (Bird.IUCN_Red_List_Category b)) as [Hf _].
  destruct (TextFacts.birdBody_cases (TextFacts.birdHeader b) (Bird.Range b)
              (PostText.footerOf (Bird.IUCN_Red_List_Category b)) Hf)
    as [[H1 [body [_ H2]]] | [[_ [H1 H2]] | [H1 H2]]].
  - split; lia.
  - rewrite H2, TextFacts.range_line_length. split; lia.
  - rewrite H2. tauto.
Qed.

(** X17.  In a bird post the range line can push the IUCN footer out:
    when the range is not empty and range, first lines and footer
    together count from 292 to 299 characters, the text is the first
    lines and the range line, without footer. *)
Theorem birdText_footer_displaced :
  forall b : Bird.BirdRecord,
    Bird.Range b <> EmptyString ->
    292 <= String.length (Bird.Range b) + String.length (TextFacts.birdHeader b) +
           String.length (PostText.footerOf (Bird.IUCN_Red_List_Category b)) < 300 ->
    PostText.birdText b = TextFacts.birdHeader b ++ "Range: " ++ Bird.Range b ++ PostText.nl.
Proof.
  intros b Hr Hlen. rewrite TextFacts.birdText_body. unfold TextFacts.birdBody.
  apply String.eqb_neq in Hr. rewrite Hr. cbn [negb andb].
  destruct (Nat.ltb_spec (String.length (Bird.Range b) + String.length (TextFacts.birdHeader b) +
                          String.length (PostText.footerOf (Bird.IUCN_Red_List_Category b))) 300)
    as [_ | Hno]; [|lia].
  cbv zeta. rewrite TextFacts.range_line_length.
  destruct (Nat.ltb_spec (String.length (TextFacts.birdHeader b) + String.length (Bird.Range b) + 8 +
                          String.length (PostText.footerOf (Bird.IUCN_Red_List_Category b))) 300)
    as [Hyes | _]; [lia | reflexivity].
Qed.

(** X18.  In a mammal post the footer is present exactly when the first
    lines and the footer together count fewer than 300 characters, and
    the range line never pushes it out; otherwise the text is the first
    lines alone.  The text is longer than 300 characters exactly when the
    first lines are. *)
Theorem mammalText_footer :
  forall (header : string) (postMammal : Mammal.MammalRecord),
    let footer := PostText.footerOf (Mammal.iucnStatus postMammal) in
    (String.length header + String.length footer < 300 ->
     exists body, PostText.mammalText header postMammal = body ++ footer) /\
    (300 <= String.length header + String.length footer ->
     PostText.mammalText header postMammal = header) /\
    (String.length (PostText.mammalText header postMammal) <= 300 <->
     String.length header <= 300).
Proof.
  intros header postMammal footer. rewrite TextFacts.mammalText_body. fold footer.
  pose proof (TextFacts.footerOf_length (Mammal.iucnStatus postMammal)) as [Hf _].
  fold footer in Hf.
  destruct (TextFacts.mammalBody_cases header (PostText.distributionInfoOf postMammal)
              footer Hf) as [[H1 [body [H2 H3]]] | [H1 H2]].
  - split; [intros _; now exists body|]. split; [lia|]. split; lia.
  - split; [lia|]. split; [intros _; exact H2|]. rewrite H2. tauto.
Qed.

(** A bird whose range leaves fewer than eight spare characters. *)
Definition wideRangeBird : Bird.BirdRecord :=
  {| Bird.Order := "Passeriformes"; Bird.Family := "Cettiidae";
     Bird.Family_English_name := "Bush Warblers and allies";
     Bird.Scientific_name := "Tesia everetti";
     Bird.English_name_AviList := "Russet-capped Tesia";
     Bird.Range := string_of_list_ascii (List.repeat "a"%char 190);
     Bird.IUCN_Red_List_Category := "LC";
     Bird.Species_code_Cornell_Lab := "gybtes1" |}.

Lemma birdText_footer_displaced_witness :
  PostText.birdText wideRangeBird
  = TextFacts.birdHeader wideRangeBird ++ "Range: " ++ Bird.Range wideRangeBird ++ PostText.nl.
Proof.
  apply birdText_footer_displaced.
  - intros H. vm_compute in H. discriminate.
  - vm_compute. lia.
Defined.

Lemma mammalText_footer_witness :
  exists body,
    PostText.mammalText "Walrus" ClassifierFacts.walrusRecord
    = body ++ PostText.footerOf (Mammal.iucnStatus ClassifierFacts.walrusRecord).
Proof.
  apply (mammalText_footer "Walrus" ClassifierFacts.walrusRecord).
  vm_compute. lia.
Defined.

(** ** The family fallback *)

Module FallbackFacts.

Lemma searchMacaulayByTaxonomy_pool (env : Env) (searchTerm : string)
    (searchType : SearchType) (w w' : World) (found : MacaulaySearchResult)
    (evs : list Event) :
  searchMacaulayByTaxonomy env searchTerm searchType w = (Value (Some found), w', evs) ->
  exists details,
    getAssetDetails found = Some details /\
    assetIds found <> [] /\
    forall id, In id (assetIds found) ->
      exists item, details id = Some item /\ assetId item = Some id /\
                   ~ SessionFacts.deadTagged item.
Proof.
  unfold searchMacaulayByTaxonomy.
  rewrite (GenerateFacts.bind_run _ _ w _ _ _ eq_refl).
  destruct (taxonomyApi env (requests w) searchTerm) as [| |taxonomyData]; try discriminate.
  destruct taxonomyData as [|d0 data]; [discriminate|].
  destruct (findBestTaxonomyMatch (d0 :: data) searchTerm searchType) as [c|];
    [|discriminate].
  destruct (match code c with
            | Some c0 => Js.first (Js.split c0 ",")
            | None => None
            end) as [taxonCode|]; [|discriminate].
  destruct (taxonCode =? EmptyString); [discriminate|].
  unfold bind, searchMacaulayForTaxon, searchOutcome, Session.filterResults.
  destruct (mediaApi env _ taxonCode true) as [| | |jsonData]; try discriminate.
  destruct (filterM Session.keep jsonData) as [kept| |] eqn:Hkept; try discriminate.
  cbn [foundIds lookupAsset].
  destruct (List.length (Session.numericIds kept) =? 0)%nat eqn:Hlen; [discriminate|].
  cbn [ret]. intros H. injection H as <- _ _.
  exists (Session.findAsset kept). cbn [assetIds getAssetDetails].
  split; [reflexivity|]. split; [intros E; rewrite E in Hlen; discriminate|].
  intros id Hid. destruct (SessionFacts.findAsset_present kept id Hid) as [item Hfind].
  exists item. split; [exact Hfind|].
  destruct (SessionFacts.findAsset_Some kept id item Hfind) as [Hin Hasset].
  apply (SessionFacts.filterM_value _ _ _ Hkept) in Hin. destruct Hin as [_ Hkeep].
  split; [exact Hasset | now apply SessionFacts.keep_true_alive].
Qed.

Lemma usable_rank (target : option Mammal.MammalRecord) (t : Taxonomy) :
  ClassifierFacts.usable target (Some t) = true -> Classifier.speciesOrSubspecies t = true.
Proof.
  unfold ClassifierFacts.usable, Classifier.speciesOrSubspecies. intros H.
  apply andb_true_iff in H. destruct H as [_ H].
  apply orb_true_iff in H. destruct H as [H | H].
  - now rewrite H.
  - apply andb_true_iff in H. destruct H as [H _]. rewrite H. apply orb_true_r.
Qed.

Lemma drawnAsset_in (env : Env) (ids : list Z) (w : World) :
  ids <> [] -> In (GenerateFacts.drawnAsset env ids w) ids.
Proof.
  intros H. unfold GenerateFacts.drawnAsset. apply nth_In.
  apply SamplerFacts.drawIndex_lt. destruct ids; [contradiction | discriminate].
Qed.

End FallbackFacts.

(** X19.  A pool accepted by the family fallback, with a target or
    without, is a non-empty part of the pool of the family search: each of
    its identifiers is answered by the lookup with a result that carries
    the identifier, is not tagged "dead", and has a taxonomy the
    classifier accepts, of rank species or subspecies.  On such a pool the
    final choice never fails: whatever the draw, [selectAsset] returns an
    identifier of the pool with its species-level taxonomy. *)
Theorem familyFallback_pool :
  forall (env : Env) (target : option Mammal.MammalRecord)
         (selectedMammal : Mammal.MammalRecord) (w w' : World)
         (found : MacaulaySearchResult) (evs : list Event),
    familyFallback env target selectedMammal w = (Value (Some found, true), w', evs) ->
    exists details,
      getAssetDetails found = Some details /\
      assetIds found <> [] /\
      (forall id, In id (assetIds found) ->
         exists item t,
           details id = Some item /\ assetId item = Some id /\
           ~ SessionFacts.deadTagged item /\
           taxonomy item = Some t /\
           ClassifierFacts.usable target (Some t) = true /\
           Classifier.speciesOrSubspecies t = true) /\
      forall w2, exists id t,
        In id (assetIds found) /\
        Classifier.speciesOrSubspecies t = true /\
        selectAsset env found w2 =
          (Value (id, Some t), GenerateFacts.afterDraw w2,
           [LogSelectedAsset id; LogAssetTaxonomy (Some t)]).
Proof.
  intros env target selectedMammal w w' found evs. unfold familyFallback.
  destruct (searchMacaulayByTaxonomy env (Mammal.family selectedMammal) FamilySearch w)
    as [[o w1] e1] eqn:Hsearch.
  unfold bind at 1. rewrite Hsearch.
  destruct o as [r| |]; try discriminate.
  destruct r as [r|]; [|discriminate].
  destruct (FallbackFacts.searchMacaulayByTaxonomy_pool env _ _ _ _ _ _ Hsearch)
    as [details [Hdetails [_ Hpool]]].
  rewrite Hdetails.
  destruct (0 <? List.length (assetIds r))%nat; [|discriminate].
  destruct (filterM (fun assetId => Classifier.classify target (details assetId)) (assetIds r))
    as [k| |] eqn:Hk; unfold bind, lift; try discriminate.
  destruct (0 <? List.length k)%nat eqn:Hlen; [|discriminate].
  cbn [ret]. intros H. injection H as <- _ _.
  cbn [assetIds getAssetDetails].
  assert (Hne : k <> []) by (intros ->; discriminate).
  assert (Hitems : forall id, In id k ->
            exists item t,
              details id = Some item /\ assetId item = Some id /\
              ~ SessionFacts.deadTagged item /\ taxonomy item = Some t /\
              ClassifierFacts.usable target (Some t) = true /\
              Classifier.speciesOrSubspecies t = true).
  { intros id Hid. apply (SessionFacts.filterM_value _ _ _ Hk) in Hid.
    destruct Hid as [Hin Hclass].
    destruct (Hpool id Hin) as [item [Hitem [Hasset Halive]]].
    rewrite ClassifierFacts.classify_usable, Hitem in Hclass. cbn in Hclass.
    injection Hclass as Husable.
    destruct (taxonomy item) as [t|] eqn:Ht; [|discriminate].
    exists item, t. repeat split; auto. now apply (FallbackFacts.usable_rank target). }
  exists details. split; [reflexivity|]. split; [exact Hne|]. split; [exact Hitems|].
  intros w2.
  pose proof (GenerateFacts.selectAsset_cases env
                {| assetIds := k; taxonomyLevel := taxonomyLevel r;
                   commonName := commonName r; getAssetDetails := Some details |} w2)
    as Hsel.
  cbv zeta in Hsel. cbn [assetIds getAssetDetails] in Hsel.
  pose proof (FallbackFacts.drawnAsset_in env k w2 Hne) as Hdrawn.
  destruct (Hitems _ Hdrawn) as [item [t [Hitem [_ [_ [Ht [_ Hrank]]]]]]].
  rewrite Hitem in Hsel. cbn [Classifier.taxonomyOf] in Hsel. rewrite Ht, Hrank in Hsel.
  exists (GenerateFacts.drawnAsset env k w2), t.
  split; [exact Hdrawn|]. split; [exact Hrank | exact Hsel].
Qed.

(** End-to-end scenario 2: the species search finds nothing and the family
    search returns a family-rank photo and a subspecies photo. *)
Definition familyPhoto : MediaResult :=
  {| assetId := Some 20%Z;
     taxonomy := Some {| sciName := Some "Odobenidae"; comName := Some "Walruses";
                         category := Some "family" |};
     tags := TagsAbsent |}.

Definition familyEnv : Env :=
  {| mathRandom := fun k => k;
     taxonomyApi := fun _ term =>
       if term =? "Odobenidae"
       then TaxonomyArray [{| name := Some "Walruses - Odobenidae";
                              code := Some "odoben1,family" |}]
       else TaxonomyArray [];
     mediaApi := fun _ _ _ => BodyArray [familyPhoto; ClassifierFacts.livingWalrus];
     birdCsv := None;
     mammalCsv := Some [ClassifierFacts.walrusRecord] |}.

Definition familyPool : MacaulaySearchResult :=
  {| assetIds := [11%Z];
     taxonomyLevel := "family";
     commonName := Some "Walruses";
     getAssetDetails := Some (Session.findAsset [familyPhoto; ClassifierFacts.livingWalrus]) |}.

Lemma familyFallback_pool_witness :
  exists details,
    getAssetDetails familyPool = Some details /\
    assetIds familyPool <> [] /\
    (forall id, In id (assetIds familyPool) ->
       exists item t,
         details id = Some item /\ assetId item = Some id /\
         ~ SessionFacts.deadTagged item /\
         taxonomy item = Some t /\
         ClassifierFacts.usable None (Some t) = true /\
         Classifier.speciesOrSubspecies t = true) /\
    forall w2, exists id t,
      In id (assetIds familyPool) /\
      Classifier.speciesOrSubspecies t = true /\
      selectAsset familyEnv familyPool w2 =
        (Value (id, Some t), GenerateFacts.afterDraw w2,
         [LogSelectedAsset id; LogAssetTaxonomy (Some t)]).
Proof.
  apply (familyFallback_pool familyEnv None ClassifierFacts.walrusRecord
           SamplerFacts.start {| randomCalls := 0; requests := 2 |} familyPool
           [RequestTaxonomy "Odobenidae"; MediaSession "odoben1" true]).
  reflexivity.
Defined.

Example generateMammalPost_family_scenario :
  exists body,
    generateMammalPost familyEnv 5 None SamplerFacts.start =
    (Value {| text := body; uri := "https://macaulaylibrary.org/asset/11/embed" |},
     {| randomCalls := 2; requests := 3 |},
     [LogAttempt 1; RequestTaxonomy "Odobenus rosmarus"; RequestTaxonomy "Odobenidae";
      MediaSession "odoben1" true; LogSelectedAsset 11;
      LogAssetTaxonomy (Some ClassifierFacts.atlanticWalrus);
      FetchMetadata "https://macaulaylibrary.org/asset/11/embed"]) /\
    Js.startsWith body "Walrus (Odobenus rosmarus)" = true.
Proof. eexists. split; vm_compute; reflexivity. Qed.

(** ** Names between the reference list and the media index *)

Module NameFacts.

Import CharFacts.

Lemma replaceFirst_round_trip (s : string) :
  hasChar " " s = false ->
  Js.replaceFirst (Js.replaceFirst s "_" " ") " " "_" = s.
Proof.
  induction s as [|c s IH]; intros H; [reflexivity|].
  rewrite hasChar_cons in H. apply orb_false_iff in H. destruct H as [Hc Hs].
  cbn [Js.replaceFirst]. destruct (Ascii.eqb c "_") eqn:E.
  - apply Ascii.eqb_eq in E. subst c. reflexivity.
  - cbn [Js.replaceFirst]. rewrite Hc, (IH Hs). reflexivity.
Qed.

Lemma find_by_name (records : list Mammal.MammalRecord) (R : Mammal.MammalRecord) :
  In R records ->
  exists m,
    List.find (fun m => Mammal.sciName m =? Mammal.sciName R) records = Some m /\
    In m records /\ Mammal.sciName m = Mammal.sciName R.
Proof.
  intros Hin.
  destruct (List.find (fun m => Mammal.sciName m =? Mammal.sciName R) records) as [m|] eqn:E.
  - exists m. split; [reflexivity|]. apply find_some in E. destruct E as [H1 H2].
    split; [exact H1 | now apply String.eqb_eq].
  - exfalso. pose proof (find_none _ _ E R Hin) as Hn. cbn in Hn.
    rewrite String.eqb_refl in Hn. discriminate.
Qed.

End NameFacts.

(** X20.  The name of a reference record survives the trip to the media
    index and back.  When the asset chosen carries, at species rank, the
    search name of a record of the list (its scientific name with the
    first "_" turned into a space), or, at subspecies rank, a trinomial
    that extends the binomial of a record, the post is written from a
    record of the list with that scientific name.  When no record has the
    name looked up, the post is written from the record sampled. *)
Theorem postMammalOf_lookup :
  forall (records : list Mammal.MammalRecord) (selected : option Mammal.MammalRecord)
         (R : Mammal.MammalRecord) (t : Taxonomy) (sci : string),
    sciName t = Some sci -> sci <> EmptyString ->
    (In R records ->
     CharFacts.hasChar " " (Mammal.sciName R) = false ->
     category t <> Some "subspecies" ->
     sci = Js.replaceFirst (Mammal.sciName R) "_" " " ->
     exists m, postMammalOf records selected (Some t) = Some m /\
               In m records /\ Mammal.sciName m = Mammal.sciName R) /\
    (In R records ->
     forall genus species rest,
       Js.includes genus " " = false -> Js.includes species " " = false ->
       Mammal.sciName R = genus ++ "_" ++ species ->
       category t = Some "subspecies" ->
       sci = genus ++ " " ++ species ++ " " ++ rest ->
       exists m, postMammalOf records selected (Some t) = Some m /\
                 In m records /\ Mammal.sciName m = Mammal.sciName R) /\
    ((forall m, In m records ->
        Mammal.sciName m <> Js.replaceFirst (Classifier.normalizedSciName t sci) " " "_") ->
     postMammalOf records selected (Some t) = selected).
Proof.
  intros records selected R t sci Hsci Hne.
  apply String.eqb_neq in Hne.
  assert (Hkey : forall key,
            Js.replaceFirst (Classifier.normalizedSciName t sci) " " "_" = key ->
            postMammalOf records selected (Some t) =
            match List.find (fun m => Mammal.sciName m =? key) records with
            | Some m => Some m
            | None => selected
            end).
  { intros key <-. unfold postMammalOf. rewrite Hsci, Hne. reflexivity. }
  split; [|split].
  - intros Hin Hspace Hcat ->.
    destruct (NameFacts.find_by_name records R Hin) as [m [Hfind [Hm Hname]]].
    exists m. split; [|split; assumption].
    rewrite (Hkey (Mammal.sciName R)); [now rewrite Hfind|].
    unfold Classifier.normalizedSciName, Js.strictEq.
    destruct (category t) as [c|].
    + destruct (String.eqb_spec c "subspecies") as [-> | _]; [now contradiction Hcat|].
      now apply NameFacts.replaceFirst_round_trip.
    + now apply NameFacts.replaceFirst_round_trip.
  - intros Hin genus species rest Hg Hs Hname Hcat ->.
    destruct (NameFacts.find_by_name records R Hin) as [m [Hfind [Hm Hname']]].
    exists m. split; [|split; assumption].
    rewrite (Hkey (Mammal.sciName R)); [now rewrite Hfind|].
    destruct (ClassifierFacts.split_two_tokens genus species rest Hg Hs) as [more Hsplit].
    unfold Classifier.normalizedSciName. rewrite Hcat.
    change (Js.strictEq (Some "subspecies") "subspecies") with true. cbv iota.
    rewrite Hsplit, Hname.
    exact (ClassifierFacts.replaceFirst_token genus species " " "_" Hg).
  - intros Hnone. rewrite (Hkey _ eq_refl).
    rewrite TestSpeciesFacts.find_absent; [reflexivity|].
    intros m Hm. apply String.eqb_neq. now apply Hnone.
Qed.

Lemma postMammalOf_lookup_witness :
  exists m,
    postMammalOf [SamplerFacts.houseMouse; ClassifierFacts.walrusRecord]
      (Some SamplerFacts.houseMouse) (Some ClassifierFacts.atlanticWalrus) = Some m /\
    In m [SamplerFacts.houseMouse; ClassifierFacts.walrusRecord] /\
    Mammal.sciName m = Mammal.sciName ClassifierFacts.walrusRecord.
Proof.
  apply (postMammalOf_lookup [SamplerFacts.houseMouse; ClassifierFacts.walrusRecord]
           (Some SamplerFacts.houseMouse) ClassifierFacts.walrusRecord
           ClassifierFacts.atlanticWalrus "Odobenus rosmarus rosmarus" eq_refl)
    with (genus := "Odobenus") (species := "rosmarus") (rest := "rosmarus");
    try reflexivity.
  - discriminate.
  - right. left. reflexivity.
Defined.

(** ** The sampler, draw by draw *)

Module DrawFacts.

(** The record of the [k]-th draw after the world [w]. *)
Definition draw (env : Env) (records : list Mammal.MammalRecord) (w : World) (k : nat)
    : option Mammal.MammalRecord :=
  nth_error records (drawIndex env (randomCalls w + k) (List.length records)).

(** The log lines of [k] re-rolls and of the final choice of [m]. *)
Definition rerollLog (k : nat) (m : Mammal.MammalRecord) : list Event :=
  (List.map LogReroll (List.seq 1 k) ++
   (if shouldReroll m then [LogKeepAfterRerolls] else []))%list.

End DrawFacts.

(** X21.  On a non-empty list [getRandomMammalRecord] returns the first of
    its first three draws that is not of an overrepresented family or
    order, and the third draw when all three are: it draws [k + 1] times
    with [k <= 2], every earlier draw was overrepresented and logged as a
    re-roll, and an overrepresented record is returned only as the third
    draw, with the log line that keeps it. *)
Theorem getRandomMammalRecord_first_accepted :
  forall (env : Env) (records : list Mammal.MammalRecord) (fuel : nat) (w : World),
    records <> [] ->
    exists k m,
      k <= 2 /\
      DrawFacts.draw env records w k = Some m /\
      getRandomMammalRecord env (3 + fuel) records w =
        (Value m,
         {| randomCalls := randomCalls w + k + 1; requests := requests w |},
         DrawFacts.rerollLog k m) /\
      (forall j mj, j < k -> DrawFacts.draw env records w j = Some mj ->
         shouldReroll mj = true) /\
      (shouldReroll m = true -> k = 2).
Proof.
  intros env records fuel w Hne. unfold DrawFacts.draw, DrawFacts.rerollLog.
  destruct (SamplerFacts.draw_some env (randomCalls w + 0) records Hne) as [m1 [Hm1 _]].
  destruct (SamplerFacts.draw_some env (randomCalls w + 1) records Hne) as [m2 [Hm2 _]].
  destruct (SamplerFacts.draw_some env (randomCalls w + 2) records Hne) as [m3 [Hm3 _]].
  assert (E0 : randomCalls w + 0 = randomCalls w) by lia.
  assert (E1 : randomCalls w + 1 = S (randomCalls w)) by lia.
  assert (E2 : randomCalls w + 2 = S (S (randomCalls w))) by lia.
  unfold getRandomMammalRecord. cbn [rerollLoop Nat.add].
  unfold bind, floorRandom, emit, ret. cbn [randomCalls requests].
  pose proof Hm1 as Hd1. rewrite E0 in Hd1. rewrite Hd1.
  destruct (shouldReroll m1) eqn:S1; cbn [andb Nat.ltb Nat.leb maxRerolls].
  2:{ exists 0, m1. split; [lia|]. split; [exact Hm1|]. rewrite S1.
      split; [f_equal; f_equal; f_equal; lia|].
      split; [intros j mj Hj; lia | discriminate]. }
  cbn. pose proof Hm2 as Hd2. rewrite E1 in Hd2. rewrite Hd2.
  destruct (shouldReroll m2) eqn:S2; cbn.
  2:{ exists 1, m2. split; [lia|]. split; [exact Hm2|]. rewrite S2.
      split; [f_equal; f_equal; f_equal; lia|].
      split; [|discriminate].
      intros j mj Hj Hdraw. assert (j = 0) by lia. subst j.
      rewrite Hm1 in Hdraw. injection Hdraw as <-. exact S1. }
  pose proof Hm3 as Hd3. rewrite E2 in Hd3. rewrite Hd3.
  exists 2, m3. split; [lia|]. split; [exact Hm3|].
  split.
  - destruct (shouldReroll m3); cbn; (f_equal; f_equal; f_equal; lia).
  - split; [|reflexivity].
    intros j mj Hj Hdraw.
    assert (Hcase : j = 0 \/ j = 1) by lia. destruct Hcase as [-> | ->].
    + rewrite Hm1 in Hdraw. injection Hdraw as <-. exact S1.
    + rewrite Hm2 in Hdraw. injection Hdraw as <-. exact S2.
Qed.

Lemma getRandomMammalRecord_first_accepted_witness :
  exists k m,
    k <= 2 /\
    DrawFacts.draw (SamplerFacts.quietEnv [])
      [SamplerFacts.houseMouse; ClassifierFacts.walrusRecord] SamplerFacts.start k = Some m /\
    getRandomMammalRecord (SamplerFacts.quietEnv []) (3 + 0)
      [SamplerFacts.houseMouse; ClassifierFacts.walrusRecord] SamplerFacts.start =
      (Value m,
       {| randomCalls := randomCalls SamplerFacts.start + k + 1;
          requests := requests SamplerFacts.start |},
       DrawFacts.rerollLog k m) /\
    (forall j mj, j < k ->
       DrawFacts.draw (SamplerFacts.quietEnv [])
         [SamplerFacts.houseMouse; ClassifierFacts.walrusRecord] SamplerFacts.start j = Some mj ->
       shouldReroll mj = true) /\
    (shouldReroll m = true -> k = 2).
Proof.
  apply getRandomMammalRecord_first_accepted. discriminate.
Defined.

(** The first draw is a mouse, re-rolled; the second is the walrus. *)
Example getRandomMammalRecord_reroll_once :
  getRandomMammalRecord (SamplerFacts.quietEnv []) 3
    [SamplerFacts.houseMouse; ClassifierFacts.walrusRecord] SamplerFacts.start =
  (Value ClassifierFacts.walrusRecord, {| randomCalls := 2; requests := 0 |}, [LogReroll 1]).
Proof. reflexivity. Qed.

(** ** The distribution line of a mammal post *)

Module DistributionFacts.

Import CharFacts.

Definition marker : string := " (Continent)".

(** A continent as the reference list writes it. *)
Definition marked (c : string) : string := c ++ marker.

Definition firstCharNotSpace (s : string) : Prop :=
  match s with
  | String c _ => Js.isSpace c = false
  | EmptyString => False
  end.

(** A continent name: no bar, no parenthesis, no white space at its ends. *)
Definition cleanContinent (c : string) : Prop :=
  hasChar "|" c = false /\ hasChar "(" c = false /\
  firstCharNotSpace c /\ Js.trimEnd c = c.

(** A realm name: no bar, no white space at its ends. *)
Definition cleanRealm (r : string) : Prop :=
  hasChar "|" r = false /\ Js.trim r = r.

Lemma trimEnd_tail (c : ascii) (r : string) :
  Js.trimEnd (String c r) = String c r -> Js.trimEnd r = r.
Proof.
  cbn [Js.trimEnd]. destruct (Js.trimEnd r) as [|c' r'] eqn:E.
  - destruct (Js.isSpace c); [discriminate|]. intros H. injection H as <-. reflexivity.
  - intros H. injection H as <-. reflexivity.
Qed.

Lemma trimEnd_space_tail (c : ascii) (r : string) :
  Js.isSpace c = true -> Js.trimEnd (String c r) = String c r -> r <> EmptyString.
Proof.
  intros Hc. cbn [Js.trimEnd]. destruct (Js.trimEnd r) as [|c' r'] eqn:E.
  - rewrite Hc. discriminate.
  - intros H. injection H as <-. discriminate.
Qed.

Lemma trimStart_keeps (s sfx : string) (a : ascii) :
  Js.trimEnd s = s -> s <> EmptyString -> hasChar a s = false ->
  exists d t, Js.trimStart (s ++ sfx) = String d t /\ Ascii.eqb d a = false.
Proof.
  induction s as [|c r IH]; intros Hend Hne Ha; [contradiction|].
  rewrite hasChar_cons in Ha. apply orb_false_iff in Ha. destruct Ha as [Hc Hr].
  cbn [append Js.trimStart]. destruct (Js.isSpace c) eqn:Hs.
  - apply IH; [now apply (trimEnd_tail c) | now apply (trimEnd_space_tail c) | exact Hr].
  - now exists c, (r ++ sfx).
Qed.

Lemma matchContinent_none (s sfx : string) :
  Js.trimEnd s = s -> s <> EmptyString -> hasChar "(" s = false ->
  PostText.matchContinent (s ++ sfx) = None.
Proof.
  intros Hend Hne Hp. unfold PostText.matchContinent.
  destruct (trimStart_keeps s sfx "(" Hend Hne Hp) as [d [t [-> Hd]]].
  cbn [Js.startsWith]. now rewrite Hd.
Qed.

Lemma removeContinent_marked (c : string) :
  hasChar "(" c = false -> Js.trimEnd c = c ->
  PostText.removeContinent 0 (marked c) = c.
Proof.
  unfold marked. induction c as [|x c IH]; intros Hp Hend; [reflexivity|].
  change (String x c ++ marker) with (String x (c ++ marker)).
  cbn [PostText.removeContinent].
  change (String x (c ++ marker)) with (String x c ++ marker).
  rewrite (matchContinent_none (String x c) marker Hend ltac:(discriminate) Hp).
  rewrite hasChar_cons in Hp. apply orb_false_iff in Hp. destruct Hp as [_ Hp].
  f_equal. apply IH; [exact Hp | now apply (trimEnd_tail x)].
Qed.

Lemma trim_marked (c : string) :
  firstCharNotSpace c -> Js.trim (marked c) = marked c.
Proof.
  unfold marked, marker. destruct c as [|x c]; intros H; [contradiction|].
  replace (String x c ++ " (Continent)")
    with (String x ((c ++ " (Continent") ++ String ")" EmptyString)).
  - apply trim_framed; [exact H | reflexivity].
  - rewrite append_assoc_s. reflexivity.
Qed.

Lemma marked_no_bar (c : string) :
  hasChar "|" c = false -> hasChar "|" (marked c) = false.
Proof. intros H. unfold marked. rewrite hasChar_app, H. reflexivity. Qed.

Lemma join_not_empty (x : string) (l : list string) (sep : string) :
  x <> EmptyString -> Js.join (x :: l) sep <> EmptyString.
Proof.
  intros Hx. unfold Js.join. destruct x as [|c x]; [contradiction|].
  destruct l; cbn; discriminate.
Qed.

Lemma map_id_on {A : Type} (f : A -> A) (l : list A) :
  Forall (fun x => f x = x) l -> List.map f l = l.
Proof.
  induction 1 as [|x l Hx _ IH]; [reflexivity|]. cbn. now rewrite Hx, IH.
Qed.

Lemma continents_read (continents : list string) :
  Forall cleanContinent continents ->
  List.map (fun c => PostText.removeContinent 0 (Js.trim c)) (List.map marked continents)
  = continents.
Proof.
  induction 1 as [|c l [_ [Hp [Hfirst Hend]]] _ IH]; [reflexivity|].
  cbn [List.map]. rewrite (trim_marked c Hfirst), (removeContinent_marked c Hp Hend), IH.
  reflexivity.
Qed.

End DistributionFacts.

(** X22.  The distribution of a mammal post: for a record whose realms are
    written with bars between them and whose continents are written as
    "Name (Continent)" with bars between them, the text is the realms
    with ", " between them, followed, when there are one to three
    continents, by the continent names in parentheses with ", " between
    them and the marker "(Continent)" removed; with no continent or more
    than three it is the realms alone. *)
Theorem distributionInfoOf_format :
  forall (postMammal : Mammal.MammalRecord) (realms continents : list string),
    realms <> [] ->
    Forall DistributionFacts.cleanRealm realms ->
    Mammal.biogeographicRealm postMammal = Js.join realms "|" ->
    Js.join realms "|" <> EmptyString ->
    Forall DistributionFacts.cleanContinent continents ->
    Mammal.continentDistribution postMammal
      = Js.join (List.map DistributionFacts.marked continents) "|" ->
    PostText.distributionInfoOf postMammal =
      Js.join realms ", " ++
      match continents with
      | [] => EmptyString
      | _ :: _ =>
          if (List.length continents <=? 3)%nat
          then " (" ++ Js.join continents ", " ++ ")"
          else EmptyString
      end.
Proof.
  intros postMammal realms continents Hne Hrealms Hrealm Hnonempty Hconts Hcont.
  unfold PostText.distributionInfoOf. rewrite Hrealm, Hcont.
  apply String.eqb_neq in Hnonempty. rewrite Hnonempty. cbn [negb].
  rewrite (CharFacts.split_join "|" realms Hne).
  2:{ eapply Forall_impl; [|exact Hrealms]. intros r [H _]. exact H. }
  rewrite (DistributionFacts.map_id_on Js.trim realms).
  2:{ eapply Forall_impl; [|exact Hrealms]. intros r [_ H]. exact H. }
  destruct continents as [|c0 continents].
  - cbn. now rewrite append_empty_r.
  - assert (Hjoin : Js.join (List.map DistributionFacts.marked (c0 :: continents)) "|"
                    <> EmptyString).
    { cbn [List.map]. apply DistributionFacts.join_not_empty.
      unfold DistributionFacts.marked. destruct c0; discriminate. }
    apply String.eqb_neq in Hjoin. rewrite Hjoin. cbn [negb].
    rewrite (CharFacts.split_join "|").
    + rewrite (DistributionFacts.continents_read _ Hconts).
      destruct (List.length (c0 :: continents) <=? 3)%nat;
        [reflexivity | now rewrite append_empty_r].
    + discriminate.
    + apply Forall_map. eapply Forall_impl; [|exact Hconts].
      intros c [H _]. now apply DistributionFacts.marked_no_bar.
Qed.

Lemma distributionInfoOf_format_witness :
  PostText.distributionInfoOf ClassifierFacts.walrusRecord =
  Js.join ["Nearctic"; "Palearctic"] ", " ++
  (if (List.length ["North America"; "Europe"] <=? 3)%nat
   then " (" ++ Js.join ["North America"; "Europe"] ", " ++ ")"
   else EmptyString).
Proof.
  apply (distributionInfoOf_format ClassifierFacts.walrusRecord
           ["Nearctic"; "Palearctic"] ["North America"; "Europe"]).
  - discriminate.
  - repeat constructor.
  - reflexivity.
  - discriminate.
  - repeat constructor.
  - reflexivity.
Defined.

(** ** The earlier version of the media search *)

Module LegacyFacts.


End LegacyFacts.


